(** * Player evaluation dashboard (app.py): a shallow embedding

    The dashboard is one Python script over two pandas tables: the season
    summary [df] and the match log [players_enriched].  Every interaction
    re-runs the script top to bottom, so each block of the script is a
    function of the tables and of the widget values, and an uncaught Python
    exception ends the run.  Tables are lists of rows, a row is a finite map
    from column names to cells, and an exception is a value of [result].

    The embedding covers the impact90 fallback (lines 44-49), the sidebar's
    widgets and the filter block (lines 55-135), the summary table and its
    default columns (lines 145-169), the impact summary behind the scatter
    plot (lines 177-216), the profile tab (lines 239-453), and the selection
    and the table of the comparison tab (lines 460-471, 551-576).  The
    tables are taken as loaded; the drawing of tables and figures, and the
    comparison charts, are left out. *)

From Stdlib Require Import QArith Qround.
From stdpp Require Import base option list strings gmap pretty sorting.

Open Scope string_scope.
Open Scope Z_scope.
Open Scope list_scope.

(** ** Cells, rows and tables *)

(** A cell that holds a value.  The missing value (NaN, None) is not a
    cell: it is the absence of the column's key in the row, so a row has
    one representation. *)
Inductive cell :=
| Num (q : Q)
| Str (s : string).

Record DataFrame := mkDF {
  columns : list string;
  rows : list (gmap string cell)
}.

(** Python exceptions the script can end with. *)
Inductive exn :=
| KeyError | TypeError | ValueError | IndexError
| ReError | StreamlitAPIException.

Inductive result (A : Type) :=
| Ok (a : A)
| Raise (e : exn).
Arguments Ok {A} a.
Arguments Raise {A} e.

Definition rbind {A B} (m : result A) (k : A -> result B) : result B :=
  match m with
  | Ok a => k a
  | Raise e => Raise e
  end.

Notation "'let*' x := m 'in' k" := (rbind m (fun x => k))
  (at level 10, x name, m at level 100, k at level 200, only parsing).
Notation "'let*' ' p := m 'in' k" := (rbind m (fun x => let 'p := x in k))
  (at level 10, p pattern, m at level 100, k at level 200, only parsing).

Fixpoint mapR {A B} (f : A -> result B) (l : list A) : result (list B) :=
  match l with
  | [] => Ok []
  | a :: l' =>
      let* b := f a in
      let* bs := mapR f l' in
      Ok (b :: bs)
  end.

(** [c in df.columns] *)
Definition has_col (c : string) (d : DataFrame) : bool :=
  bool_decide (c ∈ columns d).

(** [df[mask]]: the rows the mask keeps, columns unchanged. *)
Definition select_rows (keep : gmap string cell -> bool) (d : DataFrame) : DataFrame :=
  mkDF (columns d) (List.filter keep (rows d)).

(** Writing a value, or the missing value, into column [c] of a row. *)
Definition set_cell (c : string) (v : option cell) (r : gmap string cell)
  : gmap string cell :=
  match v with
  | Some x => <[c := x]> r
  | None => delete c r
  end.

(** [df[c] = df[src]]: a whole-column assignment.  A new column is
    appended to [df.columns]. *)
Definition assign_column (c src : string) (d : DataFrame) : result DataFrame :=
  if has_col src d then
    Ok (mkDF (if has_col c d then columns d else columns d ++ [c])
             (map (fun r : gmap string cell => set_cell c (r !! src) r) (rows d)))
  else Raise KeyError.

(** ** Derived-metric normalizer (lines 44-49) *)

Definition normalize_players (players_enriched : DataFrame) : result DataFrame :=
  if negb (has_col "impact90" players_enriched)
  then assign_column "impact90" "plus_minus_per90" players_enriched
  else Ok players_enriched.

Definition normalize_summary (df : DataFrame) : result DataFrame :=
  if negb (has_col "impact90" df)
  then assign_column "impact90" "pm90" df
  else Ok df.

(** ** Text functions of Python and pandas

    [str.contains] compiles its pattern as a regular expression and searches
    each name with it, ignoring case; [int] and [float] parse text ([float]
    may parse a text to NaN, the inner [None]).  These belong to the
    libraries, not to the script, so the script is modelled over any
    implementation of them. *)
Class TextLib := {
  re_compiles : string -> bool;
  re_search_ci : string -> string -> bool;
  int_of_text : string -> option Z;
  float_of_text : string -> option (option Q)
}.

(** ** Cell comparisons *)

(** [==] and membership in [isin]: numbers by value, text by content, a
    number never equals text. *)
Definition cell_eqb (a b : cell) : bool :=
  match a, b with
  | Num x, Num y => Qeq_bool x y
  | Str x, Str y => String.eqb x y
  | _, _ => false
  end.

(** [series.isin(values)] at one row: a missing value is in no selection. *)
Definition isin (v : option cell) (values : list cell) : bool :=
  match v with
  | Some x => existsb (cell_eqb x) values
  | None => false
  end.

(** [series == value] at one row. *)
Definition eq_cell (v : option cell) (x : cell) : bool :=
  match v with
  | Some y => cell_eqb y x
  | None => false
  end.

(** [series >= n] at one row: false on a missing value, [TypeError] on
    text. *)
Definition ge_int (v : option cell) (n : Z) : result bool :=
  match v with
  | Some (Num q) => Ok (Qle_bool (inject_Z n) q)
  | Some (Str _) => Raise TypeError
  | None => Ok false
  end.

Fixpoint filterR {A} (f : A -> result bool) (l : list A) : result (list A) :=
  match l with
  | [] => Ok []
  | a :: l' =>
      let* b := f a in
      let* r := filterR f l' in
      Ok (if b then a :: r else r)
  end.

(** ** Sidebar (lines 55-107)

    The values of the five filter variables when line 113 is reached.  A
    multiselect that is not shown leaves its variable [None]. *)
Record Filters := mkFilters {
  selected_years : option (list cell);
  selected_teams : option (list cell);
  name_search : string;
  position_filter : cell;
  min_minutes : Z
}.

(** What the user has entered in the five widgets. *)
Record Widgets := mkWidgets {
  years_choice : list cell;
  teams_choice : list cell;
  search_text : string;
  position_choice : cell;
  minutes_choice : Z
}.

(** The gates of lines 58, 70, 91 and 98.  The widgets' option lists,
    defaults and bounds are arguments of the widgets and are not modelled. *)
Definition sidebar (w : Widgets) (df players_enriched : DataFrame) : Filters :=
  {| selected_years :=
       if has_col "year" df && has_col "year" players_enriched
       then Some (years_choice w) else None;
     selected_teams :=
       if has_col "team" df && has_col "team" players_enriched
       then Some (teams_choice w) else None;
     name_search := search_text w;
     position_filter :=
       if has_col "position" df then position_choice w else Str "All";
     min_minutes :=
       if has_col "minuter" df then minutes_choice w else 0 |}.

(** Python truth value of [selected_years] and [selected_teams]: [None]
    and the empty list are false. *)
Definition truthy (sel : option (list cell)) : bool :=
  match sel with
  | Some (_ :: _) => true
  | _ => false
  end.

Definition selection (sel : option (list cell)) : list cell :=
  default [] sel.

(** ** Filter engine (lines 113-135) *)

(** [d[d[c].isin(values)]] *)
Definition filter_isin (c : string) (values : list cell) (d : DataFrame)
  : result DataFrame :=
  if has_col c d
  then Ok (select_rows (fun r : gmap string cell => isin (r !! c) values) d)
  else Raise KeyError.

Section FilterEngine.
Context `{TextLib}.

(** [d[d["name"].str.contains(pat, case=False, na=False)]]: the pattern is
    compiled first; a missing name does not match ([na=False]), and neither
    does a cell of a text column that is not text.  Tables carry no column
    types here, so the refusal of [.str] on a column stored as numbers is
    outside the model. *)
Definition name_matches (pat : string) (v : option cell) : bool :=
  match v with
  | Some (Str s) => re_search_ci pat s
  | _ => false
  end.

Definition filter_name (pat : string) (d : DataFrame) : result DataFrame :=
  if has_col "name" d then
    if re_compiles pat
    then Ok (select_rows (fun r : gmap string cell => name_matches pat (r !! "name")) d)
    else Raise ReError
  else Raise KeyError.

(** [d[d["position"] == p]] *)
Definition filter_position (p : cell) (d : DataFrame) : result DataFrame :=
  if has_col "position" d
  then Ok (select_rows (fun r : gmap string cell => eq_cell (r !! "position") p) d)
  else Raise KeyError.

(** [d[d["minuter"] >= n]] *)
Definition filter_min_minutes (n : Z) (d : DataFrame) : result DataFrame :=
  let* kept := filterR (fun r : gmap string cell => ge_int (r !! "minuter") n) (rows d) in
  Ok (mkDF (columns d) kept).

(** The block of lines 113-135, statement by statement: the result is the
    pair [(filtered_df, filtered_players)]. *)
Definition apply_filters (f : Filters) (df players_enriched : DataFrame)
  : result (DataFrame * DataFrame) :=
  let filtered_df := df in
  let filtered_players := players_enriched in
  let* '(filtered_df, filtered_players) :=
    (if truthy (selected_years f) then
       let* a := filter_isin "year" (selection (selected_years f)) filtered_df in
       let* b := filter_isin "year" (selection (selected_years f)) filtered_players in
       Ok (a, b)
     else Ok (filtered_df, filtered_players)) in
  let* '(filtered_df, filtered_players) :=
    (if truthy (selected_teams f) then
       let* a := filter_isin "team" (selection (selected_teams f)) filtered_df in
       let* b := filter_isin "team" (selection (selected_teams f)) filtered_players in
       Ok (a, b)
     else Ok (filtered_df, filtered_players)) in
  let* filtered_df :=
    (if negb (String.eqb (name_search f) "")
     then filter_name (name_search f) filtered_df
     else Ok filtered_df) in
  let* filtered_df :=
    (if negb (cell_eqb (position_filter f) (Str "All"))
     then filter_position (position_filter f) filtered_df
     else Ok filtered_df) in
  let* filtered_df :=
    (if has_col "minuter" filtered_df
     then filter_min_minutes (min_minutes f) filtered_df
     else Ok filtered_df) in
  Ok (filtered_df, filtered_players).

End FilterEngine.

(** ** Ordering and sorting *)

(** Order of cells of one kind: numbers by value, text by code point. *)
Definition cell_leb (a b : cell) : bool :=
  match a, b with
  | Num x, Num y => Qle_bool x y
  | Str x, Str y => String.leb x y
  | Num _, Str _ => true
  | Str _, Num _ => false
  end.

Definition is_num (c : cell) : bool :=
  match c with Num _ => true | Str _ => false end.

(** Python can order the cells of a column only when they are of one
    kind. *)
Definition comparable (l : list cell) : bool :=
  forallb is_num l || forallb (fun c => negb (is_num c)) l.

Fixpoint insert_by {A} (key : A -> cell) (x : A) (l : list A) : list A :=
  match l with
  | [] => [x]
  | y :: l' =>
      if cell_leb (key x) (key y) then x :: y :: l' else y :: insert_by key x l'
  end.

Definition sort_by {A} (key : A -> cell) (l : list A) : list A :=
  foldr (insert_by key) [] l.

(** [series.sort_values()] on a column given as a list of optional cells:
    ascending, missing values last, [TypeError] on mixed kinds. *)
Definition sort_values (l : list (option cell)) : result (list (option cell)) :=
  let present := omap id l in
  let missing := List.filter (fun v : option cell => negb (bool_decide (is_Some v))) l in
  if comparable present
  then Ok (map Some (sort_by id present) ++ missing)
  else Raise TypeError.

Definition key_of (c : string) (dflt : cell) (r : gmap string cell) : cell :=
  default dflt (r !! c).

(** [d.sort_values(c)]: rows ascending by column [c], rows with a missing
    key last.  pandas leaves the order of rows with equal keys open; they
    keep their order here. *)
Definition sort_rows (c : string) (d : DataFrame) : result DataFrame :=
  if has_col c d then
    let present := List.filter (fun r : gmap string cell => bool_decide (is_Some (r !! c))) (rows d) in
    let missing := List.filter (fun r : gmap string cell => negb (bool_decide (is_Some (r !! c)))) (rows d) in
    if comparable (omap (fun r : gmap string cell => r !! c) (rows d))
    then Ok (mkDF (columns d) (sort_by (key_of c (Num 0)) present ++ missing))
    else Raise TypeError
  else Raise KeyError.

(** ** Summary view: default columns (lines 145-151) *)

Definition default_cols : list string :=
  [ "name"; "team"; "position"; "year"; "minuter"; "matcher";
    "usage_rate"; "starter_rate";
    "impact_combo90"; "pm90"; "gf90"; "ga90" ].

Definition available_cols (filtered_df : DataFrame) : list string :=
  List.filter (fun c => has_col c filtered_df) default_cols.

(** ** Summary view: impact against consistency (lines 186-237) *)

Definition metric_options : list (string * string) :=
  [ ("Combined Impact 90", "impact_combo90");
    ("Impact per 90", "impact90");
    ("Plus-minus per 90", "plus_minus_per90");
    ("On/Off per 90", "on_off_diff") ].

(** [metric_options[selected_metric]] *)
Definition metric_column (selected_metric : string) : result string :=
  match List.find (fun kv : string * string => String.eqb kv.1 selected_metric)
                  metric_options with
  | Some kv => Ok kv.2
  | None => Raise KeyError
  end.

(** A standard deviation, held as the non-negative square root of its
    variance: the root of a rational is irrational in general, so the
    number under the root is what is stored. *)
Record stdev := Sqrt { radicand : Q }.

Definition stdev_is (s : stdev) (x : Q) : Prop :=
  (0 <= x)%Q /\ (x * x == radicand s)%Q.

(** One row of [impact_summary]. *)
Record ImpactRow := mkImpactRow {
  ir_name : cell;
  impact_mean : option Q;
  impact_std : option stdev;
  matches_used : nat;
  minutes_total : Q
}.

(** The numbers of a column within a group, missing values skipped;
    [TypeError] on text. *)
Definition numbers (c : string) (group : list (gmap string cell)) : result (list Q) :=
  let* vs := mapR (fun r : gmap string cell =>
                    match r !! c with
                    | Some (Num q) => Ok (Some q)
                    | Some (Str _) => Raise TypeError
                    | None => Ok None
                    end) group in
  Ok (omap id vs).

Definition Qsum (l : list Q) : Q := Qred (foldr Qplus 0%Q l).

Definition Qlen (l : list Q) : Q := inject_Z (Z.of_nat (length l)).

(** ["mean"]: missing when the group has no value. *)
Definition agg_mean (l : list Q) : option Q :=
  match l with
  | [] => None
  | _ => Some (Qred (Qsum l / Qlen l))
  end.

(** ["std"]: sample standard deviation (one degree of freedom removed),
    missing when the group has fewer than two values. *)
Definition agg_std (l : list Q) : option stdev :=
  match l with
  | [] | [_] => None
  | _ =>
      let m := (Qsum l / Qlen l)%Q in
      let ss := Qsum (map (fun x => (x - m) * (x - m))%Q l) in
      Some (Sqrt (Qred (ss / (Qlen l - 1))))
  end.

(** The group keys of [groupby("name")]: the distinct names present, in
    ascending order, numbers before text; rows without a name are in no
    group. *)
Fixpoint distinct (l : list cell) : list cell :=
  match l with
  | [] => []
  | x :: l' => x :: List.filter (fun y => negb (cell_eqb y x)) (distinct l')
  end.

Definition group_keys (d : DataFrame) : list cell :=
  sort_by id (distinct (omap (fun r : gmap string cell => r !! "name") (rows d))).

Definition group_rows (k : cell) (d : DataFrame) : list (gmap string cell) :=
  List.filter (fun r : gmap string cell => eq_cell (r !! "name") k) (rows d).

Definition aggregate (metric : string) (d : DataFrame) (k : cell) : result ImpactRow :=
  let* xs := numbers metric (group_rows k d) in
  let* ms := numbers "minutes_played" (group_rows k d) in
  Ok (mkImpactRow k (agg_mean xs) (agg_std xs) (length xs) (Qsum ms)).

(** Lines 201-211. *)
Definition impact_summary (metric : string) (filtered_players : DataFrame)
  : result (list ImpactRow) :=
  if negb (has_col "name" filtered_players) then Raise KeyError
  else if negb (has_col metric filtered_players) then Raise KeyError
  else if negb (has_col "minutes_played" filtered_players) then Raise KeyError
  else mapR (aggregate metric filtered_players) (group_keys filtered_players).

(** Lines 213-216. *)
Definition in_scatter (min_minutes_scatter : Z) (a : ImpactRow) : bool :=
  Qle_bool (inject_Z min_minutes_scatter) (minutes_total a)
  && bool_decide (is_Some (impact_mean a)).

Definition scatter_set (min_minutes_scatter : Z) (s : list ImpactRow) : list ImpactRow :=
  List.filter (in_scatter min_minutes_scatter) s.

(** Lines 198-216 together: the rows the scatter plot is drawn from, for
    the metric the user selected by its label. *)
Definition scatter_rows (selected_metric : string) (min_minutes_scatter : Z)
  (filtered_players : DataFrame) : result (list ImpactRow) :=
  let* metric := metric_column selected_metric in
  let* s := impact_summary metric filtered_players in
  Ok (scatter_set min_minutes_scatter s).

(** ** What a run shows *)

(** A Python value handed to a widget: [None], NaN, a number, text, or a
    Python [int]. *)
Inductive value :=
| VNone
| VNaN
| VNum (q : Q)
| VStr (s : string)
| VInt (z : Z).

Inductive plot := MatchUsage | MatchImpact | OffensiveImpact | DefensiveImpact.

(** The elements a view adds to the page, in order.  A figure is held as
    the table it draws. *)
Inductive element :=
| Subheader (s : string)
| Header (player : option cell)
| Caption (s : string)
| Divider
| Warning (s : string)
| Info (s : string)
| Metric (label : string) (v : value)
| Figure (p : plot) (data : DataFrame).

(** [st.selectbox(options=..., index=i)] on a list of options that is not
    empty, the only way the script calls it: the index must name an option;
    the widget then returns the option the user picked, the one at [index]
    until they pick. *)
Definition selectbox {A} (options : list A) (index : nat) (picked : option nat)
  : result A :=
  match options !! index with
  | None => Raise StreamlitAPIException
  | Some dflt =>
      Ok (match picked with
          | Some i => default dflt (options !! i)
          | None => dflt
          end)
  end.

(** ** Player profile: selection (lines 247-263) *)

Definition column_values (c : string) (d : DataFrame) : result (list (option cell)) :=
  if has_col c d
  then Ok (map (fun r : gmap string cell => r !! c) (rows d))
  else Raise KeyError.

Definition player_names (filtered_df : DataFrame) : result (list (option cell)) :=
  let* names := column_values "name" filtered_df in
  sort_values names.

(** [series.get(key, default)] on a row of a table with the given columns. *)
Definition row_get (cols : list string) (r : gmap string cell) (key : string)
  (dflt : value) : value :=
  if bool_decide (key ∈ cols) then
    match r !! key with
    | Some (Num q) => VNum q
    | Some (Str s) => VStr s
    | None => VNaN
    end
  else dflt.

(** [filtered_df[filtered_df["name"] == selected_player].iloc[0]]: a
    missing name equals nothing, itself included, so no row is found for
    it. *)
Definition player_row (filtered_df : DataFrame) (selected_player : option cell)
  : result (gmap string cell) :=
  match List.filter (fun r : gmap string cell =>
                       from_option (eq_cell (r !! "name")) false selected_player)
                    (rows filtered_df) with
  | r :: _ => Ok r
  | [] => Raise IndexError
  end.

(** ** Player profile: metric cards (lines 266-293) *)

Definition pd_isna (v : value) : bool :=
  match v with
  | VNone | VNaN => true
  | _ => false
  end.

(** Rounding towards zero, as [int] does on a number. *)
Definition Qtrunc (q : Q) : Z :=
  if Qle_bool 0 q then Qfloor q else Qceiling q.

(** Rounding to the nearest integer, ties to the even one. *)
Definition Qrint (q : Q) : Z :=
  let f := Qfloor q in
  let d := (q - inject_Z f)%Q in
  match (d ?= 1 # 2)%Q with
  | Lt => f
  | Gt => f + 1
  | Eq => if Z.even f then f else f + 1
  end.

Definition Qround2 (q : Q) : Q :=
  Qred (inject_Z (Qrint (q * 100)) / 100).

Section Profile.
Context `{TextLib}.

(** [int(v)] *)
Definition py_int (v : value) : result Z :=
  match v with
  | VNone => Raise TypeError
  | VNaN => Raise ValueError
  | VNum q => Ok (Qtrunc q)
  | VInt z => Ok z
  | VStr s =>
      match int_of_text s with
      | Some z => Ok z
      | None => Raise ValueError
      end
  end.

(** [round(v, 2)] *)
Definition py_round2 (v : value) : result value :=
  match v with
  | VNone | VStr _ => Raise TypeError
  | VNaN => Ok VNaN
  | VNum q => Ok (VNum (Qround2 q))
  | VInt z => Ok (VInt z)
  end.

(** ["–" if pd.isna(v) else f"{int(v)}"] *)
Definition int_or_dash (v : value) : result value :=
  if pd_isna v then Ok (VStr "–")
  else let* z := py_int v in Ok (VStr (pretty z)).

Definition metric_cards (cols : list string) (r : gmap string cell)
  : result (list element) :=
  let get := row_get cols r in
  let c1 := Metric "Team" (get "team" VNone) in
  let c2 := Metric "Position" (get "position" VNone) in
  let age := get "ålder" VNone in
  let* a := int_or_dash age in
  let c3 := Metric "Year" a in
  let* minutes := py_int (get "minuter" VNone) in
  let c4 := Metric "Minutes" (VInt minutes) in
  let mv := get "market_value" VNone in
  let* m := int_or_dash mv in
  let c5 := Metric "Market value" m in
  let* matches := py_int (get "matcher" VNone) in
  let* usage := py_round2 (get "usage_rate" (VInt 0)) in
  let* starter := py_round2 (get "starter_rate" (VInt 0)) in
  let* impact := py_round2 (get "impact90" (VInt 0)) in
  let* pm := py_round2 (get "pm90" (VInt 0)) in
  let* onoff := py_round2 (get "on_off_total" (VInt 0)) in
  Ok [ c1; c2; c3; c4; c5;
       Subheader "Availability";
       Metric "Matches" (VInt matches);
       Metric "Usage rate" usage;
       Metric "Starter rate" starter;
       Subheader "Impact";
       Metric "Impact / 90" impact;
       Metric "Plus-minus / 90" pm;
       Metric "On-Off diff" onoff ].

(** ** Player profile: per-match charts (lines 299-453) *)

(** [d[c] = d[c].astype(float)] *)
Definition astype_float (c : string) (d : DataFrame) : result DataFrame :=
  if has_col c d then
    let* rs := mapR (fun r : gmap string cell =>
                       match r !! c with
                       | Some (Str s) =>
                           match float_of_text s with
                           | Some v => Ok (set_cell c (Num <$> v) r)
                           | None => Raise ValueError
                           end
                       | _ => Ok r
                       end) (rows d) in
    Ok (mkDF (columns d) rs)
  else Raise KeyError.

(** A call that names columns fails with [e] when one of them is not in
    the table. *)
Definition require (cols : list string) (d : DataFrame) (e : exn) : result unit :=
  if forallb (fun c => has_col c d) cols then Ok tt else Raise e.

(** [d[cols]] *)
Definition project (cols : list string) (d : DataFrame) : result DataFrame :=
  let* _ := require cols d KeyError in
  Ok (mkDF cols
        (map (fun r : gmap string cell =>
                filter (fun kv : string * cell => kv.1 ∈ cols) r) (rows d))).

(** [d[d["name"] == player_name]] *)
Definition rows_of_player (player_name : option cell) (d : DataFrame)
  : result DataFrame :=
  if has_col "name" d
  then Ok (select_rows (fun r : gmap string cell =>
                          from_option (eq_cell (r !! "name")) false player_name) d)
  else Raise KeyError.

(** [series.max()] can only fail on a column of mixed kinds. *)
Definition column_max_ok (c : string) (d : DataFrame) : result unit :=
  let* vs := column_values c d in
  if comparable (omap id vs) then Ok tt else Raise TypeError.

Definition impact_columns : list string :=
  [ "match_start_datetime"; "match_id_short"; "name"; "player_type";
    "minutes_played"; "goals"; "assists"; "gf_on"; "ga_on"; "plus_minus_raw";
    "on_goal_diff"; "off_goal_diff"; "yellow_card"; "red_card" ].

Definition match_usage (filtered_players : DataFrame) (player_name : option cell)
  : result (list element) :=
  let* m := rows_of_player player_name filtered_players in
  let* m := sort_rows "match_start_datetime" m in
  let* m := astype_float "start_minute" m in
  let* m := astype_float "end_minute" m in
  let* m := astype_float "minutes_played" m in
  if (0 <? length (rows m))%nat then
    let* _ := require [ "match_id_short"; "minutes_played"; "player_type";
                        "start_minute"; "end_minute"; "goals"; "assists";
                        "plus_minus_impact" ] m ValueError in
    let* _ := column_max_ok "match_length" m in
    Ok [Figure MatchUsage m]
  else Ok [Info "Ingen matchdata tillgänglig för de valda filtren"].

Definition match_impact (filtered_players : DataFrame) (player_name : option cell)
  : result (list element) :=
  let* d := rows_of_player player_name filtered_players in
  let* player_data := sort_rows "match_start_datetime" d in
  if (0 <? length (rows player_data))%nat then
    let* _ := require [ "match_id_short"; "impact_combo90"; "minutes_played";
                        "goals"; "assists"; "yellow_card"; "red_card";
                        "plus_minus_raw" ] player_data ValueError in
    Ok [Figure MatchImpact player_data]
  else Ok [Info "Ingen matchdata tillgänglig"].

(** The offensive and the defensive chart differ in the plotted column
    only, [gf_on] or [ga_on], both among [impact_columns]. *)
Definition on_pitch_chart (p : plot) (filtered_players : DataFrame)
  (player_name : option cell) : result (list element) :=
  let* d := rows_of_player player_name filtered_players in
  let* d := project impact_columns d in
  let* player_data := sort_rows "match_start_datetime" d in
  if (0 <? length (rows player_data))%nat
  then Ok [Figure p player_data]
  else Ok [].

Definition profile_charts (filtered_players : DataFrame) (player_name : option cell)
  : result (list element) :=
  let* usage := match_usage filtered_players player_name in
  let* impact := match_impact filtered_players player_name in
  let* offensive := on_pitch_chart OffensiveImpact filtered_players player_name in
  let* defensive := on_pitch_chart DefensiveImpact filtered_players player_name in
  Ok ([Subheader "📅 Match usage"] ++ usage ++
      [Divider; Subheader "⚡ Match impact"] ++ impact ++
      [Divider; Subheader "🛡️ Offensive impact"] ++ offensive ++
      [Subheader "🛡️ Defensive impact"] ++ defensive).

(** The whole tab (lines 239-453).  [picked] is the position the user
    chose in the selectbox, if they chose one. *)
Definition tab_profile (filtered_df filtered_players : DataFrame)
  (picked : option nat) : result (list element) :=
  let* names := player_names filtered_df in
  if (length names =? 0)%nat then
    Ok [Subheader "Select player"; Warning "Inga spelare matchar de valda filtren"]
  else
    let* selected_player := selectbox names 6 picked in
    let* r := player_row filtered_df selected_player in
    let* cards := metric_cards (columns filtered_df) r in
    let* charts := profile_charts filtered_players selected_player in
    Ok ([Subheader "Select player";
         Caption ("Showing " +:+ pretty (length (rows filtered_df)) +:+ " players");
         Divider;
         Header selected_player] ++ cards ++ charts).

End Profile.

(** ** Comparison view: default columns (lines 551-557) *)

Definition default_cols_pc : list string :=
  [ "name"; "team"; "position"; "year"; "minuter"; "matcher";
    "usage_rate"; "starter_rate";
    "impact90"; "pm90"; "gf90"; "ga90" ].

Definition available_cols_pc (filtered_df : DataFrame) : list string :=
  List.filter (fun c => has_col c filtered_df) default_cols_pc.

(** ** An implementation of the text functions, to run examples

    It agrees with Python on search patterns made of letters, digits and
    spaces, and on numerals made of decimal digits. *)

Definition lower (a : Ascii.ascii) : Ascii.ascii :=
  let n := Ascii.N_of_ascii a in
  if ((65 <=? n) && (n <=? 90))%N then Ascii.ascii_of_N (n + 32) else a.

Fixpoint lower_string (s : string) : string :=
  match s with
  | EmptyString => EmptyString
  | String a s' => String (lower a) (lower_string s')
  end.

Fixpoint occurs (p s : string) : bool :=
  String.prefix p s ||
  match s with
  | EmptyString => false
  | String _ s' => occurs p s'
  end.

Fixpoint digits (s : string) (acc : Z) : option Z :=
  match s with
  | EmptyString => Some acc
  | String a s' =>
      let n := Ascii.N_of_ascii a in
      if ((48 <=? n) && (n <=? 57))%N
      then digits s' (10 * acc + Z.of_N (n - 48))
      else None
  end.

Definition numeral (s : string) : option Z :=
  match s with
  | EmptyString => None
  | _ => digits s 0
  end.

#[global] Instance plain_text : TextLib := {
  re_compiles := fun _ => true;
  re_search_ci := fun p s => occurs (lower_string p) (lower_string s);
  int_of_text := numeral;
  float_of_text := fun s => (fun z => Some (inject_Z z)) <$> numeral s
}.

(** ** Statements about the script *)

(** [d'] is [d] with a new last column [impact90] that repeats column
    [src] row by row, every other cell unchanged. *)
Definition backfilled (src : string) (d d' : DataFrame) : Prop :=
  columns d' = columns d ++ ["impact90"] /\
  Forall2 (fun r r' : gmap string cell =>
             r' !! "impact90" = r !! src /\
             r' !! "impact90" = r' !! src /\
             forall c, c <> "impact90" -> r' !! c = r !! c)
          (rows d) (rows d').

(** The outcome of a normalizer with fallback column [src] on [d]. *)
Definition normalized (src : string) (d : DataFrame) (out : result DataFrame) : Prop :=
  if has_col "impact90" d then out = Ok d
  else if has_col src d then exists d', out = Ok d' /\ backfilled src d d'
  else out = Raise KeyError.

(** A summary table without [impact90], the second row without [pm90]. *)
Definition summary_without_impact : DataFrame :=
  mkDF ["name"; "pm90"]
    [ {[ "name" := Str "Amar Muhsin"; "pm90" := Num (3 # 2) ]};
      {[ "name" := Str "Gustav Nordh" ]} ].

Definition summary_with_impact : DataFrame :=
  mkDF ["name"; "pm90"; "impact90"]
    [ {[ "name" := Str "Amar Muhsin"; "pm90" := Num (3 # 2); "impact90" := Num (3 # 2) ]};
      {[ "name" := Str "Gustav Nordh" ]} ].

(** A schema with [impact90] (every normalized summary table has it) and
    without [impact_combo90]. *)
Definition schema_with_impact90 : DataFrame :=
  mkDF ["name"; "team"; "usage_rate"; "pm90"; "impact90"] [].

(** The rows that [d["minuter"] >= n] keeps when it does not raise. *)
Definition minutes_at_least (n : Z) (r : gmap string cell) : bool :=
  match r !! "minuter" with
  | Some (Num q) => Qle_bool (inject_Z n) q
  | _ => false
  end.

(** Filtering a table by one selection, and by the season selection and
    then the team selection; an empty selection restricts nothing. *)
Definition by_selection (c : string) (sel : option (list cell)) (d : DataFrame)
  : DataFrame :=
  if truthy sel
  then select_rows (fun r : gmap string cell => isin (r !! c) (selection sel)) d
  else d.

Definition season_team (f : Filters) (d : DataFrame) : DataFrame :=
  by_selection "team" (selected_teams f) (by_selection "year" (selected_years f) d).

(** Nothing selected: no season, no team, no search text, position "All",
    minimum minutes 0. *)
Definition pass_through (f : Filters) : Prop :=
  truthy (selected_years f) = false /\
  truthy (selected_teams f) = false /\
  name_search f = "" /\
  position_filter f = Str "All" /\
  min_minutes f = 0.

(** Every row's [minuter] is a number and is not negative. *)
Definition minutes_recorded (d : DataFrame) : Prop :=
  Forall (fun r : gmap string cell =>
            exists q, r !! "minuter" = Some (Num q) /\ (0 <= q)%Q) (rows d).

Definition nothing_selected : Filters :=
  mkFilters (Some []) (Some []) "" (Str "All") 0.

(** A summary table of two players, the second without recorded minutes,
    and a match table. *)
Definition two_players : DataFrame :=
  mkDF ["name"; "team"; "year"; "position"; "minuter"]
    [ {[ "name" := Str "Amar Muhsin"; "team" := Str "IK Brage"; "year" := Str "2024";
         "position" := Str "Forward"; "minuter" := Num 900 ]};
      {[ "name" := Str "Gustav Nordh"; "team" := Str "IK Brage"; "year" := Str "2024";
         "position" := Str "Forward" ]} ].

Definition two_players_kept : DataFrame :=
  mkDF ["name"; "team"; "year"; "position"; "minuter"]
    [ {[ "name" := Str "Amar Muhsin"; "team" := Str "IK Brage"; "year" := Str "2024";
         "position" := Str "Forward"; "minuter" := Num 900 ]} ].

Definition two_matches : DataFrame :=
  mkDF ["name"; "team"; "year"; "minutes_played"]
    [ {[ "name" := Str "Amar Muhsin"; "team" := Str "IK Brage"; "year" := Str "2024";
         "minutes_played" := Num 90 ]};
      {[ "name" := Str "Gustav Nordh"; "team" := Str "Örebro"; "year" := Str "2023";
         "minutes_played" := Num 12 ]} ].

Definition brage_2024 : Filters :=
  mkFilters (Some [Str "2024"]) (Some [Str "IK Brage"]) "amar" (Str "Forward") 500.

Definition brage_matches : DataFrame :=
  mkDF ["name"; "team"; "year"; "minutes_played"]
    [ {[ "name" := Str "Amar Muhsin"; "team" := Str "IK Brage"; "year" := Str "2024";
         "minutes_played" := Num 90 ]} ].

(** A match log: three matches of one player, with impact 1, 3, 5 in 30,
    60, 90 minutes, and a single match of another player. *)
Definition match_log : DataFrame :=
  mkDF ["name"; "match_id_short"; "impact_combo90"; "minutes_played"]
    [ {[ "name" := Str "Amar Muhsin"; "match_id_short" := Str "m1";
         "impact_combo90" := Num 1; "minutes_played" := Num 30 ]};
      {[ "name" := Str "Gustav Nordh"; "match_id_short" := Str "m1";
         "impact_combo90" := Num 2; "minutes_played" := Num 90 ]};
      {[ "name" := Str "Amar Muhsin"; "match_id_short" := Str "m2";
         "impact_combo90" := Num 3; "minutes_played" := Num 60 ]};
      {[ "name" := Str "Amar Muhsin"; "match_id_short" := Str "m3";
         "impact_combo90" := Num 5; "minutes_played" := Num 90 ]} ].

Definition three_matches : ImpactRow :=
  mkImpactRow (Str "Amar Muhsin") (Some 3%Q) (Some (Sqrt 4)) 3 180.

Definition single_match : ImpactRow :=
  mkImpactRow (Str "Gustav Nordh") (Some 2%Q) None 1 90.

(** The defined numbers of column [c] over the match rows of player [k]. *)
Definition values_of (c : string) (k : cell) (d : DataFrame) : list Q :=
  omap (fun r : gmap string cell =>
          match r !! c with
          | Some (Num q) => Some q
          | _ => None
          end) (group_rows k d).

Definition total (l : list Q) : Q := foldr Qplus 0%Q l.

Definition squares (m : Q) (l : list Q) : list Q :=
  map (fun x => (x - m) * (x - m))%Q l.

(** [a] holds, for its player, the number [n] of matches with the metric
    defined, the sum of minutes, the mean (sum over [n], undefined when [n]
    is 0) and the sample standard deviation (the root of the squared
    deviations from the mean over [n - 1], undefined when [n] is below
    2). *)
Definition aggregates (metric : string) (d : DataFrame) (a : ImpactRow) : Prop :=
  let xs := values_of metric (ir_name a) d in
  matches_used a = length xs /\
  (minutes_total a == total (values_of "minutes_played" (ir_name a) d))%Q /\
  match impact_mean a with
  | Some m => (0 < length xs)%nat /\ (m * Qlen xs == total xs)%Q
  | None => length xs = 0%nat
  end /\
  match impact_std a with
  | Some s =>
      (2 <= length xs)%nat /\
      exists m, impact_mean a = Some m /\
                (radicand s * (Qlen xs - 1) == total (squares m xs))%Q
  | None => (length xs <= 1)%nat
  end.

(** A summary row of the 2024 IK Brage roster; [age] and [matches] may be
    undefined. *)
Definition summary_row (name : string) (age matches : option Q) : gmap string cell :=
  set_cell "matcher" (Num <$> matches)
    (set_cell "ålder" (Num <$> age)
       {[ "name" := Str name; "team" := Str "IK Brage"; "position" := Str "Forward";
          "year" := Str "2024"; "minuter" := Num 900; "usage_rate" := Num (3 # 4);
          "pm90" := Num (1 # 8); "impact90" := Num (1 # 8) ]}).

Definition summary_columns : list string :=
  [ "name"; "team"; "position"; "year"; "ålder"; "minuter"; "matcher";
    "usage_rate"; "pm90"; "impact90" ].

Definition six_rows : list (gmap string cell) :=
  [ summary_row "Alexander Zetterström" (Some 27%Q) (Some 20%Q);
    summary_row "Amar Muhsin" (Some 25%Q) (Some 18%Q);
    summary_row "Cesar Weilid" None (Some 12%Q);
    summary_row "Gustav Nordh" (Some 22%Q) (Some 21%Q);
    summary_row "Jonah Almquist" (Some 30%Q) (Some 9%Q);
    summary_row "Pontus Hindrikes" (Some 19%Q) (Some 3%Q) ].

(** Six players: fewer than the position the selectbox asks for. *)
Definition roster_of_six : DataFrame := mkDF summary_columns six_rows.

(** Seven players, all with recorded matches. *)
Definition roster_of_seven : DataFrame :=
  mkDF summary_columns (six_rows ++ [summary_row "Viktor Lundberg" (Some 24%Q) (Some 15%Q)]).

(** Seven players, the last one with an undefined number of matches. *)
Definition roster_matches_undefined : DataFrame :=
  mkDF summary_columns (six_rows ++ [summary_row "Viktor Lundberg" (Some 24%Q) None]).

Definition match_columns : list string :=
  [ "name"; "team"; "year"; "match_start_datetime"; "match_id_short"; "player_type";
    "minutes_played"; "start_minute"; "end_minute"; "match_length"; "goals";
    "assists"; "gf_on"; "ga_on"; "plus_minus_raw"; "plus_minus_impact";
    "on_goal_diff"; "off_goal_diff"; "yellow_card"; "red_card"; "impact_combo90" ].

(** A match log with the full schema in which Viktor Lundberg has no
    row. *)
Definition log_without_viktor : DataFrame :=
  mkDF match_columns
    [ list_to_map
        [ ("name", Str "Amar Muhsin"); ("team", Str "IK Brage"); ("year", Str "2024");
          ("match_start_datetime", Str "2024-04-01 15:00"); ("match_id_short", Str "m1");
          ("player_type", Str "starter"); ("minutes_played", Num 90);
          ("start_minute", Num 0); ("end_minute", Num 90); ("match_length", Num 90);
          ("goals", Num 1); ("assists", Num 0); ("gf_on", Num 2); ("ga_on", Num 1);
          ("plus_minus_raw", Num 1); ("plus_minus_impact", Num 1);
          ("on_goal_diff", Num 1); ("off_goal_diff", Num 0);
          ("yellow_card", Num 0); ("red_card", Num 0); ("impact_combo90", Num 1) ] ].

Definition charts_without_matches : list element :=
  [ Subheader "📅 Match usage";
    Info "Ingen matchdata tillgänglig för de valda filtren";
    Divider;
    Subheader "⚡ Match impact";
    Info "Ingen matchdata tillgänglig";
    Divider;
    Subheader "🛡️ Offensive impact";
    Subheader "🛡️ Defensive impact" ].

(** An informational placeholder directly after the subheader [title]. *)
Fixpoint placeholder_after (title : string) (page : list element) : bool :=
  match page with
  | Subheader s :: ((Info _ :: _) as rest) =>
      String.eqb s title || placeholder_after title rest
  | _ :: rest => placeholder_after title rest
  | [] => false
  end.

(** What the profile of Viktor Lundberg shows above the charts. *)
Definition viktor_cards : list element :=
  [ Subheader "Select player"; Caption "Showing 7 players"; Divider;
    Header (Some (Str "Viktor Lundberg"));
    Metric "Team" (VStr "IK Brage"); Metric "Position" (VStr "Forward");
    Metric "Year" (VStr "24"); Metric "Minutes" (VInt 900);
    Metric "Market value" (VStr "–");
    Subheader "Availability";
    Metric "Matches" (VInt 15); Metric "Usage rate" (VNum (3 # 4));
    Metric "Starter rate" (VInt 0);
    Subheader "Impact";
    Metric "Impact / 90" (VNum (3 # 25)); Metric "Plus-minus / 90" (VNum (3 # 25));
    Metric "On-Off diff" (VInt 0) ].

(** ** The sidebar's widgets (lines 55-107) *)

(** Insertion sort by a comparison given as a function; [sort_by key] is
    the instance that compares keys with [cell_leb]. *)
Fixpoint insert_le {A} (le : A -> A -> bool) (x : A) (l : list A) : list A :=
  match l with
  | [] => [x]
  | y :: l' => if le x y then x :: y :: l' else y :: insert_le le x l'
  end.

Definition sort_le {A} (le : A -> A -> bool) (l : list A) : list A :=
  foldr (insert_le le) [] l.

(** [sorted(l)] and [sorted(l, reverse=True)]: [TypeError] when numbers
    and text meet; equal elements keep their order either way. *)
Definition py_sorted (reverse : bool) (l : list cell) : result (list cell) :=
  if comparable l
  then Ok (if reverse then sort_le (fun a b => cell_leb b a) l else sort_by id l)
  else Raise TypeError.

(** [d[c].dropna().unique().tolist()]: the values present, each once, in
    order of first appearance. *)
Definition unique_values (c : string) (d : DataFrame) : list cell :=
  distinct (omap (fun r : gmap string cell => r !! c) (rows d)).

(** [value in values] *)
Definition py_in (v : cell) (values : list cell) : bool :=
  existsb (cell_eqb v) values.

(** [st.multiselect(options=..., default=...)]: every default must be one
    of the options; the widget returns what the user picked, the default
    until they pick. *)
Definition multiselect (options dflt : list cell) (picked : option (list cell))
  : result (list cell) :=
  if forallb (fun v => py_in v options) dflt
  then Ok (default dflt picked)
  else Raise StreamlitAPIException.

(** What the user has done in the sidebar; [None] where a widget is
    untouched. *)
Record Picks := mkPicks {
  years_pick : option (list cell);
  teams_pick : option (list cell);
  search_pick : string;
  position_pick : option nat;
  minutes_pick : option Z
}.

(** Lines 59 and 64. *)
Definition available_years (df : DataFrame) : result (list cell) :=
  py_sorted true (unique_values "year" df).

Definition default_years (available : list cell) : list cell :=
  take 1 available.

(** Lines 58-67. *)
Definition year_widget (df players_enriched : DataFrame) (picked : option (list cell))
  : result (option (list cell)) :=
  if has_col "year" df && has_col "year" players_enriched then
    let* years := available_years df in
    let* selected_years := multiselect years (default_years years) picked in
    Ok (Some selected_years)
  else Ok None.

(** Lines 72-75. *)
Definition available_teams (df : DataFrame) (selected_years : option (list cell))
  : result (list cell) :=
  if truthy selected_years then
    let* d := filter_isin "year" (selection selected_years) df in
    py_sorted false (unique_values "team" d)
  else py_sorted false (unique_values "team" df).

(** Lines 80-82. *)
Definition default_teams (available : list cell) : list cell :=
  if py_in (Str "IK Brage") available then [Str "IK Brage"] else take 1 available.

(** Lines 70-85. *)
Definition team_widget (df players_enriched : DataFrame)
  (selected_years picked : option (list cell)) : result (option (list cell)) :=
  if has_col "team" df && has_col "team" players_enriched then
    let* teams := available_teams df selected_years in
    let* selected_teams := multiselect teams (default_teams teams) picked in
    Ok (Some selected_teams)
  else Ok None.

(** Lines 91-95: the selectbox opens on its first option, "All". *)
Definition position_widget (df : DataFrame) (picked : option nat) : result cell :=
  if has_col "position" df then
    let* sorted_positions := py_sorted false (unique_values "position" df) in
    selectbox (Str "All" :: sorted_positions) 0 picked
  else Ok (Str "All").

(** [series.max()]: the greatest value present, NaN when there is none,
    [TypeError] when numbers and text meet. *)
Definition series_max (l : list (option cell)) : result value :=
  let present := omap id l in
  if comparable present then
    Ok (match sort_le (fun a b => cell_leb b a) present with
        | Num q :: _ => VNum q
        | Str s :: _ => VStr s
        | [] => VNaN
        end)
  else Raise TypeError.

Section Sidebar.
Context `{TextLib}.

(** Lines 98-107.  The slider's upper bound [int(df["minuter"].max())] is
    computed before the slider is shown; the slider's own checks of its
    arguments are left out, and it returns the user's value, 0 until they
    move it. *)
Definition minutes_widget (df : DataFrame) (picked : option Z) : result Z :=
  if has_col "minuter" df then
    let* values := column_values "minuter" df in
    let* greatest := series_max values in
    let* max_value := py_int greatest in
    Ok (default 0 picked)
  else Ok 0.

(** Lines 55-107: the five widgets in order. *)
Definition sidebar_run (df players_enriched : DataFrame) (u : Picks) : result Filters :=
  let* selected_years := year_widget df players_enriched (years_pick u) in
  let* selected_teams := team_widget df players_enriched selected_years (teams_pick u) in
  let name_search := search_pick u in
  let* position_filter := position_widget df (position_pick u) in
  let* min_minutes := minutes_widget df (minutes_pick u) in
  Ok (mkFilters selected_years selected_teams name_search position_filter min_minutes).

(** Lines 55-135: the sidebar, then the filter block. *)
Definition filtered_tables (df players_enriched : DataFrame) (u : Picks)
  : result (DataFrame * DataFrame) :=
  let* f := sidebar_run df players_enriched u in
  apply_filters f df players_enriched.

End Sidebar.

(** ** Tables and picks for the sidebar *)

(** A summary table over two seasons and three teams. *)
Definition seasons_table : DataFrame :=
  mkDF ["name"; "team"; "year"; "position"; "minuter"]
    [ {[ "name" := Str "Amar Muhsin"; "team" := Str "Örebro"; "year" := Str "2023";
         "position" := Str "Forward"; "minuter" := Num 1200 ]};
      {[ "name" := Str "Amar Muhsin"; "team" := Str "IK Brage"; "year" := Str "2024";
         "position" := Str "Forward"; "minuter" := Num 900 ]};
      {[ "name" := Str "Gustav Nordh"; "team" := Str "GAIS"; "year" := Str "2024";
         "position" := Str "Defender" ]} ].

Definition untouched : Picks := mkPicks None None "" None None.

(** What the untouched sidebar selects on [seasons_table]. *)
Definition opening_filters : Filters :=
  mkFilters (Some [Str "2024"]) (Some [Str "IK Brage"]) "" (Str "All") 0.

(** A summary table that has a [minuter] column and no row. *)
Definition empty_summary : DataFrame :=
  mkDF ["name"; "team"; "year"; "position"; "minuter"] [].

(** ** The filters as one condition on a summary row *)

(** A row passes when it passes every filter that is switched on. *)
Definition keeps `{TextLib} (f : Filters) (df : DataFrame) (r : gmap string cell) : bool :=
  (negb (truthy (selected_years f)) || isin (r !! "year") (selection (selected_years f)))
  && (negb (truthy (selected_teams f)) || isin (r !! "team") (selection (selected_teams f)))
  && (String.eqb (name_search f) "" || name_matches (name_search f) (r !! "name"))
  && (cell_eqb (position_filter f) (Str "All") || eq_cell (r !! "position") (position_filter f))
  && (negb (has_col "minuter" df) || minutes_at_least (min_minutes f) r).

(** The filters of the spec's example: season 2024, team IK Brage,
    position Forward, at least 500 minutes. *)
Definition forwards_500 : Filters :=
  mkFilters (Some [Str "2024"]) (Some [Str "IK Brage"]) "" (Str "Forward") 500.

Definition forwards_1000 : Filters :=
  mkFilters (Some [Str "2024"]) (Some [Str "IK Brage"]) "" (Str "Forward") 1000.

(** Four summary rows: one passes [forwards_500], the others miss the
    position, the minutes and the team. *)
Definition four_players : DataFrame :=
  mkDF ["name"; "team"; "year"; "position"; "minuter"]
    [ {[ "name" := Str "Amar Muhsin"; "team" := Str "IK Brage"; "year" := Str "2024";
         "position" := Str "Forward"; "minuter" := Num 900 ]};
      {[ "name" := Str "Gustav Nordh"; "team" := Str "IK Brage"; "year" := Str "2024";
         "position" := Str "Defender"; "minuter" := Num 1500 ]};
      {[ "name" := Str "Cesar Weilid"; "team" := Str "IK Brage"; "year" := Str "2024";
         "position" := Str "Forward"; "minuter" := Num 300 ]};
      {[ "name" := Str "Jonah Almquist"; "team" := Str "GAIS"; "year" := Str "2024";
         "position" := Str "Forward"; "minuter" := Num 2000 ]} ].

Definition one_forward : DataFrame :=
  mkDF ["name"; "team"; "year"; "position"; "minuter"]
    [ {[ "name" := Str "Amar Muhsin"; "team" := Str "IK Brage"; "year" := Str "2024";
         "position" := Str "Forward"; "minuter" := Num 900 ]} ].

Definition no_forward : DataFrame :=
  mkDF ["name"; "team"; "year"; "position"; "minuter"] [].

(** ** The two tables (lines 153-169 and 559-576) *)

(** [d.sort_values(by=c, ascending=False, na_position="last")]: rows
    descending by column [c], rows with a missing key last; rows with
    equal keys keep their order. *)
Definition sort_rows_desc (c : string) (d : DataFrame) : result DataFrame :=
  if has_col c d then
    let present := List.filter (fun r : gmap string cell => bool_decide (is_Some (r !! c))) (rows d) in
    let missing := List.filter (fun r : gmap string cell => negb (bool_decide (is_Some (r !! c)))) (rows d) in
    if comparable (omap (fun r : gmap string cell => r !! c) (rows d))
    then Ok (mkDF (columns d)
               (sort_le (fun a b => cell_leb (key_of c (Num 0) b) (key_of c (Num 0) a)) present
                ++ missing))
    else Raise TypeError
  else Raise KeyError.

(** The column menu of a table: the options are the table's columns, the
    default is the resolved default list, and every default must be an
    option. *)
Definition column_menu (options dflt : list string) (picked : option (list string))
  : result (list string) :=
  if forallb (fun c => bool_decide (c ∈ options)) dflt
  then Ok (default dflt picked)
  else Raise StreamlitAPIException.

(** Lines 163-169: [filtered_df[selected_cols].sort_values(...)]. *)
Definition summary_table (filtered_df : DataFrame) (selected_cols : list string)
  : result DataFrame :=
  let* shown := project selected_cols filtered_df in
  sort_rows_desc "usage_rate" shown.

(** Lines 151-169. *)
Definition summary_view (filtered_df : DataFrame) (picked : option (list string))
  : result DataFrame :=
  let* selected_cols :=
    column_menu (columns filtered_df) (available_cols filtered_df) picked in
  summary_table filtered_df selected_cols.

(** ** Comparison view: selection and table (lines 460-471, 551-576) *)

(** Equality of names that may be missing: in [unique] and in [isin] the
    missing name equals itself. *)
Definition name_eqb (x y : option cell) : bool :=
  match x, y with
  | Some a, Some b => cell_eqb a b
  | None, None => true
  | _, _ => false
  end.

(** [filtered_df["name"].unique()]: the names in order of first
    appearance, the missing name among them if a row lacks its name. *)
Fixpoint unique_names (l : list (option cell)) : list (option cell) :=
  match l with
  | [] => []
  | x :: l' => x :: List.filter (fun y => negb (name_eqb y x)) (unique_names l')
  end.

Definition example_players : list string :=
  [ "Alexander Zetterström"; "Amar Muhsin"; "Gustav Nordh" ].

(** [name in filtered_df["name"].values] *)
Definition name_present (filtered_df : DataFrame) (name : string) : bool :=
  existsb (fun r : gmap string cell => eq_cell (r !! "name") (Str name)) (rows filtered_df).

(** Lines 463-465. *)
Definition default_comparison (filtered_df : DataFrame) : list (option cell) :=
  if forallb (name_present filtered_df) example_players
  then map (fun n => Some (Str n)) example_players
  else [].

(** Membership among options that may hold the missing name. *)
Definition option_in (v : option cell) (options : list (option cell)) : bool :=
  existsb (name_eqb v) options.

(** Lines 460-466. *)
Definition compare_widget (filtered_df : DataFrame) (picked : option (list (option cell)))
  : result (list (option cell)) :=
  let* names := column_values "name" filtered_df in
  let options := unique_names names in
  let dflt := default_comparison filtered_df in
  if forallb (fun v => option_in v options) dflt
  then Ok (default dflt picked)
  else Raise StreamlitAPIException.

(** [filtered_df[filtered_df["name"].isin(players)]]: a missing name is in
    the selection when the missing name was selected. *)
Definition comparison_rows (filtered_df : DataFrame) (players : list (option cell))
  : result DataFrame :=
  if has_col "name" filtered_df
  then Ok (select_rows (fun r : gmap string cell => option_in (r !! "name") players)
             filtered_df)
  else Raise KeyError.

(** Lines 470-471: the notice above five players. *)
Definition too_many (players : list (option cell)) : bool :=
  (5 <? length players)%nat.

(** Lines 557-576, reached when at least one player is selected and the
    charts above the table have been drawn. *)
Definition comparison_table (filtered_df : DataFrame) (players : list (option cell))
  (picked : option (list string)) : result DataFrame :=
  let* selected_cols_pc :=
    column_menu (columns filtered_df) (available_cols_pc filtered_df) picked in
  let* chosen := comparison_rows filtered_df players in
  let* shown := project selected_cols_pc chosen in
  sort_rows_desc "usage_rate" shown.

(** ** Tables for the two tables *)

(** Usage rates out of order, one of them undefined. *)
Definition usage_table : DataFrame :=
  mkDF ["name"; "team"; "usage_rate"; "pm90"]
    [ {[ "name" := Str "Amar Muhsin"; "team" := Str "IK Brage"; "usage_rate" := Num (1 # 2) ]};
      {[ "name" := Str "Cesar Weilid"; "team" := Str "IK Brage"; "pm90" := Num 1 ]};
      {[ "name" := Str "Gustav Nordh"; "team" := Str "IK Brage"; "usage_rate" := Num (9 # 10) ]} ].

Definition usage_table_shown : DataFrame :=
  mkDF ["name"; "team"; "usage_rate"; "pm90"]
    [ {[ "name" := Str "Gustav Nordh"; "team" := Str "IK Brage"; "usage_rate" := Num (9 # 10) ]};
      {[ "name" := Str "Amar Muhsin"; "team" := Str "IK Brage"; "usage_rate" := Num (1 # 2) ]};
      {[ "name" := Str "Cesar Weilid"; "team" := Str "IK Brage"; "pm90" := Num 1 ]} ].

Definition two_compared : DataFrame :=
  mkDF ["name"; "team"; "usage_rate"; "pm90"]
    [ {[ "name" := Str "Gustav Nordh"; "team" := Str "IK Brage"; "usage_rate" := Num (9 # 10) ]};
      {[ "name" := Str "Cesar Weilid"; "team" := Str "IK Brage"; "pm90" := Num 1 ]} ].

(** Column [c] is in descending order down the rows that have it. *)
Definition descending (c : string) (l : list (gmap string cell)) : Prop :=
  StronglySorted (fun a b : gmap string cell =>
                    cell_leb (key_of c (Num 0) b) (key_of c (Num 0) a) = true) l.

(** The part of a row that a table with columns [cols] shows. *)
Definition shown_part (cols : list string) (r : gmap string cell) : gmap string cell :=
  filter (fun kv : string * cell => kv.1 ∈ cols) r.

(** ** Statements about the impact summary *)

(** The match rows that carry a name, the ones [groupby("name")] puts in
    a group. *)
Definition named_rows (d : DataFrame) : list (gmap string cell) :=
  List.filter (fun r : gmap string cell => bool_decide (is_Some (r !! "name"))) (rows d).

(** The rows of a list that have a value in column [c]. *)
Definition defined_in (c : string) (l : list (gmap string cell))
  : list (gmap string cell) :=
  List.filter (fun r : gmap string cell => bool_decide (is_Some (r !! c))) l.

(** The sum of the numbers of column [c] down a list of rows. *)
Definition column_total (c : string) (l : list (gmap string cell)) : Q :=
  foldr Qplus 0%Q
        (map (fun r : gmap string cell =>
                match r !! c with Some (Num q) => q | _ => 0%Q end) l).

(** Strictly before, in the order of [cell_leb]. *)
Definition cell_ltb (a b : cell) : bool :=
  cell_leb a b && negb (cell_eqb a b).

(** No text in column [c]. *)
Definition numeric_column (c : string) (d : DataFrame) : Prop :=
  Forall (fun r : gmap string cell => forall s, r !! c <> Some (Str s)) (rows d).

(** ** Tables for the normalizer followed by the filters *)

(** A summary file without [impact90]; the second row has no [pm90]. *)
Definition raw_summary : DataFrame :=
  mkDF ["name"; "team"; "year"; "position"; "minuter"; "pm90"]
    [ {[ "name" := Str "Amar Muhsin"; "team" := Str "IK Brage"; "year" := Str "2024";
         "position" := Str "Forward"; "minuter" := Num 900; "pm90" := Num (3 # 2) ]};
      {[ "name" := Str "Gustav Nordh"; "team" := Str "IK Brage"; "year" := Str "2024";
         "position" := Str "Forward"; "minuter" := Num 1200 ]} ].

Definition raw_summary_ready : DataFrame :=
  mkDF ["name"; "team"; "year"; "position"; "minuter"; "pm90"; "impact90"]
    [ {[ "name" := Str "Amar Muhsin"; "team" := Str "IK Brage"; "year" := Str "2024";
         "position" := Str "Forward"; "minuter" := Num 900; "pm90" := Num (3 # 2);
         "impact90" := Num (3 # 2) ]};
      {[ "name" := Str "Gustav Nordh"; "team" := Str "IK Brage"; "year" := Str "2024";
         "position" := Str "Forward"; "minuter" := Num 1200 ]} ].

Definition raw_summary_shown : DataFrame :=
  mkDF ["name"; "team"; "year"; "position"; "minuter"; "pm90"; "impact90"]
    [ {[ "name" := Str "Gustav Nordh"; "team" := Str "IK Brage"; "year" := Str "2024";
         "position" := Str "Forward"; "minuter" := Num 1200 ]} ].

(** ** Statements about the player profile *)

(** The columns whose value a metric card turns into a number. *)
Definition card_numbers : list string :=
  [ "ålder"; "minuter"; "market_value"; "matcher"; "usage_rate"; "starter_rate";
    "impact90"; "pm90"; "on_off_total" ].

(** [d["name"] == player] at one row. *)
Definition of_player (player : option cell) (r : gmap string cell) : bool :=
  from_option (eq_cell (r !! "name")) false player.

(** A column in ascending order, its missing values last. *)
Definition ascending_missing_last (l : list (option cell)) : Prop :=
  exists present n,
    l = map Some present ++ replicate n None /\
    StronglySorted (fun a b => cell_leb a b = true) present.

(** Rows in the order of their kick-off, rows without one last. *)
Definition chronological (l : list (gmap string cell)) : Prop :=
  ascending_missing_last (map (fun r : gmap string cell => r !! "match_start_datetime") l).

(** The [name] column of a list of rows. *)
Definition match_names (l : list (gmap string cell)) : list (option cell) :=
  map (fun r : gmap string cell => r !! "name") l.

(** The table [data] holds the match rows of [player] in [filtered_players],
    as many as there are and at least one, in the order of their
    kick-off. *)
Definition draws_matches_of (player : option cell) (filtered_players data : DataFrame)
  : Prop :=
  length (rows data) = length (List.filter (of_player player) (rows filtered_players)) /\
  (0 < length (rows data))%nat /\
  Forall (fun r : gmap string cell => of_player player r = true) (rows data) /\
  chronological (rows data).

(** The on-pitch columns of Amar Muhsin's match in [log_without_viktor]. *)
Definition amar_on_pitch : DataFrame :=
  mkDF impact_columns
    [ list_to_map
        [ ("match_start_datetime", Str "2024-04-01 15:00"); ("match_id_short", Str "m1");
          ("name", Str "Amar Muhsin"); ("player_type", Str "starter");
          ("minutes_played", Num 90); ("goals", Num 1); ("assists", Num 0);
          ("gf_on", Num 2); ("ga_on", Num 1); ("plus_minus_raw", Num 1);
          ("on_goal_diff", Num 1); ("off_goal_diff", Num 0);
          ("yellow_card", Num 0); ("red_card", Num 0) ] ].

Definition amar_charts : list element :=
  [ Subheader "📅 Match usage"; Figure MatchUsage log_without_viktor;
    Divider;
    Subheader "⚡ Match impact"; Figure MatchImpact log_without_viktor;
    Divider;
    Subheader "🛡️ Offensive impact"; Figure OffensiveImpact amar_on_pitch;
    Subheader "🛡️ Defensive impact"; Figure DefensiveImpact amar_on_pitch ].

(** * Proofs *)

Lemma rbind_ok {A B} (m : result A) (k : A -> result B) b :
  rbind m k = Ok b -> exists a, m = Ok a /\ k a = Ok b.
Proof. destruct m as [a|e]; simpl; [eauto | discriminate]. Qed.

Ltac bind_inv H :=
  let a := fresh "x" in
  let Ha := fresh "Hx" in
  apply rbind_ok in H; destruct H as (a & Ha & H).

(** *** Normalizer *)

Lemma set_cell_same c v (r : gmap string cell) : set_cell c v r !! c = v.
Proof.
  destruct v as [x|]; simpl; [apply lookup_insert_eq | apply lookup_delete_eq].
Qed.

Lemma set_cell_other c c' v (r : gmap string cell) :
  c' <> c -> set_cell c v r !! c' = r !! c'.
Proof.
  intros Hne. destruct v as [x|]; simpl;
    [apply lookup_insert_ne | apply lookup_delete_ne]; congruence.
Qed.

Lemma assign_impact90 src d :
  src <> "impact90" ->
  has_col "impact90" d = false ->
  has_col src d = true ->
  exists d', assign_column "impact90" src d = Ok d' /\ backfilled src d d'.
Proof.
  intros Hsrc Hno Hyes. unfold assign_column. rewrite Hyes, Hno.
  eexists; split; [reflexivity|]. split; [reflexivity|]. simpl.
  induction (rows d) as [|r rs IH]; simpl; constructor; auto.
  rewrite set_cell_same, set_cell_other by assumption.
  repeat split; auto. intros c Hc. now apply set_cell_other.
Qed.

Lemma normalizer_spec src d :
  src <> "impact90" ->
  normalized src d
    (if negb (has_col "impact90" d) then assign_column "impact90" src d else Ok d).
Proof.
  intros Hsrc. unfold normalized.
  destruct (has_col "impact90" d) eqn:Hi; simpl; [reflexivity|].
  destruct (has_col src d) eqn:Hs.
  - now apply assign_impact90.
  - unfold assign_column. now rewrite Hs.
Qed.

(** C2. After normalization, a match table without [impact90] has in every
    row an [impact90] equal to that row's [plus_minus_per90], a summary
    table without [impact90] has in every row an [impact90] equal to that
    row's [pm90], and a table that already has [impact90] is returned
    unchanged.  (Without the fallback column the assignment raises
    [KeyError].) *)
Theorem impact90_fallback (df players_enriched : DataFrame) :
  normalized "plus_minus_per90" players_enriched (normalize_players players_enriched) /\
  normalized "pm90" df (normalize_summary df).
Proof.
  split; apply normalizer_spec; discriminate.
Qed.

Example normalizer_example :
  normalize_summary summary_without_impact = Ok summary_with_impact /\
  normalize_summary summary_with_impact = Ok summary_with_impact /\
  normalize_players summary_without_impact = Raise KeyError.
Proof. repeat split; vm_compute; reflexivity. Qed.

(** *** Default columns of the two tables *)

Lemma default_cols_split :
  default_cols =
    [ "name"; "team"; "position"; "year"; "minuter"; "matcher";
      "usage_rate"; "starter_rate" ] ++ ["impact_combo90"] ++ ["pm90"; "gf90"; "ga90"] /\
  default_cols_pc =
    [ "name"; "team"; "position"; "year"; "minuter"; "matcher";
      "usage_rate"; "starter_rate" ] ++ ["impact90"] ++ ["pm90"; "gf90"; "ga90"].
Proof. split; reflexivity. Qed.

Lemma filter_out_absent (x : string) (q : string -> bool) (l : list string) :
  x ∉ l ->
  List.filter (fun c => negb (String.eqb c x)) (List.filter q l) = List.filter q l.
Proof.
  induction l as [|a l IH]; intros Hx; simpl; [reflexivity|].
  apply not_elem_of_cons in Hx as [Hne Hx].
  destruct (q a); simpl; [|now apply IH].
  destruct (String.eqb_spec a x) as [->|_]; [congruence|].
  simpl. f_equal. now apply IH.
Qed.

Lemma filter_out_present (x : string) (q : string -> bool) :
  List.filter (fun c => negb (String.eqb c x)) (List.filter q [x]) = [].
Proof.
  simpl. destruct (q x); simpl; [|reflexivity].
  now rewrite String.eqb_refl.
Qed.

Lemma resolved_without (x : string) (q : string -> bool) (pre post : list string) :
  x ∉ pre -> x ∉ post ->
  List.filter (fun c => negb (String.eqb c x)) (List.filter q (pre ++ [x] ++ post))
  = List.filter q pre ++ List.filter q post.
Proof.
  intros Hpre Hpost.
  rewrite !List.filter_app, filter_out_absent, filter_out_present,
    filter_out_absent by assumption.
  reflexivity.
Qed.

(** C9, counterexample.  On a schema that has [impact90] the comparison
    table's resolved default columns include it and the summary table's do
    not. *)
Lemma default_columns_not_equal :
  available_cols schema_with_impact90 = ["name"; "team"; "usage_rate"; "pm90"] /\
  available_cols_pc schema_with_impact90 = ["name"; "team"; "usage_rate"; "impact90"; "pm90"] /\
  available_cols schema_with_impact90 <> available_cols_pc schema_with_impact90.
Proof. repeat split; vm_compute; congruence. Qed.

(** C9, amended.  Both tables resolve their defaults the same way, a
    declared list restricted to the columns present, but the declared lists
    differ in one entry, [impact_combo90] for the summary table and
    [impact90] for the comparison table: for every schema the two resolved
    lists agree on all other names, and they are equal exactly when the
    schema has neither of the two columns. *)
Theorem default_columns_agree_up_to_impact (d : DataFrame) :
  List.filter (fun c => negb (String.eqb c "impact_combo90")) (available_cols d)
  = List.filter (fun c => negb (String.eqb c "impact90")) (available_cols_pc d)
  /\ (available_cols d = available_cols_pc d <->
      has_col "impact_combo90" d = false /\ has_col "impact90" d = false).
Proof.
  destruct default_cols_split as [Hs Hp].
  unfold available_cols, available_cols_pc. rewrite Hs, Hp. split.
  - rewrite !resolved_without; [reflexivity | | | |];
      intros Hin; apply list_elem_of_In in Hin; simpl in Hin; intuition discriminate.
  - rewrite !List.filter_app.
    set (pre := List.filter _ (_ :: _ :: _)). clearbody pre.
    set (post := List.filter _ (_ :: _ :: _)). clearbody post.
    simpl.
    destruct (has_col "impact_combo90" d), (has_col "impact90" d); simpl; split;
      try (intros [? ?]; discriminate); try (intros _; reflexivity);
      try (intros; split; reflexivity);
      intros Heq; apply app_inv_head in Heq; discriminate || (
        apply (f_equal (@length string)) in Heq; simpl in Heq; lia).
Qed.

(** *** Filter engine *)

Lemma sublist_List_filter {A} (p : A -> bool) (l : list A) :
  sublist (List.filter p l) l.
Proof.
  induction l as [|a l IH]; simpl; [constructor|].
  destruct (p a); now constructor.
Qed.

Lemma List_filter_all {A} (p : A -> bool) (l : list A) :
  Forall (fun a => p a = true) l -> List.filter p l = l.
Proof.
  induction 1 as [|a l Ha _ IH]; simpl; [reflexivity|].
  now rewrite Ha, IH.
Qed.

Lemma filterR_minutes_ok n (l l' : list (gmap string cell)) :
  filterR (fun r : gmap string cell => ge_int (r !! "minuter") n) l = Ok l' ->
  l' = List.filter (minutes_at_least n) l.
Proof.
  revert l'. induction l as [|r l IH]; simpl; intros l' Hl.
  - now inversion Hl.
  - bind_inv Hl. bind_inv Hl. inversion Hl; subst; clear Hl.
    rewrite <- (IH _ Hx0). unfold minutes_at_least.
    unfold ge_int in Hx. destruct (r !! "minuter") as [[q|s]|];
      inversion Hx; reflexivity.
Qed.

Lemma filterR_minutes_total n (l : list (gmap string cell)) :
  Forall (fun r : gmap string cell => forall s, r !! "minuter" <> Some (Str s)) l ->
  filterR (fun r : gmap string cell => ge_int (r !! "minuter") n) l
  = Ok (List.filter (minutes_at_least n) l).
Proof.
  induction 1 as [|r l Hr _ IH]; simpl; [reflexivity|].
  rewrite IH. unfold minutes_at_least, ge_int.
  destruct (r !! "minuter") as [[q|s]|]; simpl; try reflexivity.
  now destruct (Hr s).
Qed.

Lemma minutes_recorded_kept (l : list (gmap string cell)) :
  Forall (fun r : gmap string cell =>
            exists q, r !! "minuter" = Some (Num q) /\ (0 <= q)%Q) l ->
  Forall (fun r => minutes_at_least 0 r = true) l.
Proof.
  intros Hall. eapply Forall_impl; [exact Hall|].
  intros r (q & Hq & Hle). unfold minutes_at_least.
  rewrite Hq. now apply Qle_bool_iff.
Qed.

Lemma has_col_columns c d d' : columns d = columns d' -> has_col c d = has_col c d'.
Proof. unfold has_col. now intros ->. Qed.

Lemma filter_isin_ok c values d d' :
  filter_isin c values d = Ok d' ->
  d' = select_rows (fun r : gmap string cell => isin (r !! c) values) d.
Proof.
  unfold filter_isin. destruct (has_col c d); [|discriminate].
  now inversion 1.
Qed.

Section FilterProofs.
Context `{TextLib}.

Lemma filter_min_minutes_ok n d d' :
  filter_min_minutes n d = Ok d' -> d' = select_rows (minutes_at_least n) d.
Proof.
  unfold filter_min_minutes. intros Hd. bind_inv Hd.
  apply filterR_minutes_ok in Hx. inversion Hd. now subst.
Qed.

(** The two selection steps, lines 116-124, on both tables. *)
Lemma selection_step c sel (a b : DataFrame) (out : DataFrame * DataFrame) :
  (if truthy sel then
     rbind (filter_isin c (selection sel) a) (fun a' =>
     rbind (filter_isin c (selection sel) b) (fun b' => Ok (a', b')))
   else Ok (a, b)) = Ok out ->
  out = (by_selection c sel a, by_selection c sel b).
Proof.
  unfold by_selection. destruct (truthy sel); intros Hs.
  - bind_inv Hs. bind_inv Hs. apply filter_isin_ok in Hx, Hx0.
    inversion Hs. now subst.
  - now inversion Hs.
Qed.

(** A run of the whole block that does not raise. *)
Lemma apply_filters_ok f df players fdf fp :
  apply_filters f df players = Ok (fdf, fp) ->
  fp = season_team f players /\
  exists d,
    columns d = columns df /\
    sublist (rows d) (rows (season_team f df)) /\
    (name_search f = "" -> position_filter f = Str "All" -> d = season_team f df) /\
    fdf = if has_col "minuter" df then select_rows (minutes_at_least (min_minutes f)) d
          else d.
Proof.
  unfold apply_filters. intros Hrun.
  bind_inv Hrun. apply selection_step in Hx. subst x.
  bind_inv Hrun. apply selection_step in Hx. subst x.
  fold (season_team f df) in Hrun. fold (season_team f players) in Hrun.
  bind_inv Hrun. bind_inv Hrun. bind_inv Hrun.
  inversion Hrun; subst; clear Hrun. split; [reflexivity|].
  assert (Hcols : columns (season_team f df) = columns df).
  { unfold season_team, by_selection.
    destruct (truthy (selected_teams f)), (truthy (selected_years f)); reflexivity. }
  assert (Hname : columns x = columns (season_team f df) /\
                  sublist (rows x) (rows (season_team f df)) /\
                  (name_search f = "" -> x = season_team f df)).
  { destruct (String.eqb_spec (name_search f) "") as [Heq|Hne]; simpl in Hx.
    - inversion Hx. repeat split; reflexivity.
    - unfold filter_name in Hx.
      destruct (has_col "name" _); [|discriminate].
      destruct (re_compiles _); [|discriminate].
      inversion Hx. repeat split; [apply sublist_List_filter | congruence]. }
  destruct Hname as (Hc1 & Hs1 & He1).
  assert (Hpos : columns x0 = columns x /\ sublist (rows x0) (rows x) /\
                 (position_filter f = Str "All" -> x0 = x)).
  { destruct (cell_eqb (position_filter f) (Str "All")) eqn:Hall; simpl in Hx0.
    - inversion Hx0. repeat split; reflexivity.
    - unfold filter_position in Hx0.
      destruct (has_col "position" _); [|discriminate].
      inversion Hx0. repeat split; [apply sublist_List_filter|].
      intros Heq. rewrite Heq in Hall. discriminate. }
  destruct Hpos as (Hc2 & Hs2 & He2).
  exists x0. repeat split.
  - congruence.
  - etransitivity; eassumption.
  - intros Hn Hp. rewrite He2, He1 by assumption. reflexivity.
  - rewrite (has_col_columns "minuter" x0 df) in Hx1 by congruence.
    destruct (has_col "minuter" df).
    + now apply filter_min_minutes_ok.
    + now inversion Hx1.
Qed.

End FilterProofs.

Section FilterClaims.
Context `{TextLib}.

Lemma apply_filters_pass_through f df players :
  pass_through f ->
  apply_filters f df players
  = rbind (if has_col "minuter" df then filter_min_minutes 0 df else Ok df)
          (fun d => Ok (d, players)).
Proof.
  intros (Hy & Ht & Hn & Hp & Hm). unfold apply_filters.
  rewrite Hy, Ht, Hn, Hp, Hm. reflexivity.
Qed.

Lemma filter_min_minutes_recorded d :
  minutes_recorded d -> filter_min_minutes 0 d = Ok d.
Proof.
  intros Hrec. unfold filter_min_minutes.
  rewrite filterR_minutes_total.
  - simpl. rewrite List_filter_all by now apply minutes_recorded_kept.
    now destruct d.
  - eapply Forall_impl; [exact Hrec|].
    intros r (q & Hq & _) s. rewrite Hq. discriminate.
Qed.

(** C1, amended.  With no season and no team selected, no search text,
    position "All" and minimum minutes 0, a run of the filter block leaves
    the match table equal to its input, and leaves the summary table equal
    to its input restricted to the rows whose [minuter] is a number that is
    at least 0 (all rows when there is no [minuter] column); so the summary
    table too is left equal to its input when it has no [minuter] column or
    when every row has a recorded, non-negative [minuter]. *)
Theorem pass_through_identity f df players :
  pass_through f ->
  (forall fdf fp,
      apply_filters f df players = Ok (fdf, fp) ->
      fp = players /\
      fdf = if has_col "minuter" df then select_rows (minutes_at_least 0) df else df) /\
  (minutes_recorded df -> apply_filters f df players = Ok (df, players)) /\
  (has_col "minuter" df = false -> apply_filters f df players = Ok (df, players)).
Proof.
  intros Hpass. rewrite (apply_filters_pass_through _ _ _ Hpass).
  repeat split.
  - bind_inv H0. now inversion H0.
  - bind_inv H0. inversion H0; subst; clear H0.
    destruct (has_col "minuter" df).
    + now apply filter_min_minutes_ok.
    + now inversion Hx.
  - intros Hrec. destruct (has_col "minuter" df); [|reflexivity].
    now rewrite filter_min_minutes_recorded.
  - now intros ->.
Qed.

(** C3.  A run of the filter block filters the match table by the season
    selection and the team selection and by nothing else, and filters the
    summary table by the same two selections before its own three filters:
    the filtered match table is [season_team] of the match table, the
    filtered summary table is a sub-table of [season_team] of the summary
    table, and two runs on one match table whose season and team selections
    agree give the same filtered match table, whatever the summary table,
    the search text, the position and the minimum minutes are. *)
Theorem match_table_follows_season_team f df players fdf fp :
  apply_filters f df players = Ok (fdf, fp) ->
  fp = season_team f players /\
  columns fdf = columns df /\
  sublist (rows fdf) (rows (season_team f df)) /\
  forall f' df' fdf' fp',
    selected_years f' = selected_years f ->
    selected_teams f' = selected_teams f ->
    apply_filters f' df' players = Ok (fdf', fp') ->
    fp' = fp.
Proof.
  intros Hrun. apply apply_filters_ok in Hrun as (Hfp & d & Hcols & Hsub & _ & Hfdf).
  repeat split.
  - exact Hfp.
  - subst fdf. destruct (has_col "minuter" df); simpl; congruence.
  - subst fdf. destruct (has_col "minuter" df); simpl; [|exact Hsub].
    etransitivity; [apply sublist_List_filter | exact Hsub].
  - intros f' df' fdf' fp' Hy Ht Hrun'.
    apply apply_filters_ok in Hrun' as (Hfp' & _).
    subst fp fp'. unfold season_team. now rewrite Hy, Ht.
Qed.

(** C10.  When the summary table has a [minuter] column, a run of the
    filter block, at any minimum-minutes threshold (0 included), drops every
    summary row whose [minuter] is undefined: each row of the filtered
    summary table has a number as [minuter], at least the threshold. *)
Theorem undefined_minutes_excluded f df players fdf fp :
  has_col "minuter" df = true ->
  apply_filters f df players = Ok (fdf, fp) ->
  (forall r : gmap string cell, r !! "minuter" = None -> r ∉ rows fdf) /\
  (forall r : gmap string cell, r ∈ rows fdf ->
     exists q, r !! "minuter" = Some (Num q) /\ (inject_Z (min_minutes f) <= q)%Q).
Proof.
  intros Hcol Hrun.
  apply apply_filters_ok in Hrun as (_ & d & _ & _ & _ & Hfdf).
  rewrite Hcol in Hfdf. subst fdf. simpl.
  assert (Hkept : forall r : gmap string cell,
             r ∈ List.filter (minutes_at_least (min_minutes f)) (rows d) ->
             exists q, r !! "minuter" = Some (Num q) /\
                       (inject_Z (min_minutes f) <= q)%Q).
  { intros r Hin. apply list_elem_of_In, List.filter_In in Hin as [_ Hge].
    unfold minutes_at_least in Hge.
    destruct (r !! "minuter") as [[q|s]|]; try discriminate.
    exists q. split; [reflexivity | now apply Qle_bool_iff]. }
  split; [|exact Hkept].
  intros r Hnone Hin. destruct (Hkept r Hin) as (q & Hq & _). congruence.
Qed.

Lemma selection_step_total c sel (a b : DataFrame) :
  (truthy sel = true -> has_col c a = true /\ has_col c b = true) ->
  (if truthy sel then
     rbind (filter_isin c (selection sel) a) (fun a' =>
     rbind (filter_isin c (selection sel) b) (fun b' => Ok (a', b')))
   else Ok (a, b)) = Ok (by_selection c sel a, by_selection c sel b).
Proof.
  unfold by_selection, filter_isin. destruct (truthy sel); [|reflexivity].
  intros Hcols. destruct Hcols as [-> ->]; reflexivity.
Qed.

Lemma has_col_by_selection c c' sel d :
  has_col c (by_selection c' sel d) = has_col c d.
Proof. unfold by_selection. now destruct (truthy sel). Qed.

Lemma Forall_List_filter {A} (P : A -> Prop) (q : A -> bool) (l : list A) :
  Forall P l -> Forall P (List.filter q l).
Proof.
  induction 1 as [|a l Ha _ IH]; simpl; [constructor|].
  destruct (q a); [now constructor | assumption].
Qed.

(** The block does not raise when the selected columns exist, the search
    text is empty or a pattern that compiles over a table with names, the
    position is "All" or the table has positions, and no [minuter] cell
    holds text. *)
Lemma apply_filters_total f df players :
  (truthy (selected_years f) = true ->
     has_col "year" df = true /\ has_col "year" players = true) ->
  (truthy (selected_teams f) = true ->
     has_col "team" df = true /\ has_col "team" players = true) ->
  name_search f = "" \/
    (has_col "name" df = true /\ re_compiles (name_search f) = true) ->
  position_filter f = Str "All" \/ has_col "position" df = true ->
  Forall (fun r : gmap string cell => forall t, r !! "minuter" <> Some (Str t)) (rows df) ->
  exists fdf, apply_filters f df players = Ok (fdf, season_team f players).
Proof.
  intros Hyear Hteam Hsearch Hposition Hnum. unfold apply_filters.
  rewrite (selection_step_total "year" (selected_years f) df players Hyear).
  simpl.
  rewrite (selection_step_total "team" (selected_teams f)).
  2:{ now rewrite !has_col_by_selection. }
  simpl. fold (season_team f df). fold (season_team f players).
  assert (Hcols : forall c, has_col c (season_team f df) = has_col c df).
  { intros c. unfold season_team. now rewrite !has_col_by_selection. }
  assert (Hrows : Forall (fun r : gmap string cell =>
                            forall t, r !! "minuter" <> Some (Str t))
                         (rows (season_team f df))).
  { unfold season_team, by_selection.
    destruct (truthy (selected_teams f)), (truthy (selected_years f)); simpl;
      repeat apply Forall_List_filter; exact Hnum. }
  generalize dependent (season_team f df). intros d Hcols Hrows.
  assert (Hname : exists d1,
             (if negb (String.eqb (name_search f) "")
              then filter_name (name_search f) d else Ok d) = Ok d1 /\
             columns d1 = columns d /\
             Forall (fun r : gmap string cell =>
                       forall t, r !! "minuter" <> Some (Str t)) (rows d1)).
  { destruct Hsearch as [->|[Hn Hre]].
    - simpl. eauto.
    - destruct (negb _); [|eauto]. unfold filter_name.
      rewrite Hcols, Hn, Hre. eexists. split; [reflexivity|].
      split; [reflexivity|]. simpl. now apply Forall_List_filter. }
  destruct Hname as (d1 & -> & Hc1 & Hr1). simpl.
  assert (Hpos : exists d2,
             (if negb (cell_eqb (position_filter f) (Str "All"))
              then filter_position (position_filter f) d1 else Ok d1) = Ok d2 /\
             columns d2 = columns d1 /\
             Forall (fun r : gmap string cell =>
                       forall t, r !! "minuter" <> Some (Str t)) (rows d2)).
  { destruct Hposition as [->|Hp].
    - simpl. eauto.
    - destruct (negb _); [|eauto]. unfold filter_position.
      rewrite (has_col_columns "position" d1 d Hc1), Hcols, Hp.
      eexists. split; [reflexivity|]. split; [reflexivity|].
      simpl. now apply Forall_List_filter. }
  destruct Hpos as (d2 & -> & Hc2 & Hr2). simpl.
  destruct (has_col "minuter" d2); simpl; [|eauto].
  unfold filter_min_minutes. rewrite filterR_minutes_total by assumption.
  simpl. eauto.
Qed.

(** The sidebar hands over such values: a selection is only made on a
    column both tables have, a position only on a table with positions. *)
Lemma apply_filters_runs w df players :
  search_text w = "" \/
    (has_col "name" df = true /\ re_compiles (search_text w) = true) ->
  Forall (fun r : gmap string cell => forall t, r !! "minuter" <> Some (Str t)) (rows df) ->
  exists fdf,
    apply_filters (sidebar w df players) df players
    = Ok (fdf, season_team (sidebar w df players) players).
Proof.
  intros Hsearch Hnum. apply apply_filters_total; simpl; try assumption.
  - destruct (has_col "year" df), (has_col "year" players); simpl;
      (discriminate || auto).
  - destruct (has_col "team" df), (has_col "team" players); simpl;
      (discriminate || auto).
  - destruct (has_col "position" df); auto.
Qed.

End FilterClaims.

(** C1, counterexample.  With nothing selected, a summary row without
    recorded minutes is dropped: the filtered summary table is not the
    input. *)
Lemma pass_through_drops_unrecorded_minutes :
  pass_through nothing_selected /\
  apply_filters nothing_selected two_players two_matches
  = Ok (two_players_kept, two_matches) /\
  two_players_kept <> two_players.
Proof.
  split; [repeat split|]. split; [vm_compute; reflexivity|].
  intros Heq. apply (f_equal (fun d => length (rows d))) in Heq. discriminate.
Qed.

Lemma pass_through_identity_witness :
  apply_filters nothing_selected two_players_kept two_matches
  = Ok (two_players_kept, two_matches).
Proof.
  assert (Hpass : pass_through nothing_selected) by (repeat split; reflexivity).
  apply (proj1 (proj2 (pass_through_identity
                         nothing_selected two_players_kept two_matches Hpass))).
  constructor; [|constructor]. exists 900%Q. split; [reflexivity | discriminate].
Defined.

Lemma match_table_follows_season_team_witness :
  brage_matches = season_team brage_2024 two_matches /\
  columns two_players_kept = columns two_players.
Proof.
  assert (Hrun : apply_filters brage_2024 two_players two_matches
                 = Ok (two_players_kept, brage_matches))
    by (vm_compute; reflexivity).
  destruct (match_table_follows_season_team _ _ _ _ _ Hrun) as (Hfp & Hcols & _).
  split; assumption.
Defined.

Lemma undefined_minutes_excluded_witness :
  has_col "minuter" two_players = true /\
  apply_filters nothing_selected two_players two_matches
  = Ok (two_players_kept, two_matches) /\
  (forall r : gmap string cell, r !! "minuter" = None -> r ∉ rows two_players_kept).
Proof.
  assert (Hcol : has_col "minuter" two_players = true) by reflexivity.
  assert (Hrun : apply_filters nothing_selected two_players two_matches
                 = Ok (two_players_kept, two_matches))
    by (vm_compute; reflexivity).
  split; [exact Hcol|]. split; [exact Hrun|].
  exact (proj1 (undefined_minutes_excluded _ _ _ _ _ Hcol Hrun)).
Defined.

(** *** Sorting keeps the elements *)

Lemma insert_by_perm {A} (key : A -> cell) (x : A) (l : list A) :
  insert_by key x l ≡ₚ x :: l.
Proof.
  induction l as [|y l IH]; simpl; [reflexivity|].
  destruct (cell_leb (key x) (key y)); [reflexivity|].
  rewrite IH. apply Permutation_swap.
Qed.

Lemma sort_by_perm {A} (key : A -> cell) (l : list A) : sort_by key l ≡ₚ l.
Proof.
  induction l as [|x l IH]; simpl; [reflexivity|].
  rewrite insert_by_perm. now rewrite IH.
Qed.

(** *** Impact against consistency *)

Lemma mapR_ok_in {A B} (f : A -> result B) (l : list A) (s : list B) (b : B) :
  mapR f l = Ok s -> b ∈ s -> exists a, a ∈ l /\ f a = Ok b.
Proof.
  revert s. induction l as [|a l IH]; simpl; intros s Hs Hb.
  - inversion Hs; subst. now apply elem_of_nil in Hb.
  - bind_inv Hs. bind_inv Hs. inversion Hs; subst; clear Hs.
    apply elem_of_cons in Hb as [->|Hb].
    + exists a. split; [left | assumption].
    + destruct (IH _ Hx0 Hb) as (a' & Ha' & Hf). exists a'. split; [now right | assumption].
Qed.

Lemma mapR_ok_of_in {A B} (f : A -> result B) (l : list A) (s : list B) (a : A) :
  mapR f l = Ok s -> a ∈ l -> exists b, b ∈ s /\ f a = Ok b.
Proof.
  revert s. induction l as [|a' l IH]; simpl; intros s Hs Ha.
  - now apply elem_of_nil in Ha.
  - bind_inv Hs. bind_inv Hs. inversion Hs; subst; clear Hs.
    apply elem_of_cons in Ha as [->|Ha].
    + exists x. split; [left | assumption].
    + destruct (IH _ Hx0 Ha) as (b & Hb & Hf). exists b. split; [now right | assumption].
Qed.

Lemma agg_mean_none (xs : list Q) : agg_mean xs = None <-> length xs = 0%nat.
Proof. destruct xs; simpl; split; intros; congruence. Qed.

Lemma agg_std_none (xs : list Q) : agg_std xs = None <-> (length xs <= 1)%nat.
Proof.
  destruct xs as [|x [|y xs]]; simpl; split; intros Hx;
    try reflexivity; try lia; discriminate.
Qed.

(** Every row of [impact_summary] is the aggregate of one group. *)
Lemma impact_summary_row metric fp s a :
  impact_summary metric fp = Ok s -> a ∈ s ->
  exists xs ms,
    numbers metric (group_rows (ir_name a) fp) = Ok xs /\
    numbers "minutes_played" (group_rows (ir_name a) fp) = Ok ms /\
    a = mkImpactRow (ir_name a) (agg_mean xs) (agg_std xs) (length xs) (Qsum ms).
Proof.
  unfold impact_summary. intros Hs Ha.
  destruct (has_col "name" fp); [|discriminate].
  destruct (has_col metric fp); [|discriminate].
  destruct (has_col "minutes_played" fp); [|discriminate]. simpl in Hs.
  destruct (mapR_ok_in _ _ _ _ Hs Ha) as (k & _ & Hk).
  unfold aggregate in Hk. bind_inv Hk. bind_inv Hk.
  inversion Hk; subst; clear Hk. simpl. eauto.
Qed.

Lemma numbers_values c k d xs :
  numbers c (group_rows k d) = Ok xs -> xs = values_of c k d.
Proof.
  unfold numbers, values_of. generalize (group_rows k d). intros g Hg.
  bind_inv Hg. inversion Hg; subst xs; clear Hg.
  revert x Hx. induction g as [|r g IH]; simpl; intros vs Hvs.
  - now inversion Hvs.
  - bind_inv Hvs. bind_inv Hvs. inversion Hvs; subst vs; clear Hvs.
    destruct (r !! c) as [[q|t]|]; inversion Hx; subst; simpl;
      [f_equal|]; now apply IH.
Qed.

Lemma Qlen_pos (l : list Q) : (0 < length l)%nat -> ~ (Qlen l == 0)%Q.
Proof.
  unfold Qlen, Qeq. simpl. lia.
Qed.

Lemma Qlen_pred (l : list Q) : (2 <= length l)%nat -> ~ (Qlen l - 1 == 0)%Q.
Proof.
  unfold Qlen, Qeq. simpl. lia.
Qed.

Lemma total_squares_proper (m1 m2 : Q) (l : list Q) :
  (m1 == m2)%Q -> (total (squares m1 l) == total (squares m2 l))%Q.
Proof.
  intros Hm. induction l as [|x l IH]; simpl; [reflexivity|].
  fold (squares m1 l) (squares m2 l) (total (squares m1 l)) (total (squares m2 l)).
  now rewrite IH, Hm.
Qed.

Lemma agg_mean_spec (xs : list Q) :
  match agg_mean xs with
  | Some m => (0 < length xs)%nat /\ (m * Qlen xs == total xs)%Q
  | None => length xs = 0%nat
  end.
Proof.
  destruct xs as [|x l]; [reflexivity|].
  set (xs := x :: l).
  assert (Hlen : (0 < length xs)%nat) by (simpl; lia).
  change (agg_mean xs) with (Some (Qred (Qsum xs / Qlen xs))).
  split; [exact Hlen|]. rewrite Qred_correct. unfold Qsum. rewrite Qred_correct.
  fold (total xs). field. now apply Qlen_pos.
Qed.

Lemma agg_std_spec (xs : list Q) :
  match agg_std xs with
  | Some s =>
      (2 <= length xs)%nat /\
      exists m, agg_mean xs = Some m /\
                (radicand s * (Qlen xs - 1) == total (squares m xs))%Q
  | None => (length xs <= 1)%nat
  end.
Proof.
  destruct xs as [|x [|y l]]; try (simpl; lia).
  set (xs := x :: y :: l).
  assert (Hlen : (2 <= length xs)%nat) by (simpl; lia).
  change (agg_std xs) with
    (Some (Sqrt (Qred (Qsum (squares (Qsum xs / Qlen xs) xs) / (Qlen xs - 1))))).
  split; [exact Hlen|].
  exists (Qred (Qsum xs / Qlen xs)). split; [reflexivity|].
  cbn [radicand]. rewrite Qred_correct. unfold Qsum at 1. rewrite Qred_correct.
  fold (total (squares (Qsum xs / Qlen xs) xs)).
  rewrite (total_squares_proper (Qred (Qsum xs / Qlen xs)) (Qsum xs / Qlen xs))
    by apply Qred_correct.
  generalize (total (squares (Qsum xs / Qlen xs) xs)). intros t.
  field. now apply Qlen_pred.
Qed.

(** Every row of [impact_summary] holds the aggregates of its player. *)
Lemma impact_summary_aggregates metric fp s a :
  impact_summary metric fp = Ok s -> a ∈ s -> aggregates metric fp a.
Proof.
  intros Hs Ha.
  destruct (impact_summary_row _ _ _ _ Hs Ha) as (xs & ms & Hxs & Hms & Hrow).
  apply numbers_values in Hxs, Hms. unfold aggregates.
  rewrite <- Hxs, <- Hms, Hrow. simpl.
  split; [reflexivity|]. split; [apply Qred_correct|].
  split; [apply agg_mean_spec | apply agg_std_spec].
Qed.

(** C6, counterexample.  A player with a single match, whose standard
    deviation is therefore undefined, is in the scatter set once the
    minutes threshold is met. *)
Lemma single_match_player_in_scatter :
  scatter_rows "Combined Impact 90" 50 match_log = Ok [three_matches; single_match] /\
  matches_used single_match = 1%nat /\
  impact_std single_match = None.
Proof. repeat split; vm_compute; reflexivity. Qed.

(** C6, amended.  The scatter set keeps exactly the players whose total
    minutes reach the threshold and whose mean is defined.  A player's
    standard deviation is undefined (never zero) exactly when at most one
    of their matches has the metric defined, and their mean is undefined
    exactly when none has: so a player with a single match has a defined
    mean and an undefined standard deviation, and is kept in the scatter
    set whenever their total minutes reach the threshold. *)
Theorem scatter_keeps_undefined_std metric fp s th a :
  impact_summary metric fp = Ok s ->
  a ∈ s ->
  (a ∈ scatter_set th s <->
     (inject_Z th <= minutes_total a)%Q /\ is_Some (impact_mean a)) /\
  (impact_std a = None <-> (matches_used a <= 1)%nat) /\
  (impact_mean a = None <-> matches_used a = 0%nat) /\
  (matches_used a = 1%nat ->
     impact_std a = None /\
     (a ∈ scatter_set th s <-> (inject_Z th <= minutes_total a)%Q)).
Proof.
  intros Hs Ha.
  assert (Hin : a ∈ scatter_set th s <->
                (inject_Z th <= minutes_total a)%Q /\ is_Some (impact_mean a)).
  { unfold scatter_set. rewrite list_elem_of_In, List.filter_In, <- list_elem_of_In.
    unfold in_scatter. rewrite andb_true_iff, Qle_bool_iff, bool_decide_eq_true.
    tauto. }
  destruct (impact_summary_row _ _ _ _ Hs Ha) as (xs & ms & _ & _ & Hrow).
  assert (Hstd : impact_std a = None <-> (matches_used a <= 1)%nat).
  { rewrite Hrow. simpl. apply agg_std_none. }
  assert (Hmean : impact_mean a = None <-> matches_used a = 0%nat).
  { rewrite Hrow. simpl. apply agg_mean_none. }
  split; [exact Hin|]. split; [exact Hstd|]. split; [exact Hmean|].
  intros Hone. split.
  - apply Hstd. lia.
  - rewrite Hin. split; [tauto|].
    intros Hle. split; [assumption|].
    destruct (decide (impact_mean a = None)) as [Hm|Hm].
    + apply Hmean in Hm. lia.
    + destruct (impact_mean a); [eauto | congruence].
Qed.

Lemma scatter_keeps_undefined_std_witness :
  impact_std single_match = None /\
  (single_match ∈ scatter_set 50 [three_matches; single_match] <->
     (inject_Z 50 <= minutes_total single_match)%Q).
Proof.
  assert (Hs : impact_summary "impact_combo90" match_log
               = Ok [three_matches; single_match]) by (vm_compute; reflexivity).
  assert (Ha : single_match ∈ [three_matches; single_match])
    by (right; left).
  assert (H1 : matches_used single_match = 1%nat) by reflexivity.
  exact (proj2 (proj2 (proj2
           (scatter_keeps_undefined_std _ _ _ 50 _ Hs Ha))) H1).
Defined.

Lemma cell_eqb_text (c : cell) (p : string) : cell_eqb c (Str p) = true <-> c = Str p.
Proof.
  destruct c as [q|s]; simpl; split; try discriminate.
  - intros Heq. now apply String.eqb_eq in Heq as ->.
  - intros [= ->]. apply String.eqb_refl.
Qed.

Lemma text_in_distinct (p : string) (l : list cell) :
  Str p ∈ l -> Str p ∈ distinct l.
Proof.
  induction l as [|x l IH]; simpl; intros Hin; [exact Hin|].
  destruct (cell_eqb x (Str p)) eqn:Hx.
  { apply cell_eqb_text in Hx as ->. left. }
  apply elem_of_cons in Hin as [Heq|Hin].
  { symmetry in Heq. apply cell_eqb_text in Heq. congruence. }
  right. apply list_elem_of_In, List.filter_In.
  split; [now apply list_elem_of_In, IH|].
  destruct x as [q|t]; simpl in *; [reflexivity|].
  now rewrite String.eqb_sym, Hx.
Qed.

(** A player with a row in the match log has a group. *)
Lemma text_in_group_keys (p : string) (d : DataFrame) (r : gmap string cell) :
  r ∈ group_rows (Str p) d -> Str p ∈ group_keys d.
Proof.
  unfold group_rows, group_keys. intros Hr.
  apply list_elem_of_In, List.filter_In in Hr as [Hr Hname].
  rewrite sort_by_perm. apply text_in_distinct.
  apply list_elem_of_omap. exists r. split; [now apply list_elem_of_In|].
  unfold eq_cell in Hname. destruct (r !! "name") as [c|]; [|discriminate].
  now apply cell_eqb_text in Hname as ->.
Qed.

(** C7.  [impact_summary] groups the match rows by player name and gives
    each player the mean and the sample standard deviation of the metric,
    the number of matches with the metric defined and the sum of minutes
    ([aggregates]).  For a player whose match rows carry impact 1, 3, 5 and
    minutes 30, 60, 90, in any match log, the player's row has mean 3,
    standard deviation 2 (the root of the sample variance 4), 3 matches and
    180 minutes; it is in the scatter set at threshold 100 and not at
    threshold 200. *)
Theorem three_match_aggregate metric fp s p (r1 r2 r3 : gmap string cell) :
  impact_summary metric fp = Ok s ->
  group_rows (Str p) fp = [r1; r2; r3] ->
  r1 !! metric = Some (Num 1) -> r1 !! "minutes_played" = Some (Num 30) ->
  r2 !! metric = Some (Num 3) -> r2 !! "minutes_played" = Some (Num 60) ->
  r3 !! metric = Some (Num 5) -> r3 !! "minutes_played" = Some (Num 90) ->
  let a := mkImpactRow (Str p) (Some 3%Q) (Some (Sqrt 4)) 3 180 in
  (forall b, b ∈ s -> aggregates metric fp b) /\
  a ∈ s /\
  stdev_is (Sqrt 4) 2 /\
  a ∈ scatter_set 100 s /\
  a ∉ scatter_set 200 s.
Proof.
  intros Hs Hgroup H1 M1 H2 M2 H3 M3 a.
  split; [intros b Hb; now apply (impact_summary_aggregates metric fp s)|].
  assert (Ha : a ∈ s).
  { assert (Hkey : Str p ∈ group_keys fp).
    { apply (text_in_group_keys p fp r1). rewrite Hgroup. left. }
    unfold impact_summary in Hs.
    destruct (has_col "name" fp); [|discriminate].
    destruct (has_col metric fp); [|discriminate].
    destruct (has_col "minutes_played" fp); [|discriminate]. simpl in Hs.
    destruct (mapR_ok_of_in _ _ _ _ Hs Hkey) as (b & Hb & Hagg).
    unfold aggregate, numbers in Hagg. rewrite Hgroup in Hagg. simpl in Hagg.
    rewrite H1, H2, H3, M1, M2, M3 in Hagg. simpl in Hagg.
    inversion Hagg; subst b. exact Hb. }
  split; [exact Ha|]. split; [split; [discriminate | reflexivity]|].
  unfold scatter_set. rewrite !list_elem_of_In, !List.filter_In, <- !list_elem_of_In.
  split; [split; [exact Ha | reflexivity]|].
  intros [_ Hin]. discriminate.
Qed.

Lemma three_match_aggregate_witness :
  three_matches ∈ [three_matches; single_match] /\
  stdev_is (Sqrt 4) 2 /\
  three_matches ∈ scatter_set 100 [three_matches; single_match] /\
  three_matches ∉ scatter_set 200 [three_matches; single_match].
Proof.
  refine (proj2 (three_match_aggregate "impact_combo90" match_log
           [three_matches; single_match] "Amar Muhsin"
           {[ "name" := Str "Amar Muhsin"; "match_id_short" := Str "m1";
              "impact_combo90" := Num 1; "minutes_played" := Num 30 ]}
           {[ "name" := Str "Amar Muhsin"; "match_id_short" := Str "m2";
              "impact_combo90" := Num 3; "minutes_played" := Num 60 ]}
           {[ "name" := Str "Amar Muhsin"; "match_id_short" := Str "m3";
              "impact_combo90" := Num 5; "minutes_played" := Num 90 ]}
           _ _ _ _ _ _ _ _));
    vm_compute; reflexivity.
Defined.

(** *** Player profile *)

Section ProfileClaims.
Context `{TextLib}.

Lemma rbind_raise {A B} (m : result A) (k : A -> result B) :
  (forall a, m = Ok a -> exists e, k a = Raise e) ->
  exists e, rbind m k = Raise e.
Proof. destruct m as [a|e]; simpl; eauto. Qed.

(** An undefined number of matches ends the run in the metric cards,
    whatever the rest of the row holds. *)
Lemma metric_cards_matches_undefined (cols : list string) (r : gmap string cell) :
  "matcher" ∈ cols -> r !! "matcher" = None ->
  exists e, metric_cards cols r = Raise e.
Proof.
  intros Hcol Hnan. unfold metric_cards.
  do 3 (apply rbind_raise; intros ? _).
  unfold row_get at 1. rewrite bool_decide_eq_true_2 by assumption.
  rewrite Hnan. simpl. eauto.
Qed.

(** A missing age, by contrast, is shown as a dash. *)
Lemma age_card_dash (cols : list string) (r : gmap string cell) :
  r !! "ålder" = None ->
  int_or_dash (row_get cols r "ålder" VNone) = Ok (VStr "–").
Proof.
  intros Hnan. unfold row_get. rewrite Hnan.
  now destruct (bool_decide _).
Qed.

(** A rate card falls back to 0 only when the table has no such column;
    an undefined value in an existing column is shown as NaN. *)
Lemma rate_card_absent (cols : list string) (r : gmap string cell) (k : string) :
  k ∉ cols -> py_round2 (row_get cols r k (VInt 0)) = Ok (VInt 0).
Proof.
  intros Hk. unfold row_get. now rewrite bool_decide_eq_false_2.
Qed.

Lemma rate_card_undefined (cols : list string) (r : gmap string cell) (k : string) :
  k ∈ cols -> r !! k = None -> py_round2 (row_get cols r k (VInt 0)) = Ok VNaN.
Proof.
  intros Hk Hnan. unfold row_get. now rewrite bool_decide_eq_true_2, Hnan.
Qed.

(** C4, at the failing input.  The seventh player of the roster passes the
    filters and is the selectbox's default; their number of matches is
    undefined, and the run ends in [ValueError] at the Matches card, where
    the age and market-value cards of the same row are guarded. *)
Theorem matches_card_raises :
  apply_filters nothing_selected roster_matches_undefined log_without_viktor
  = Ok (roster_matches_undefined, log_without_viktor) /\
  tab_profile roster_matches_undefined log_without_viktor None = Raise ValueError /\
  metric_cards summary_columns (summary_row "Viktor Lundberg" (Some 24%Q) None)
  = Raise ValueError.
Proof. repeat split; vm_compute; reflexivity. Qed.

Lemma sort_rows_none c (d d' : DataFrame) :
  rows d = [] -> sort_rows c d = Ok d' -> rows d' = [].
Proof.
  unfold sort_rows. intros Hnone. rewrite Hnone. simpl.
  destruct (has_col c d); [|discriminate]. now intros [= <-].
Qed.

(** Without match rows of the player, the offensive and the defensive
    chart add nothing to the page. *)
Lemma on_pitch_chart_no_rows p fp player out :
  List.filter (fun r : gmap string cell =>
                 from_option (eq_cell (r !! "name")) false player) (rows fp) = [] ->
  on_pitch_chart p fp player = Ok out -> out = [].
Proof.
  unfold on_pitch_chart, rows_of_player, project. intros Hnone Hrun.
  destruct (has_col "name" fp); [|discriminate]. simpl in Hrun.
  bind_inv Hrun. bind_inv Hx. inversion Hx; subst x; clear Hx.
  bind_inv Hrun. apply sort_rows_none in Hx; [|simpl; now rewrite Hnone].
  rewrite Hx in Hrun. simpl in Hrun. now inversion Hrun.
Qed.

(** C5, at the failing input.  The profile of a selected player without
    match rows renders to the end; the usage and the impact chart show
    their placeholder, and the offensive and the defensive section show
    only their subheader. *)
Theorem on_pitch_charts_without_placeholder :
  tab_profile roster_of_seven log_without_viktor None
  = Ok (viktor_cards ++ charts_without_matches) /\
  profile_charts log_without_viktor (Some (Str "Viktor Lundberg"))
  = Ok charts_without_matches /\
  placeholder_after "📅 Match usage" charts_without_matches = true /\
  placeholder_after "⚡ Match impact" charts_without_matches = true /\
  placeholder_after "🛡️ Offensive impact" charts_without_matches = false /\
  placeholder_after "🛡️ Defensive impact" charts_without_matches = false.
Proof. repeat split; vm_compute; reflexivity. Qed.

Lemma sort_values_length (l l' : list (option cell)) :
  sort_values l = Ok l' -> length l' = length l.
Proof.
  unfold sort_values. destruct (comparable _); [|discriminate].
  intros [= <-]. rewrite length_app, length_map, (Permutation_length (sort_by_perm _ _)).
  induction l as [|[c|] l IH]; simpl; [reflexivity| |].
  - f_equal. exact IH.
  - rewrite Nat.add_succ_r. f_equal. exact IH.
Qed.

(** A roster of one to six rows never gets past the selectbox. *)
Lemma short_roster_raises filtered_df filtered_players picked :
  (0 < length (rows filtered_df) < 7)%nat ->
  exists e, tab_profile filtered_df filtered_players picked = Raise e.
Proof.
  intros Hlen. unfold tab_profile.
  apply rbind_raise. intros names Hnames.
  assert (Hn : length names = length (rows filtered_df)).
  { unfold player_names, column_values in Hnames.
    destruct (has_col "name" filtered_df); [|discriminate]. simpl in Hnames.
    apply sort_values_length in Hnames. now rewrite length_map in Hnames. }
  destruct (Nat.eqb_spec (length names) 0) as [Hz|_]; [lia|].
  unfold selectbox. rewrite (lookup_ge_None_2 names 6) by lia.
  simpl. eauto.
Qed.

(** C8, at the failing input.  On a roster of six players the selectbox
    is asked for position 6 of a list of six names and the run ends there,
    whatever the match log and the user's pick. *)
Theorem six_player_roster_raises filtered_players picked :
  apply_filters nothing_selected roster_of_six filtered_players
  = Ok (roster_of_six, filtered_players) /\
  tab_profile roster_of_six filtered_players picked = Raise StreamlitAPIException.
Proof. split; vm_compute; reflexivity. Qed.

End ProfileClaims.

(** * More of the script *)

(** *** Equality and order of cells *)

Lemma cell_eqb_refl (a : cell) : cell_eqb a a = true.
Proof.
  destruct a as [q|s]; simpl; [now apply Qeq_bool_iff | apply String.eqb_refl].
Qed.

Lemma cell_eqb_sym (a b : cell) : cell_eqb a b = cell_eqb b a.
Proof.
  destruct a as [x|s], b as [y|t]; simpl; try reflexivity.
  - destruct (Qeq_bool x y) eqn:Hxy, (Qeq_bool y x) eqn:Hyx; try reflexivity.
    + apply Qeq_bool_iff in Hxy. symmetry in Hxy. apply Qeq_bool_iff in Hxy. congruence.
    + apply Qeq_bool_iff in Hyx. symmetry in Hyx. apply Qeq_bool_iff in Hyx. congruence.
  - apply String.eqb_sym.
Qed.

Lemma cell_eqb_trans (a b c : cell) :
  cell_eqb a b = true -> cell_eqb b c = true -> cell_eqb a c = true.
Proof.
  destruct a as [x|s], b as [y|t], c as [z|u]; simpl; try discriminate.
  - rewrite !Qeq_bool_iff. intros Hxy Hyz. now rewrite Hxy.
  - rewrite !String.eqb_eq. congruence.
Qed.

Lemma string_compare_trans (s1 s2 s3 : string) :
  String.compare s1 s2 <> Gt -> String.compare s2 s3 <> Gt ->
  String.compare s1 s3 <> Gt.
Proof.
  revert s2 s3. induction s1 as [|a s1 IH]; intros [|b s2] [|c s3]; simpl;
    try congruence.
  unfold Ascii.compare.
  destruct (N.compare_spec (Ascii.N_of_ascii a) (Ascii.N_of_ascii b)) as [Hab|Hab|Hab],
           (N.compare_spec (Ascii.N_of_ascii b) (Ascii.N_of_ascii c)) as [Hbc|Hbc|Hbc],
           (N.compare_spec (Ascii.N_of_ascii a) (Ascii.N_of_ascii c)) as [Hac|Hac|Hac];
    try congruence; try lia.
  apply IH.
Qed.

Lemma string_leb_trans (s1 s2 s3 : string) :
  String.leb s1 s2 = true -> String.leb s2 s3 = true -> String.leb s1 s3 = true.
Proof.
  unfold String.leb. intros H12 H23.
  pose proof (string_compare_trans s1 s2 s3) as Htrans.
  destruct (String.compare s1 s2), (String.compare s2 s3), (String.compare s1 s3);
    try discriminate; try reflexivity; exfalso; apply Htrans; congruence.
Qed.

Lemma cell_leb_total (a b : cell) : cell_leb a b = true \/ cell_leb b a = true.
Proof.
  destruct a as [x|s], b as [y|t]; simpl; auto.
  - rewrite !Qle_bool_iff. destruct (Qlt_le_dec x y) as [Hlt|Hle]; [left|right]; auto.
    now apply Qlt_le_weak.
  - apply String.leb_total.
Qed.

Lemma cell_leb_trans (a b c : cell) :
  cell_leb a b = true -> cell_leb b c = true -> cell_leb a c = true.
Proof.
  destruct a as [x|s], b as [y|t], c as [z|u]; simpl; try discriminate; auto.
  - rewrite !Qle_bool_iff. apply Qle_trans.
  - apply string_leb_trans.
Qed.

(** *** Sorting *)

Section Sorting.
Context {A : Type} (le : A -> A -> bool).
Hypothesis le_total : forall a b, le a b = true \/ le b a = true.
Hypothesis le_trans : forall a b c, le a b = true -> le b c = true -> le a c = true.

Lemma insert_le_perm (x : A) (l : list A) : insert_le le x l ≡ₚ x :: l.
Proof.
  induction l as [|y l IH]; simpl; [reflexivity|].
  destruct (le x y); [reflexivity|].
  rewrite IH. apply Permutation_swap.
Qed.

Lemma sort_le_perm (l : list A) : sort_le le l ≡ₚ l.
Proof.
  induction l as [|x l IH]; simpl; [reflexivity|].
  rewrite insert_le_perm. now rewrite IH.
Qed.

Lemma insert_le_sorted (x : A) (l : list A) :
  StronglySorted (fun a b => le a b = true) l ->
  StronglySorted (fun a b => le a b = true) (insert_le le x l).
Proof.
  induction 1 as [|y l Hsorted IH Hy]; simpl.
  - repeat constructor.
  - destruct (le x y) eqn:Hxy.
    + constructor; [now constructor|]. constructor; [assumption|].
      eapply Forall_impl; [exact Hy|]. intros z Hz. now apply (le_trans x y z).
    + constructor; [assumption|].
      rewrite insert_le_perm. constructor; [|assumption].
      destruct (le_total x y) as [Habs|Hyx]; [congruence | assumption].
Qed.

Lemma sort_le_sorted (l : list A) :
  StronglySorted (fun a b => le a b = true) (sort_le le l).
Proof.
  induction l as [|x l IH]; simpl; [constructor|].
  now apply insert_le_sorted.
Qed.

End Sorting.

Lemma sort_by_sort_le {A} (key : A -> cell) (l : list A) :
  sort_by key l = sort_le (fun a b => cell_leb (key a) (key b)) l.
Proof.
  unfold sort_by, sort_le. induction l as [|x l IH]; simpl; [reflexivity|].
  rewrite IH. generalize (foldr (insert_le (fun a b => cell_leb (key a) (key b))) [] l).
  intros s. induction s as [|y s IHs]; simpl; [reflexivity|].
  now rewrite IHs.
Qed.

Lemma sort_by_sorted {A} (key : A -> cell) (l : list A) :
  StronglySorted (fun a b => cell_leb (key a) (key b) = true) (sort_by key l).
Proof.
  rewrite sort_by_sort_le.
  apply (sort_le_sorted (fun a b => cell_leb (key a) (key b))).
  - intros a b. apply cell_leb_total.
  - intros a b c. apply cell_leb_trans.
Qed.

Lemma sort_desc_sorted {A} (key : A -> cell) (l : list A) :
  StronglySorted (fun a b => cell_leb (key b) (key a) = true)
                 (sort_le (fun a b => cell_leb (key b) (key a)) l).
Proof.
  apply (sort_le_sorted (fun a b => cell_leb (key b) (key a))).
  - intros a b. apply cell_leb_total.
  - intros a b c Hab Hbc. now apply (cell_leb_trans (key c) (key b) (key a)).
Qed.

(** *** Values present in a column *)

Lemma distinct_in (x : cell) (l : list cell) : x ∈ distinct l -> x ∈ l.
Proof.
  induction l as [|a l IH]; simpl; [auto|].
  intros Hx. apply elem_of_cons in Hx as [->|Hx]; [left|right].
  apply list_elem_of_In, List.filter_In in Hx as [Hx _].
  now apply IH, list_elem_of_In.
Qed.

Lemma distinct_cover (x : cell) (l : list cell) :
  x ∈ l -> py_in x (distinct l) = true.
Proof.
  unfold py_in. induction l as [|a l IH]; simpl; intros Hx.
  - now apply elem_of_nil in Hx.
  - destruct (cell_eqb x a) eqn:Hxa; [reflexivity|]. simpl.
    apply elem_of_cons in Hx as [->|Hx]; [now rewrite cell_eqb_refl in Hxa|].
    apply IH, existsb_exists in Hx as (y & Hy & Hxy).
    apply existsb_exists. exists y. split; [|assumption].
    apply List.filter_In. split; [assumption|].
    destruct (cell_eqb y a) eqn:Hya; [|reflexivity].
    now rewrite (cell_eqb_trans x y a Hxy Hya) in Hxa.
Qed.

Lemma filter_eqb_excluded (x a : cell) (s : list cell) :
  cell_eqb x a = true ->
  List.filter (cell_eqb x) (List.filter (fun y => negb (cell_eqb y a)) s) = [].
Proof.
  intros Hxa. induction s as [|y s IHs]; simpl; [reflexivity|].
  destruct (cell_eqb y a) eqn:Hya; simpl; [assumption|].
  destruct (cell_eqb x y) eqn:Hxy; [|assumption].
  rewrite cell_eqb_sym in Hxy.
  now rewrite (cell_eqb_trans y x a Hxy Hxa) in Hya.
Qed.

Lemma filter_eqb_fewer (x a : cell) (s : list cell) :
  (length (List.filter (cell_eqb x) (List.filter (fun y => negb (cell_eqb y a)) s))
   <= length (List.filter (cell_eqb x) s))%nat.
Proof.
  induction s as [|y s IHs]; simpl; [lia|].
  destruct (cell_eqb y a); simpl; destruct (cell_eqb x y); simpl; lia.
Qed.

(** No value is listed twice, also not under two spellings of one
    number. *)
Lemma distinct_once (x : cell) (l : list cell) :
  (length (List.filter (cell_eqb x) (distinct l)) <= 1)%nat.
Proof.
  induction l as [|a l IH]; simpl; [lia|].
  destruct (cell_eqb x a) eqn:Hxa; simpl.
  - rewrite filter_eqb_excluded by assumption. simpl. lia.
  - etransitivity; [apply filter_eqb_fewer | exact IH].
Qed.

Lemma py_in_perm (x : cell) (l l' : list cell) :
  l ≡ₚ l' -> py_in x l = py_in x l'.
Proof.
  unfold py_in. intros Hp.
  destruct (existsb (cell_eqb x) l) eqn:Hl, (existsb (cell_eqb x) l') eqn:Hl';
    try reflexivity.
  - apply existsb_exists in Hl as (y & Hy & Hxy).
    rewrite <- Hl'. symmetry. apply existsb_exists. exists y. split; [|assumption].
    now apply list_elem_of_In; rewrite <- Hp; apply list_elem_of_In.
  - apply existsb_exists in Hl' as (y & Hy & Hxy).
    rewrite <- Hl. apply existsb_exists. exists y. split; [|assumption].
    now apply list_elem_of_In; rewrite Hp; apply list_elem_of_In.
Qed.

Lemma filter_length_perm (p : cell -> bool) (l l' : list cell) :
  l ≡ₚ l' -> length (List.filter p l) = length (List.filter p l').
Proof.
  induction 1 as [|x l l' _ IH|x y l|l l' l'' _ IH1 _ IH2]; simpl.
  - reflexivity.
  - destruct (p x); simpl; congruence.
  - destruct (p x), (p y); reflexivity.
  - congruence.
Qed.

(** What [sorted] returns: the same values, in order. *)
Lemma py_sorted_ok (reverse : bool) (l s : list cell) :
  py_sorted reverse l = Ok s ->
  s ≡ₚ l /\
  StronglySorted (fun a b => (if reverse then cell_leb b a else cell_leb a b) = true) s.
Proof.
  unfold py_sorted. destruct (comparable l); [|discriminate].
  intros [= <-]. destruct reverse.
  - split; [apply sort_le_perm | apply (sort_desc_sorted id)].
  - split; [apply sort_by_perm | apply (sort_by_sorted id)].
Qed.

(** The options of a multiselect built from a column: every option is a
    value of the column, every value of the column is an option, no option
    is listed twice, and the options are in order. *)
Lemma column_options (reverse : bool) (c : string) (d : DataFrame) (s : list cell) :
  py_sorted reverse (unique_values c d) = Ok s ->
  (forall t, t ∈ s -> exists r : gmap string cell, r ∈ rows d /\ r !! c = Some t) /\
  (forall (r : gmap string cell) t, r ∈ rows d -> r !! c = Some t -> py_in t s = true) /\
  (forall t, (length (List.filter (cell_eqb t) s) <= 1)%nat) /\
  StronglySorted (fun a b => (if reverse then cell_leb b a else cell_leb a b) = true) s.
Proof.
  intros Hs. apply py_sorted_ok in Hs as [Hperm Hsorted]. unfold unique_values in Hperm.
  repeat split; [| | |exact Hsorted].
  - intros t Ht. rewrite Hperm in Ht. apply distinct_in, list_elem_of_omap in Ht.
    exact Ht.
  - intros r t Hr Ht. rewrite (py_in_perm t _ _ Hperm). apply distinct_cover.
    apply list_elem_of_omap. eauto.
  - intros t. rewrite (filter_length_perm _ _ _ Hperm). apply distinct_once.
Qed.

(** *** The sidebar *)

Lemma cell_leb_refl (a : cell) : cell_leb a a = true.
Proof. destruct (cell_leb_total a a); assumption. Qed.

Lemma cell_eqb_leb (a b : cell) : cell_eqb a b = true -> cell_leb a b = true.
Proof.
  destruct a as [x|s], b as [y|t]; simpl; try discriminate.
  - rewrite Qeq_bool_iff, Qle_bool_iff. intros ->. apply Qle_refl.
  - rewrite String.eqb_eq. intros ->. apply (cell_leb_refl (Str t)).
Qed.

Lemma py_in_elem (x : cell) (l : list cell) : x ∈ l -> py_in x l = true.
Proof.
  intros Hx. apply existsb_exists. exists x.
  split; [now apply list_elem_of_In | apply cell_eqb_refl].
Qed.

Lemma py_in_text (p : string) (l : list cell) : py_in (Str p) l = true <-> Str p ∈ l.
Proof.
  split; [|apply py_in_elem].
  intros Hin. apply existsb_exists in Hin as (y & Hy & Heq).
  rewrite cell_eqb_sym in Heq. apply cell_eqb_text in Heq as ->.
  now apply list_elem_of_In.
Qed.

(** X1.  The season options are the seasons present in the summary table,
    each once, most recent first, and the default selection is the most
    recent season: no row of the table has a later one. *)
Theorem years_most_recent_first (df : DataFrame) (years : list cell) :
  available_years df = Ok years ->
  (forall y, y ∈ years -> exists r : gmap string cell, r ∈ rows df /\ r !! "year" = Some y) /\
  (forall (r : gmap string cell) y, r ∈ rows df -> r !! "year" = Some y -> py_in y years = true) /\
  (forall y, (length (List.filter (cell_eqb y) years) <= 1)%nat) /\
  (forall y0 (r : gmap string cell) y,
      default_years years = [y0] -> r ∈ rows df -> r !! "year" = Some y ->
      cell_leb y y0 = true).
Proof.
  intros Hys. apply column_options in Hys as (Hfrom & Hcover & Honce & Hsorted).
  repeat split; try assumption.
  intros y0 r y Hdefault Hr Hy.
  destruct years as [|y1 rest]; [discriminate|].
  injection Hdefault as ->.
  apply StronglySorted_inv in Hsorted as [_ Hhead].
  specialize (Hcover r y Hr Hy). apply existsb_exists in Hcover as (y' & Hy' & Heq).
  apply cell_eqb_leb in Heq.
  apply List.in_inv in Hy' as [<-|Hy']; [assumption|].
  apply (cell_leb_trans y y' y0 Heq).
  rewrite Forall_forall in Hhead. now apply Hhead, list_elem_of_In.
Qed.

Lemma available_teams_options (df : DataFrame) (sy : option (list cell)) (teams : list cell) :
  available_teams df sy = Ok teams ->
  py_sorted false (unique_values "team" (by_selection "year" sy df)) = Ok teams.
Proof.
  unfold available_teams, by_selection. destruct (truthy sy); [|auto].
  intros Ht. bind_inv Ht. now apply filter_isin_ok in Hx as ->.
Qed.

(** X2.  The team options follow the selected seasons: every option is the
    team of a summary row of a selected season (of any row when no season
    is selected), every such team is an option, no team is listed twice,
    and the options are in ascending order. *)
Theorem teams_follow_seasons (df : DataFrame) (sy : option (list cell)) (teams : list cell) :
  available_teams df sy = Ok teams ->
  (forall t, t ∈ teams ->
     exists r : gmap string cell,
       r ∈ rows df /\ r !! "team" = Some t /\
       (truthy sy = true -> isin (r !! "year") (selection sy) = true)) /\
  (forall (r : gmap string cell) t,
     r ∈ rows df -> r !! "team" = Some t ->
     (truthy sy = true -> isin (r !! "year") (selection sy) = true) ->
     py_in t teams = true) /\
  (forall t, (length (List.filter (cell_eqb t) teams) <= 1)%nat) /\
  StronglySorted (fun a b => cell_leb a b = true) teams.
Proof.
  intros Ht. apply available_teams_options, column_options in Ht
    as (Hfrom & Hcover & Honce & Hsorted).
  unfold by_selection in Hfrom, Hcover.
  repeat split; try assumption.
  - intros t Hin. destruct (Hfrom t Hin) as (r & Hr & Hteam).
    exists r. destruct (truthy sy); simpl in Hr.
    + apply list_elem_of_In, List.filter_In in Hr as [Hr Hyear].
      repeat split; [now apply list_elem_of_In | assumption | auto].
    + repeat split; [assumption | assumption | discriminate].
  - intros r t Hr Hteam Hyear. apply (Hcover r); [|assumption].
    destruct (truthy sy); simpl; [|assumption].
    apply list_elem_of_In, List.filter_In. split; [now apply list_elem_of_In | auto].
Qed.

(** X3.  The default team selection is "IK Brage" exactly when a summary
    row of the selected seasons plays for IK Brage; otherwise it is the
    first team in order (no offered team precedes it), and it is empty only
    when there is no team to offer. *)
Theorem default_team_selection (df : DataFrame) (sy : option (list cell)) (teams : list cell) :
  available_teams df sy = Ok teams ->
  (default_teams teams = [Str "IK Brage"] <->
     exists r : gmap string cell,
       r ∈ rows (by_selection "year" sy df) /\ r !! "team" = Some (Str "IK Brage")) /\
  (forall t0 t, default_teams teams = [t0] -> t0 <> Str "IK Brage" ->
                t ∈ teams -> cell_leb t0 t = true) /\
  (default_teams teams = [] <-> teams = []).
Proof.
  intros Ht. apply available_teams_options, column_options in Ht
    as (Hfrom & Hcover & _ & Hsorted).
  unfold default_teams. split; [|split].
  - split.
    + intros Hdefault. apply Hfrom.
      destruct (py_in (Str "IK Brage") teams) eqn:Hin; [now apply py_in_text|].
      destruct teams as [|t rest]; [discriminate|].
      injection Hdefault as ->. left.
    + intros (r & Hr & Hteam). now rewrite (Hcover r (Str "IK Brage") Hr Hteam).
  - intros t0 t Hdefault Hne Hin.
    destruct (py_in (Str "IK Brage") teams); [congruence|].
    destruct teams as [|t1 rest]; [discriminate|].
    injection Hdefault as ->.
    apply StronglySorted_inv in Hsorted as [_ Hhead].
    apply elem_of_cons in Hin as [->|Hin]; [apply cell_leb_refl|].
    rewrite Forall_forall in Hhead. now apply Hhead.
  - destruct (py_in (Str "IK Brage") teams) eqn:Hin.
    + split; [discriminate|]. intros ->. discriminate.
    + destruct teams; simpl; split; intros; congruence.
Qed.

Lemma years_most_recent_first_witness :
  available_years seasons_table = Ok [Str "2024"; Str "2023"] /\
  cell_leb (Str "2023") (Str "2024") = true.
Proof.
  assert (Hys : available_years seasons_table = Ok [Str "2024"; Str "2023"])
    by (vm_compute; reflexivity).
  split; [exact Hys|].
  destruct (years_most_recent_first _ _ Hys) as (_ & _ & _ & Hmax).
  apply (Hmax (Str "2024")
           {[ "name" := Str "Amar Muhsin"; "team" := Str "Örebro"; "year" := Str "2023";
              "position" := Str "Forward"; "minuter" := Num 1200 ]} (Str "2023"));
    [reflexivity | apply list_elem_of_here | reflexivity].
Defined.

Lemma teams_follow_seasons_witness :
  available_teams seasons_table (Some [Str "2024"]) = Ok [Str "GAIS"; Str "IK Brage"] /\
  StronglySorted (fun a b => cell_leb a b = true) [Str "GAIS"; Str "IK Brage"].
Proof.
  assert (Ht : available_teams seasons_table (Some [Str "2024"])
               = Ok [Str "GAIS"; Str "IK Brage"]) by (vm_compute; reflexivity).
  split; [exact Ht|].
  exact (proj2 (proj2 (proj2 (teams_follow_seasons _ _ _ Ht)))).
Defined.

Lemma default_team_selection_witness :
  available_teams seasons_table (Some [Str "2023"]) = Ok [Str "Örebro"] /\
  (default_teams [Str "Örebro"] = [] <-> [Str "Örebro"] = []).
Proof.
  assert (Ht : available_teams seasons_table (Some [Str "2023"]) = Ok [Str "Örebro"])
    by (vm_compute; reflexivity).
  split; [exact Ht|].
  exact (proj2 (proj2 (default_team_selection _ _ _ Ht))).
Defined.







Section SidebarProofs.
Context `{TextLib}.

Lemma year_widget_ok df players picked sy :
  year_widget df players picked = Ok sy ->
  sy = (if has_col "year" df && has_col "year" players
        then Some (selection sy) else None).
Proof.
  unfold year_widget. destruct (_ && _); [|now intros [= <-]].
  intros Hw. bind_inv Hw. bind_inv Hw. now inversion Hw.
Qed.

Lemma team_widget_ok df players sy picked st :
  team_widget df players sy picked = Ok st ->
  st = (if has_col "team" df && has_col "team" players
        then Some (selection st) else None).
Proof.
  unfold team_widget. destruct (_ && _); [|now intros [= <-]].
  intros Hw. bind_inv Hw. bind_inv Hw. now inversion Hw.
Qed.

Lemma position_widget_ok df picked p :
  position_widget df picked = Ok p ->
  p = (if has_col "position" df then p else Str "All").
Proof.
  unfold position_widget. destruct (has_col "position" df); [auto | now intros [= <-]].
Qed.

Lemma minutes_widget_ok df picked n :
  minutes_widget df picked = Ok n ->
  n = (if has_col "minuter" df then n else 0).
Proof.
  unfold minutes_widget. destruct (has_col "minuter" df); [auto | now intros [= <-]].
Qed.

(** The filter values the sidebar yields pass the gates of lines 58, 70,
    91 and 98. *)
Lemma sidebar_run_gates df players u f :
  sidebar_run df players u = Ok f ->
  f = sidebar (mkWidgets (selection (selected_years f)) (selection (selected_teams f))
                 (search_pick u) (position_filter f) (min_minutes f)) df players.
Proof.
  unfold sidebar_run. intros Hrun.
  bind_inv Hrun. bind_inv Hrun. bind_inv Hrun. bind_inv Hrun.
  inversion Hrun; subst f; clear Hrun. unfold sidebar. simpl.
  apply year_widget_ok in Hx. apply team_widget_ok in Hx0.
  apply position_widget_ok in Hx1. apply minutes_widget_ok in Hx2.
  congruence.
Qed.

(** X4.  Once the sidebar has yielded its filter values, the filter block
    runs to its end and the filtered match table is the match table
    restricted by the season and team selections, as long as the search
    text is empty or a pattern that compiles over a table with names, and
    no [minuter] cell holds text: a selection is never applied to a column
    that one of the tables lacks. *)
Theorem sidebar_then_filters df players u f :
  sidebar_run df players u = Ok f ->
  search_pick u = "" \/
    (has_col "name" df = true /\ re_compiles (search_pick u) = true) ->
  Forall (fun r : gmap string cell => forall t, r !! "minuter" <> Some (Str t)) (rows df) ->
  exists fdf, filtered_tables df players u = Ok (fdf, season_team f players).
Proof.
  intros Hrun Hsearch Hnum. unfold filtered_tables. rewrite Hrun. simpl.
  rewrite (sidebar_run_gates _ _ _ _ Hrun). now apply apply_filters_runs.
Qed.






Lemma omap_id_missing (l : list (gmap string cell)) (c : string) :
  Forall (fun r : gmap string cell => r !! c = None) l ->
  omap id (map (fun r : gmap string cell => r !! c) l) = [].
Proof.
  induction 1 as [|r l Hr _ IH]; simpl; [reflexivity|].
  now rewrite Hr.
Qed.

(** X6.  A summary table that has a [minuter] column and no defined value
    in it, the empty table for one, ends every run in the sidebar: the
    greatest value is NaN, and [int] of it raises [ValueError]. *)
Theorem no_minutes_no_sidebar df players :
  has_col "minuter" df = true ->
  Forall (fun r : gmap string cell => r !! "minuter" = None) (rows df) ->
  (forall picked, minutes_widget df picked = Raise ValueError) /\
  (forall u f, sidebar_run df players u <> Ok f).
Proof.
  intros Hcol Hnone.
  assert (Hw : forall picked, minutes_widget df picked = Raise ValueError).
  { intros picked. unfold minutes_widget, column_values, series_max.
    rewrite Hcol. simpl. now rewrite omap_id_missing. }
  split; [exact Hw|].
  intros u f Hrun. unfold sidebar_run in Hrun.
  bind_inv Hrun. bind_inv Hrun. bind_inv Hrun. bind_inv Hrun.
  rewrite Hw in Hx2. discriminate.
Qed.

End SidebarProofs.

Lemma sidebar_then_filters_witness :
  sidebar_run seasons_table two_matches untouched = Ok opening_filters /\
  exists fdf,
    filtered_tables seasons_table two_matches untouched
    = Ok (fdf, season_team opening_filters two_matches).
Proof.
  assert (Hrun : sidebar_run seasons_table two_matches untouched = Ok opening_filters)
    by (vm_compute; reflexivity).
  split; [exact Hrun|].
  apply (sidebar_then_filters _ _ _ _ Hrun).
  - left. reflexivity.
  - repeat constructor; intros t; vm_compute; discriminate.
Defined.


Lemma no_minutes_no_sidebar_witness :
  has_col "minuter" empty_summary = true /\
  (forall picked, minutes_widget empty_summary picked = Raise ValueError).
Proof.
  assert (Hcol : has_col "minuter" empty_summary = true) by reflexivity.
  split; [exact Hcol|].
  apply (no_minutes_no_sidebar empty_summary two_matches Hcol). constructor.
Defined.

(** *** The filter block as one filter *)

Lemma List_filter_filter {A} (p q : A -> bool) (l : list A) :
  List.filter q (List.filter p l) = List.filter (fun x => p x && q x) l.
Proof.
  induction l as [|a l IH]; simpl; [reflexivity|].
  destruct (p a); simpl; [destruct (q a)|]; now rewrite IH.
Qed.

Lemma select_rows_twice (p q : gmap string cell -> bool) (d : DataFrame) :
  select_rows q (select_rows p d) = select_rows (fun r => p r && q r) d.
Proof. unfold select_rows. simpl. now rewrite List_filter_filter. Qed.

Lemma select_rows_all (d : DataFrame) : select_rows (fun _ => true) d = d.
Proof.
  destruct d as [cols rs]. unfold select_rows. simpl. f_equal.
  now apply List_filter_all, Forall_forall.
Qed.

Lemma select_rows_ext (p q : gmap string cell -> bool) (d : DataFrame) :
  (forall r, p r = q r) -> select_rows p d = select_rows q d.
Proof.
  intros Hpq. unfold select_rows. f_equal. apply List.filter_ext. exact Hpq.
Qed.

(** A filter that is switched on or off. *)
Lemma select_rows_if (b : bool) (p : gmap string cell -> bool) (d : DataFrame) :
  (if b then select_rows p d else d) = select_rows (fun r => negb b || p r) d.
Proof. destruct b; simpl; [reflexivity | now rewrite select_rows_all]. Qed.

Lemma sublist_filter_impl {A} (p q : A -> bool) (l : list A) :
  (forall a, p a = true -> q a = true) ->
  sublist (List.filter p l) (List.filter q l).
Proof.
  intros Hpq. induction l as [|a l IH]; simpl; [constructor|].
  destruct (p a) eqn:Hp.
  - rewrite (Hpq a Hp). now constructor.
  - destruct (q a); [now constructor | assumption].
Qed.

Lemma Forall_of_sublist {A} (P : A -> Prop) (l1 l2 : list A) :
  sublist l1 l2 -> Forall P l2 -> Forall P l1.
Proof.
  induction 1 as [|a l1 l2 _ IH|a l1 l2 _ IH]; intros Hall.
  - constructor.
  - inversion Hall; subst. constructor; auto.
  - inversion Hall; subst. auto.
Qed.

Lemma season_team_twice (f : Filters) (d : DataFrame) :
  season_team f (season_team f d) = season_team f d.
Proof.
  unfold season_team, by_selection. rewrite !select_rows_if, !select_rows_twice.
  apply select_rows_ext. intros r.
  destruct (negb (truthy (selected_years f)) || isin (r !! "year") _),
           (negb (truthy (selected_teams f)) || isin (r !! "team") _); reflexivity.
Qed.

Section FilterAsOne.
Context `{TextLib}.

(** What a run of the block needs of its tables. *)
Lemma apply_filters_needs f df players out :
  apply_filters f df players = Ok out ->
  (truthy (selected_years f) = true ->
     has_col "year" df = true /\ has_col "year" players = true) /\
  (truthy (selected_teams f) = true ->
     has_col "team" df = true /\ has_col "team" players = true) /\
  (name_search f <> "" ->
     has_col "name" df = true /\ re_compiles (name_search f) = true) /\
  (cell_eqb (position_filter f) (Str "All") = false -> has_col "position" df = true).
Proof.
  unfold apply_filters. intros Hrun.
  bind_inv Hrun. destruct x as [d1 p1]. rename Hx into Hstep1.
  bind_inv Hrun. destruct x as [d2 p2]. rename Hx into Hstep2.
  bind_inv Hrun. rename x into d3, Hx into Hstep3.
  bind_inv Hrun. rename x into d4, Hx into Hstep4. clear Hrun.
  assert (Hyear : truthy (selected_years f) = true ->
                  has_col "year" df = true /\ has_col "year" players = true).
  { intros Ht. rewrite Ht in Hstep1. bind_inv Hstep1. bind_inv Hstep1.
    unfold filter_isin in Hx, Hx0.
    destruct (has_col "year" df), (has_col "year" players); try discriminate. auto. }
  apply selection_step in Hstep1. injection Hstep1 as -> ->.
  assert (Hteam : truthy (selected_teams f) = true ->
                  has_col "team" df = true /\ has_col "team" players = true).
  { intros Ht. rewrite Ht in Hstep2. bind_inv Hstep2. bind_inv Hstep2.
    unfold filter_isin in Hx, Hx0. rewrite !has_col_by_selection in *.
    destruct (has_col "team" df), (has_col "team" players); try discriminate. auto. }
  apply selection_step in Hstep2. injection Hstep2 as -> ->.
  assert (Hname : name_search f <> "" ->
                  has_col "name" df = true /\ re_compiles (name_search f) = true).
  { intros Hne. destruct (String.eqb_spec (name_search f) "") as [|_]; [congruence|].
    simpl in Hstep3. unfold filter_name in Hstep3.
    rewrite !has_col_by_selection in Hstep3.
    destruct (has_col "name" df); [|discriminate].
    destruct (re_compiles _); [auto | discriminate]. }
  assert (Hcols : columns d3 = columns df).
  { destruct (negb _) in Hstep3.
    - unfold filter_name in Hstep3. destruct (has_col "name" _); [|discriminate].
      destruct (re_compiles _); [|discriminate]. injection Hstep3 as <-. simpl.
      unfold by_selection.
      destruct (truthy (selected_teams f)), (truthy (selected_years f)); reflexivity.
    - injection Hstep3 as <-. unfold by_selection.
      destruct (truthy (selected_teams f)), (truthy (selected_years f)); reflexivity. }
  repeat split; try (now apply Hyear); try (now apply Hteam); try (now apply Hname).
  intros Hall. rewrite Hall in Hstep4. simpl in Hstep4. unfold filter_position in Hstep4.
  rewrite (has_col_columns "position" d3 df Hcols) in Hstep4.
  destruct (has_col "position" df); [reflexivity | discriminate].
Qed.

(** X7.  The five filters of the block amount to one: a run that reaches
    the end keeps exactly the summary rows that pass every filter that is
    switched on, in their order, and leaves the columns as they are. *)
Theorem filters_are_one_condition f df players fdf fp :
  apply_filters f df players = Ok (fdf, fp) ->
  fdf = select_rows (keeps f df) df.
Proof.
  unfold apply_filters. intros Hrun.
  bind_inv Hrun. apply selection_step in Hx. subst x.
  bind_inv Hrun. apply selection_step in Hx. subst x.
  bind_inv Hrun. bind_inv Hrun. bind_inv Hrun.
  inversion Hrun; subst; clear Hrun.
  unfold by_selection in *. rewrite !select_rows_if in *.
  assert (H1 : x = select_rows
                     (fun r => negb (negb (String.eqb (name_search f) ""))
                               || name_matches (name_search f) (r !! "name"))
                     (select_rows
                        (fun r => negb (truthy (selected_teams f))
                                  || isin (r !! "team") (selection (selected_teams f)))
                        (select_rows
                           (fun r => negb (truthy (selected_years f))
                                     || isin (r !! "year") (selection (selected_years f)))
                           df))).
  { rewrite <- (select_rows_if (negb (String.eqb (name_search f) ""))).
    destruct (negb (String.eqb (name_search f) "")); [|now inversion Hx].
    unfold filter_name in Hx. destruct (has_col "name" _); [|discriminate].
    destruct (re_compiles _); [|discriminate]. now inversion Hx. }
  assert (H2 : x0 = select_rows
                      (fun r => negb (negb (cell_eqb (position_filter f) (Str "All")))
                                || eq_cell (r !! "position") (position_filter f)) x).
  { rewrite <- (select_rows_if (negb (cell_eqb (position_filter f) (Str "All")))).
    destruct (negb (cell_eqb (position_filter f) (Str "All"))); [|now inversion Hx0].
    unfold filter_position in Hx0. destruct (has_col "position" _); [|discriminate].
    now inversion Hx0. }
  assert (Hcols : columns x0 = columns df) by (subst x0 x; reflexivity).
  assert (H3 : fdf = select_rows
                       (fun r => negb (has_col "minuter" df)
                                 || minutes_at_least (min_minutes f) r) x0).
  { rewrite <- (select_rows_if (has_col "minuter" df)).
    rewrite (has_col_columns "minuter" x0 df Hcols) in Hx1.
    destruct (has_col "minuter" df); [|now inversion Hx1].
    now apply filter_min_minutes_ok. }
  subst fdf x0 x. rewrite !select_rows_twice.
  apply select_rows_ext. intros r. unfold keeps.
  rewrite !negb_involutive, !andb_assoc. reflexivity.
Qed.

(** The block runs to its end when every filter that is switched on finds
    its column, the search text compiles, and no [minuter] cell that is
    compared holds text. *)
Lemma apply_filters_reaches_end f df players :
  (truthy (selected_years f) = true ->
     has_col "year" df = true /\ has_col "year" players = true) ->
  (truthy (selected_teams f) = true ->
     has_col "team" df = true /\ has_col "team" players = true) ->
  (name_search f <> "" ->
     has_col "name" df = true /\ re_compiles (name_search f) = true) ->
  (cell_eqb (position_filter f) (Str "All") = false -> has_col "position" df = true) ->
  (has_col "minuter" df = true ->
     Forall (fun r : gmap string cell => forall t, r !! "minuter" <> Some (Str t)) (rows df)) ->
  exists fdf, apply_filters f df players = Ok (fdf, season_team f players).
Proof.
  intros Hyear Hteam Hsearch Hposition Hnum. unfold apply_filters.
  rewrite (selection_step_total "year" (selected_years f) df players Hyear).
  simpl.
  rewrite (selection_step_total "team" (selected_teams f)).
  2:{ now rewrite !has_col_by_selection. }
  simpl. fold (season_team f df). fold (season_team f players).
  assert (Hcols : columns (season_team f df) = columns df).
  { unfold season_team, by_selection.
    destruct (truthy (selected_teams f)), (truthy (selected_years f)); reflexivity. }
  assert (Hrows : sublist (rows (season_team f df)) (rows df)).
  { unfold season_team, by_selection.
    destruct (truthy (selected_teams f)), (truthy (selected_years f)); simpl;
      repeat (etransitivity; [apply sublist_List_filter|]); reflexivity. }
  generalize dependent (season_team f df). intros d Hcols Hrows.
  assert (Hname : exists d1,
             (if negb (String.eqb (name_search f) "")
              then filter_name (name_search f) d else Ok d) = Ok d1 /\
             columns d1 = columns df /\ sublist (rows d1) (rows df)).
  { destruct (String.eqb_spec (name_search f) "") as [Heq|Hne]; simpl; [eauto|].
    destruct (Hsearch Hne) as [Hn Hre]. unfold filter_name.
    rewrite (has_col_columns "name" d df Hcols), Hn, Hre.
    eexists. split; [reflexivity|]. split; [exact Hcols|]. simpl.
    etransitivity; [apply sublist_List_filter | exact Hrows]. }
  destruct Hname as (d1 & -> & Hc1 & Hr1). simpl.
  assert (Hpos : exists d2,
             (if negb (cell_eqb (position_filter f) (Str "All"))
              then filter_position (position_filter f) d1 else Ok d1) = Ok d2 /\
             columns d2 = columns df /\ sublist (rows d2) (rows df)).
  { destruct (cell_eqb (position_filter f) (Str "All")) eqn:Hall; simpl; [eauto|].
    unfold filter_position.
    rewrite (has_col_columns "position" d1 df Hc1), (Hposition eq_refl).
    eexists. split; [reflexivity|]. split; [exact Hc1|]. simpl.
    etransitivity; [apply sublist_List_filter | exact Hr1]. }
  destruct Hpos as (d2 & -> & Hc2 & Hr2). simpl.
  rewrite (has_col_columns "minuter" d2 df Hc2).
  destruct (has_col "minuter" df) eqn:Hm; simpl; [|eauto].
  unfold filter_min_minutes. rewrite filterR_minutes_total.
  - simpl. eauto.
  - apply (Forall_of_sublist _ _ _ Hr2). now apply Hnum.
Qed.

(** X8.  Filtering is idempotent: running the block again on the tables
    it returned, with the same filter values, returns them unchanged. *)
Theorem filtering_twice f df players fdf fp :
  apply_filters f df players = Ok (fdf, fp) ->
  apply_filters f fdf fp = Ok (fdf, fp).
Proof.
  intros Hrun.
  pose proof (apply_filters_needs _ _ _ _ Hrun) as (Hy & Ht & Hn & Hp).
  pose proof (filters_are_one_condition _ _ _ _ _ Hrun) as Hfdf.
  pose proof (apply_filters_ok _ _ _ _ _ Hrun) as (Hfp & _).
  assert (Hcols : columns fdf = columns df) by (now subst fdf).
  assert (Hpcols : columns fp = columns players).
  { subst fp. unfold season_team, by_selection.
    destruct (truthy (selected_teams f)), (truthy (selected_years f)); reflexivity. }
  assert (Hkept : Forall (fun r => keeps f df r = true) (rows fdf)).
  { subst fdf. simpl. apply Forall_forall. intros r Hr.
    now apply list_elem_of_In, List.filter_In in Hr as [_ Hr]. }
  destruct (apply_filters_reaches_end f fdf fp) as (fdf' & Hrun').
  - intros Htr. rewrite (has_col_columns "year" fdf df Hcols),
      (has_col_columns "year" fp players Hpcols). auto.
  - intros Htr. rewrite (has_col_columns "team" fdf df Hcols),
      (has_col_columns "team" fp players Hpcols). auto.
  - intros Hne. rewrite (has_col_columns "name" fdf df Hcols). auto.
  - intros Hall. rewrite (has_col_columns "position" fdf df Hcols). auto.
  - rewrite (has_col_columns "minuter" fdf df Hcols). intros Hhas.
    eapply Forall_impl; [exact Hkept|]. intros r Hr t Htext.
    unfold keeps in Hr. rewrite !andb_true_iff in Hr. destruct Hr as (_ & Hmin).
    rewrite Hhas in Hmin. simpl in Hmin. unfold minutes_at_least in Hmin.
    rewrite Htext in Hmin. discriminate.
  - rewrite Hrun'. f_equal. f_equal.
    + apply filters_are_one_condition in Hrun'. rewrite Hrun'.
      destruct fdf as [cols rs]. unfold select_rows. simpl in *. f_equal.
      apply List_filter_all. eapply Forall_impl; [exact Hkept|].
      intros r Hr. unfold keeps in *.
      now rewrite (has_col_columns "minuter" (mkDF cols rs) df Hcols).
    + rewrite Hfp. apply season_team_twice.
Qed.

(** X9.  Raising the minimum-minutes threshold only removes summary rows:
    of two runs that differ in the threshold alone, the one with the higher
    threshold returns a sub-table of the other's summary table, and the
    same match table. *)
Theorem higher_threshold_fewer_rows f1 f2 df players fdf1 fp1 fdf2 fp2 :
  selected_years f2 = selected_years f1 ->
  selected_teams f2 = selected_teams f1 ->
  name_search f2 = name_search f1 ->
  position_filter f2 = position_filter f1 ->
  min_minutes f1 <= min_minutes f2 ->
  apply_filters f1 df players = Ok (fdf1, fp1) ->
  apply_filters f2 df players = Ok (fdf2, fp2) ->
  sublist (rows fdf2) (rows fdf1) /\ fp2 = fp1.
Proof.
  intros Hy Ht Hn Hp Hle Hrun1 Hrun2. split.
  - apply filters_are_one_condition in Hrun1, Hrun2. subst fdf1 fdf2. simpl.
    apply sublist_filter_impl. intros r. unfold keeps.
    rewrite Hy, Ht, Hn, Hp, !andb_true_iff.
    intros (Hrest & Hmin). split; [exact Hrest|].
    destruct (has_col "minuter" df); simpl in *; [|reflexivity].
    unfold minutes_at_least in *. destruct (r !! "minuter") as [[q|t]|]; try discriminate.
    apply Qle_bool_iff. apply Qle_bool_iff in Hmin.
    apply Qle_trans with (inject_Z (min_minutes f2)); [|assumption].
    now rewrite <- Zle_Qle.
  - apply apply_filters_ok in Hrun1 as (-> & _). apply apply_filters_ok in Hrun2 as (-> & _).
    unfold season_team. now rewrite Hy, Ht.
Qed.

End FilterAsOne.

Lemma filters_are_one_condition_witness :
  apply_filters forwards_500 four_players two_matches = Ok (one_forward, brage_matches) /\
  one_forward = select_rows (keeps forwards_500 four_players) four_players.
Proof.
  assert (Hrun : apply_filters forwards_500 four_players two_matches
                 = Ok (one_forward, brage_matches)) by (vm_compute; reflexivity).
  split; [exact Hrun|]. exact (filters_are_one_condition _ _ _ _ _ Hrun).
Defined.

Lemma filtering_twice_witness :
  apply_filters forwards_500 four_players two_matches = Ok (one_forward, brage_matches) /\
  apply_filters forwards_500 one_forward brage_matches = Ok (one_forward, brage_matches).
Proof.
  assert (Hrun : apply_filters forwards_500 four_players two_matches
                 = Ok (one_forward, brage_matches)) by (vm_compute; reflexivity).
  split; [exact Hrun|]. exact (filtering_twice _ _ _ _ _ Hrun).
Defined.

Lemma higher_threshold_fewer_rows_witness :
  apply_filters forwards_1000 four_players two_matches = Ok (no_forward, brage_matches) /\
  sublist (rows no_forward) (rows one_forward) /\ brage_matches = brage_matches.
Proof.
  assert (Hrun1 : apply_filters forwards_500 four_players two_matches
                  = Ok (one_forward, brage_matches)) by (vm_compute; reflexivity).
  assert (Hrun2 : apply_filters forwards_1000 four_players two_matches
                  = Ok (no_forward, brage_matches)) by (vm_compute; reflexivity).
  split; [exact Hrun2|].
  apply (higher_threshold_fewer_rows forwards_500 forwards_1000 four_players two_matches
           one_forward brage_matches no_forward brage_matches);
    try reflexivity; try assumption. vm_compute. discriminate.
Defined.

(** *** The summary table and the comparison table *)

Lemma filter_split_perm {A} (p : A -> bool) (l : list A) :
  List.filter p l ++ List.filter (fun a => negb (p a)) l ≡ₚ l.
Proof.
  induction l as [|a l IH]; simpl; [reflexivity|].
  destruct (p a); simpl.
  - now rewrite IH.
  - rewrite <- Permutation_middle. now rewrite IH.
Qed.

(** What [sort_values] descending with missing values last returns. *)
Lemma sort_rows_desc_ok (c : string) (d t : DataFrame) :
  sort_rows_desc c d = Ok t ->
  columns t = columns d /\
  rows t ≡ₚ rows d /\
  exists defined undefined,
    rows t = defined ++ undefined /\
    Forall (fun r : gmap string cell => is_Some (r !! c)) defined /\
    Forall (fun r : gmap string cell => r !! c = None) undefined /\
    descending c defined.
Proof.
  unfold sort_rows_desc. destruct (has_col c d); [|discriminate].
  destruct (comparable _); [|discriminate]. intros [= <-]. simpl.
  split; [reflexivity|]. split.
  - rewrite sort_le_perm. apply filter_split_perm.
  - eexists _, _. split; [reflexivity|]. split; [|split].
    + rewrite sort_le_perm. apply Forall_forall. intros r Hr.
      apply list_elem_of_In, List.filter_In in Hr as [_ Hr].
      now apply bool_decide_eq_true in Hr.
    + apply Forall_forall. intros r Hr.
      apply list_elem_of_In, List.filter_In in Hr as [_ Hr].
      apply negb_true_iff, bool_decide_eq_false in Hr.
      destruct (r !! c); [exfalso; eauto | reflexivity].
    + apply (sort_desc_sorted (key_of c (Num 0))).
Qed.

Lemma project_ok (cols : list string) (d : DataFrame) :
  Forall (fun c => c ∈ columns d) cols ->
  project cols d = Ok (mkDF cols (map (shown_part cols) (rows d))).
Proof.
  intros Hcols. unfold project, require.
  rewrite (proj2 (forallb_forall _ _)); [reflexivity|].
  intros c Hc. apply bool_decide_eq_true.
  rewrite Forall_forall in Hcols. now apply Hcols, list_elem_of_In.
Qed.

Lemma project_inv (cols : list string) (d t : DataFrame) :
  project cols d = Ok t -> t = mkDF cols (map (shown_part cols) (rows d)).
Proof.
  unfold project. intros Hp. bind_inv Hp. now inversion Hp.
Qed.

Lemma available_cols_present (d : DataFrame) :
  Forall (fun c => c ∈ columns d) (available_cols d).
Proof.
  apply Forall_forall. intros c Hc.
  apply list_elem_of_In, List.filter_In in Hc as [_ Hc].
  now apply bool_decide_eq_true in Hc.
Qed.

Lemma column_menu_default (d : DataFrame) (dflt : list string) picked :
  Forall (fun c => c ∈ columns d) dflt ->
  column_menu (columns d) dflt picked = Ok (default dflt picked).
Proof.
  intros Hd. unfold column_menu.
  rewrite (proj2 (forallb_forall _ _)); [reflexivity|].
  intros c Hc. apply bool_decide_eq_true.
  rewrite Forall_forall in Hd. now apply Hd, list_elem_of_In.
Qed.

(** X10.  The summary table is sorted by [usage_rate] after the selected
    columns are taken, so it needs [usage_rate] among them: selecting
    columns of the table without [usage_rate] ends the run in [KeyError],
    and so does the untouched column menu on a table that has no
    [usage_rate] column. *)
Theorem summary_table_needs_usage_rate (filtered_df : DataFrame) :
  (forall selected_cols,
      Forall (fun c => c ∈ columns filtered_df) selected_cols ->
      "usage_rate" ∉ selected_cols ->
      summary_table filtered_df selected_cols = Raise KeyError) /\
  (has_col "usage_rate" filtered_df = false ->
   summary_view filtered_df None = Raise KeyError).
Proof.
  assert (Hsel : forall selected_cols,
             Forall (fun c => c ∈ columns filtered_df) selected_cols ->
             "usage_rate" ∉ selected_cols ->
             summary_table filtered_df selected_cols = Raise KeyError).
  { intros sel Hcols Hno. unfold summary_table. rewrite project_ok by assumption.
    simpl. unfold sort_rows_desc, has_col. simpl.
    now rewrite bool_decide_eq_false_2. }
  split; [exact Hsel|].
  intros Hno. unfold summary_view.
  rewrite column_menu_default by apply available_cols_present. simpl.
  apply Hsel; [apply available_cols_present|].
  intros Hin. pose proof (available_cols_present filtered_df) as Hall.
  rewrite Forall_forall in Hall. apply Hall in Hin.
  unfold has_col in Hno. now apply bool_decide_eq_false in Hno.
Qed.

(** X11.  A summary table that is shown has the selected columns, holds
    every filtered row once (its shown part), and lists the rows with a
    defined [usage_rate] first, in descending order, and the rows with an
    undefined [usage_rate] after all of them. *)
Theorem summary_table_order (filtered_df shown : DataFrame) (selected_cols : list string) :
  summary_table filtered_df selected_cols = Ok shown ->
  columns shown = selected_cols /\
  rows shown ≡ₚ map (shown_part selected_cols) (rows filtered_df) /\
  exists defined undefined,
    rows shown = defined ++ undefined /\
    Forall (fun r : gmap string cell => is_Some (r !! "usage_rate")) defined /\
    Forall (fun r : gmap string cell => r !! "usage_rate" = None) undefined /\
    descending "usage_rate" defined.
Proof.
  unfold summary_table. intros Ht. bind_inv Ht.
  apply project_inv in Hx. subst x.
  apply sort_rows_desc_ok in Ht as (Hcols & Hperm & Hsplit).
  repeat split; assumption.
Qed.

(** The comparison table, whatever it shows, shows rows of the selected
    players only. *)
Lemma comparison_rows_ok (d chosen : DataFrame) (players : list (option cell)) :
  comparison_rows d players = Ok chosen ->
  chosen = select_rows (fun r : gmap string cell => option_in (r !! "name") players) d.
Proof.
  unfold comparison_rows. destruct (has_col "name" d); [|discriminate].
  now intros [= <-].
Qed.

(** X12.  A comparison table that is shown holds exactly the filtered
    summary rows whose name is among the selected players, each once, in
    the same order as the summary table: defined [usage_rate] descending,
    undefined last. *)
Theorem comparison_table_rows (filtered_df shown : DataFrame)
  (players : list (option cell)) (picked : option (list string)) :
  comparison_table filtered_df players picked = Ok shown ->
  rows shown ≡ₚ
    map (shown_part (columns shown))
        (List.filter (fun r : gmap string cell => option_in (r !! "name") players)
                     (rows filtered_df)) /\
  exists defined undefined,
    rows shown = defined ++ undefined /\
    Forall (fun r : gmap string cell => is_Some (r !! "usage_rate")) defined /\
    Forall (fun r : gmap string cell => r !! "usage_rate" = None) undefined /\
    descending "usage_rate" defined.
Proof.
  unfold comparison_table. intros Ht. bind_inv Ht. bind_inv Ht. bind_inv Ht.
  apply comparison_rows_ok in Hx0. apply project_inv in Hx1. subst x0 x1.
  apply sort_rows_desc_ok in Ht as (Hcols & Hperm & Hsplit).
  simpl in *. rewrite Hcols. split; assumption.
Qed.

Lemma summary_table_needs_usage_rate_witness :
  summary_table usage_table ["name"; "team"] = Raise KeyError /\
  summary_view one_forward None = Raise KeyError.
Proof.
  split.
  - apply (proj1 (summary_table_needs_usage_rate usage_table)).
    + repeat constructor; apply bool_decide_eq_true; vm_compute; reflexivity.
    + apply (bool_decide_eq_false_1 ("usage_rate" ∈ ["name"; "team"])).
      vm_compute. reflexivity.
  - apply (proj2 (summary_table_needs_usage_rate one_forward)).
    vm_compute. reflexivity.
Defined.

Lemma summary_table_order_witness :
  summary_table usage_table ["name"; "team"; "usage_rate"; "pm90"] = Ok usage_table_shown /\
  rows usage_table_shown ≡ₚ
    map (shown_part ["name"; "team"; "usage_rate"; "pm90"]) (rows usage_table).
Proof.
  assert (Hrun : summary_table usage_table ["name"; "team"; "usage_rate"; "pm90"]
                 = Ok usage_table_shown) by (vm_compute; reflexivity).
  split; [exact Hrun|].
  exact (proj1 (proj2 (summary_table_order _ _ _ Hrun))).
Defined.

Lemma comparison_table_rows_witness :
  comparison_table usage_table [Some (Str "Gustav Nordh"); Some (Str "Cesar Weilid")] None
  = Ok two_compared /\
  rows two_compared ≡ₚ
    map (shown_part (columns two_compared))
        (List.filter (fun r : gmap string cell =>
                        option_in (r !! "name")
                          [Some (Str "Gustav Nordh"); Some (Str "Cesar Weilid")])
                     (rows usage_table)).
Proof.
  assert (Hrun : comparison_table usage_table
                   [Some (Str "Gustav Nordh"); Some (Str "Cesar Weilid")] None
                 = Ok two_compared) by (vm_compute; reflexivity).
  split; [exact Hrun|].
  exact (proj1 (comparison_table_rows _ _ _ _ Hrun)).
Defined.

(** *** The comparison selection *)

Lemma name_eqb_refl (x : option cell) : name_eqb x x = true.
Proof. destruct x; simpl; [apply cell_eqb_refl | reflexivity]. Qed.

Lemma name_eqb_trans (x y z : option cell) :
  name_eqb x y = true -> name_eqb y z = true -> name_eqb x z = true.
Proof.
  destruct x, y, z; simpl; try discriminate; try reflexivity.
  apply cell_eqb_trans.
Qed.

Lemma unique_names_cover (x : option cell) (l : list (option cell)) :
  x ∈ l -> option_in x (unique_names l) = true.
Proof.
  unfold option_in. induction l as [|a l IH]; simpl; intros Hx.
  - now apply elem_of_nil in Hx.
  - destruct (name_eqb x a) eqn:Hxa; [reflexivity|]. simpl.
    apply elem_of_cons in Hx as [->|Hx]; [now rewrite name_eqb_refl in Hxa|].
    apply IH, existsb_exists in Hx as (y & Hy & Hxy).
    apply existsb_exists. exists y. split; [|assumption].
    apply List.filter_In. split; [assumption|].
    destruct (name_eqb y a) eqn:Hya; [|reflexivity].
    now rewrite (name_eqb_trans x y a Hxy Hya) in Hxa.
Qed.

Lemma unique_names_in (x : option cell) (l : list (option cell)) :
  x ∈ unique_names l -> x ∈ l.
Proof.
  induction l as [|a l IH]; simpl; [auto|].
  intros Hx. apply elem_of_cons in Hx as [->|Hx]; [left|right].
  apply list_elem_of_In, List.filter_In in Hx as [Hx _].
  now apply IH, list_elem_of_In.
Qed.

Lemma option_in_eqb (x y : option cell) (l : list (option cell)) :
  name_eqb x y = true -> option_in y l = true -> option_in x l = true.
Proof.
  unfold option_in. intros Hxy Hy.
  apply existsb_exists in Hy as (z & Hz & Hyz).
  apply existsb_exists. exists z. split; [assumption|].
  now apply (name_eqb_trans x y z).
Qed.

Lemma name_present_option (d : DataFrame) (n : string) :
  name_present d n = true ->
  option_in (Some (Str n))
            (unique_names (map (fun r : gmap string cell => r !! "name") (rows d))) = true.
Proof.
  unfold name_present. intros Hn.
  apply existsb_exists in Hn as (r & Hr & Hrn).
  destruct (r !! "name") as [c|] eqn:Hc; [|discriminate]. simpl in Hrn.
  apply (option_in_eqb _ (Some c)).
  - change (cell_eqb (Str n) c = true). now rewrite cell_eqb_sym.
  - apply unique_names_cover. rewrite <- Hc.
    apply list_elem_of_fmap. exists r. split; [reflexivity|].
    now apply list_elem_of_In.
Qed.

(** X13.  The comparison selection never fails on its default: the three
    example players are the default only when each of them is a name of
    the filtered summary, hence an option.  On a table with a [name]
    column the widget returns the user's selection, the default until they
    select; without the column it ends in [KeyError]. *)
Theorem comparison_default_accepted (filtered_df : DataFrame)
  (picked : option (list (option cell))) :
  (has_col "name" filtered_df = true ->
   compare_widget filtered_df picked
   = Ok (default (default_comparison filtered_df) picked) /\
   Forall (fun p => option_in p
                      (unique_names (map (fun r : gmap string cell => r !! "name")
                                         (rows filtered_df))) = true)
          (default_comparison filtered_df)) /\
  (has_col "name" filtered_df = false ->
   compare_widget filtered_df picked = Raise KeyError).
Proof.
  assert (Hdflt : Forall (fun p => option_in p
                      (unique_names (map (fun r : gmap string cell => r !! "name")
                                         (rows filtered_df))) = true)
          (default_comparison filtered_df)).
  { unfold default_comparison.
    destruct (forallb (name_present filtered_df) example_players) eqn:Hall;
      [|constructor].
    apply Forall_forall. intros p Hp.
    apply list_elem_of_fmap in Hp as (n & -> & Hn).
    apply name_present_option.
    rewrite forallb_forall in Hall. now apply Hall, list_elem_of_In. }
  split.
  - intros Hcol. split; [|exact Hdflt].
    unfold compare_widget, column_values. rewrite Hcol. simpl.
    rewrite (proj2 (forallb_forall _ _)); [reflexivity|].
    intros p Hp. rewrite Forall_forall in Hdflt.
    now apply Hdflt, list_elem_of_In.
  - intros Hcol. unfold compare_widget, column_values. now rewrite Hcol.
Qed.

Lemma comparison_default_accepted_witness :
  compare_widget usage_table None = Ok [] /\
  compare_widget (mkDF ["team"] []) None = Raise KeyError.
Proof.
  split.
  - apply (proj1 (proj1 (comparison_default_accepted usage_table None)
                    ltac:(vm_compute; reflexivity))).
  - apply (proj2 (comparison_default_accepted (mkDF ["team"] []) None)).
    vm_compute. reflexivity.
Defined.

(** *** The impact summary *)

Lemma mapR_Forall2 {A B} (f : A -> result B) (l : list A) (s : list B) :
  mapR f l = Ok s -> Forall2 (fun a b => f a = Ok b) l s.
Proof.
  revert s. induction l as [|a l IH]; simpl; intros s Hs.
  - inversion Hs. constructor.
  - bind_inv Hs. bind_inv Hs. inversion Hs; subst.
    constructor; [assumption|]. now apply IH.
Qed.

Lemma filter_length_Permutation {A} (p : A -> bool) (l l' : list A) :
  l ≡ₚ l' -> length (List.filter p l) = length (List.filter p l').
Proof.
  induction 1 as [|x l l' _ IH|x y l|l l' l'' _ IH1 _ IH2]; simpl.
  - reflexivity.
  - destruct (p x); simpl; congruence.
  - destruct (p x), (p y); reflexivity.
  - congruence.
Qed.

Lemma filter_length_pos {A} (p : A -> bool) (l : list A) (y : A) :
  In y l -> p y = true -> (1 <= length (List.filter p l))%nat.
Proof.
  intros Hy Hp.
  assert (Hin : In y (List.filter p l)) by (apply List.filter_In; auto).
  destruct (List.filter p l); [destruct Hin | simpl; lia].
Qed.

Lemma total_app (l l' : list Q) : (total (l ++ l') == total l + total l')%Q.
Proof.
  unfold total. induction l as [|x l IH]; cbn [foldr app]; [ring|].
  rewrite IH. ring.
Qed.

Lemma total_Permutation (l l' : list Q) : l ≡ₚ l' -> (total l == total l')%Q.
Proof.
  unfold total.
  induction 1 as [|x l l' _ IH|x y l|l l' l'' _ IH1 _ IH2]; cbn [foldr].
  - reflexivity.
  - now rewrite IH.
  - ring.
  - now rewrite IH1.
Qed.

Lemma column_total_app c l l' :
  (column_total c (l ++ l') == column_total c l + column_total c l')%Q.
Proof. unfold column_total. rewrite map_app. apply total_app. Qed.

Lemma column_total_Permutation c l l' :
  l ≡ₚ l' -> (column_total c l == column_total c l')%Q.
Proof.
  intros Hp. unfold column_total. apply total_Permutation.
  now apply Permutation_map.
Qed.

Lemma filter_or_split {A} (p q : A -> bool) (l : list A) :
  (forall x, In x l -> p x = true -> q x = false) ->
  List.filter (fun x => p x || q x) l ≡ₚ List.filter p l ++ List.filter q l.
Proof.
  induction l as [|a l IH]; intros Hd; simpl; [reflexivity|].
  assert (IH' := IH (fun x Hx => Hd x (or_intror Hx))).
  destruct (p a) eqn:Hp; simpl.
  - rewrite (Hd a (or_introl eq_refl) Hp). now rewrite IH'.
  - destruct (q a); simpl; [|exact IH'].
    rewrite IH'. apply Permutation_middle.
Qed.

(** Keys that are pairwise different split the rows that have one of
    them into one group for each key. *)
Lemma groups_cover (ks : list cell) (l : list (gmap string cell)) :
  (forall k, (length (List.filter (cell_eqb k) ks) <= 1)%nat) ->
  concat (map (fun k => List.filter (fun r : gmap string cell =>
                                       eq_cell (r !! "name") k) l) ks)
  ≡ₚ List.filter (fun r : gmap string cell => isin (r !! "name") ks) l.
Proof.
  induction ks as [|k ks IH]; intros Hone; cbn [map concat].
  - induction l as [|a l IHl]; simpl; [reflexivity|].
    destruct (a !! "name"); simpl; assumption.
  - rewrite IH.
    + rewrite (List.filter_ext
                 (fun r : gmap string cell => isin (r !! "name") (k :: ks))
                 (fun r : gmap string cell =>
                    eq_cell (r !! "name") k || isin (r !! "name") ks)).
      * symmetry. apply filter_or_split.
        intros r _ Hp. destruct (r !! "name") as [x|]; [|reflexivity].
        simpl in *. destruct (existsb (cell_eqb x) ks) eqn:He; [|reflexivity].
        exfalso. apply existsb_exists in He as (y & Hy & Hxy).
        specialize (Hone k). cbn [List.filter] in Hone.
        rewrite cell_eqb_refl in Hone. cbn [length] in Hone.
        assert (Hky : cell_eqb k y = true).
        { apply (cell_eqb_trans k x y); [|assumption].
          now rewrite cell_eqb_sym. }
        pose proof (filter_length_pos (cell_eqb k) ks y Hy Hky). lia.
      * intros r. destruct (r !! "name"); reflexivity.
    + intros k'. specialize (Hone k'). cbn [List.filter] in Hone.
      destruct (cell_eqb k' k); cbn [length] in Hone; lia.
Qed.

Lemma group_keys_once (d : DataFrame) (k : cell) :
  (length (List.filter (cell_eqb k) (group_keys d)) <= 1)%nat.
Proof.
  unfold group_keys.
  rewrite (filter_length_perm _ _ _ (sort_by_perm id _)).
  apply distinct_once.
Qed.

Lemma group_keys_cover (d : DataFrame) (r : gmap string cell) (n : cell) :
  r ∈ rows d -> r !! "name" = Some n -> py_in n (group_keys d) = true.
Proof.
  intros Hr Hn. unfold group_keys.
  rewrite (py_in_perm _ _ _ (sort_by_perm id _)).
  apply distinct_cover, list_elem_of_omap. now exists r.
Qed.

Lemma group_keys_named (d : DataFrame) (k : cell) :
  k ∈ group_keys d -> exists r : gmap string cell, r ∈ rows d /\ r !! "name" = Some k.
Proof.
  unfold group_keys. rewrite sort_by_perm. intros Hk.
  apply distinct_in, list_elem_of_omap in Hk as (r & Hr & Hk).
  now exists r.
Qed.

(** The groups of [groupby("name")] hold every named row once. *)
Lemma groups_partition (d : DataFrame) :
  concat (map (fun k => group_rows k d) (group_keys d)) ≡ₚ named_rows d.
Proof.
  unfold group_rows. rewrite groups_cover by apply group_keys_once.
  unfold named_rows. erewrite List.filter_ext_in; [reflexivity|].
  intros r Hr. apply list_elem_of_In in Hr.
  destruct (r !! "name") as [n|] eqn:Hn.
  - rewrite bool_decide_eq_true_2 by eauto.
    exact (group_keys_cover d r n Hr Hn).
  - rewrite bool_decide_eq_false_2; [reflexivity|].
    intros [? ?]; congruence.
Qed.

Lemma numbers_measures (c : string) (g : list (gmap string cell)) (xs : list Q) :
  numbers c g = Ok xs ->
  length xs = length (defined_in c g) /\ (total xs == column_total c g)%Q.
Proof.
  unfold numbers. intros Hn. bind_inv Hn. inversion Hn; subst xs. clear Hn.
  revert x Hx. induction g as [|r g IH]; cbn [mapR]; intros vs Hvs.
  - inversion Hvs. split; reflexivity.
  - bind_inv Hvs. bind_inv Hvs. inversion Hvs; subst vs. clear Hvs.
    destruct (IH _ Hx0) as [Hlen Htot].
    unfold defined_in, column_total, total in *.
    destruct (r !! c) as [[q|s]|] eqn:Hr; [| discriminate |];
      inversion Hx; subst x; simpl; rewrite Hr.
    + rewrite bool_decide_eq_true_2 by eauto. simpl.
      split; [f_equal; exact Hlen|].
      apply Qplus_comp; [reflexivity | exact Htot].
    + rewrite bool_decide_eq_false_2 by (intros [? ?]; discriminate).
      split; [exact Hlen|].
      etransitivity; [exact Htot|]. ring.
Qed.

Lemma aggregate_ok (metric : string) (d : DataFrame) (k : cell) (a : ImpactRow) :
  aggregate metric d k = Ok a ->
  ir_name a = k /\
  matches_used a = length (defined_in metric (group_rows k d)) /\
  (minutes_total a == column_total "minutes_played" (group_rows k d))%Q /\
  (impact_mean a = None <-> matches_used a = 0%nat).
Proof.
  unfold aggregate. intros Ha. bind_inv Ha. bind_inv Ha. inversion Ha; subst a.
  cbn [ir_name matches_used minutes_total impact_mean].
  destruct (numbers_measures _ _ _ Hx) as [Hlen _].
  destruct (numbers_measures _ _ _ Hx0) as [_ Htot].
  repeat split; try assumption.
  - unfold Qsum. rewrite Qred_correct. exact Htot.
  - now apply agg_mean_none.
  - now apply agg_mean_none.
Qed.

Lemma impact_summary_groups (metric : string) (d : DataFrame) (s : list ImpactRow) :
  impact_summary metric d = Ok s ->
  Forall2 (fun k a => aggregate metric d k = Ok a) (group_keys d) s.
Proof.
  unfold impact_summary. intros Hs.
  destruct (negb (has_col "name" d)); [discriminate|].
  destruct (negb (has_col metric d)); [discriminate|].
  destruct (negb (has_col "minutes_played" d)); [discriminate|].
  now apply mapR_Forall2.
Qed.

Lemma impact_summary_names (metric : string) (d : DataFrame) (s : list ImpactRow) :
  impact_summary metric d = Ok s -> map ir_name s = group_keys d.
Proof.
  intros Hs. apply impact_summary_groups in Hs.
  induction Hs as [|k a ks s Ha _ IH]; [reflexivity|].
  cbn [map]. rewrite IH. now destruct (aggregate_ok _ _ _ _ Ha) as [-> _].
Qed.

(** X14.  The impact summary counts every match once: over its rows, the
    matches used add up to the number of named match rows with a value of
    the metric, and the minutes add up to the minutes played over all
    named match rows. *)
Theorem impact_summary_conserves (metric : string) (filtered_players : DataFrame)
  (s : list ImpactRow) :
  impact_summary metric filtered_players = Ok s ->
  sum_list (map matches_used s)
  = length (defined_in metric (named_rows filtered_players)) /\
  (total (map minutes_total s)
   == column_total "minutes_played" (named_rows filtered_players))%Q.
Proof.
  intros Hs. apply impact_summary_groups in Hs.
  assert (Hsum : sum_list (map matches_used s)
                 = length (defined_in metric
                     (concat (map (fun k => group_rows k filtered_players)
                                  (group_keys filtered_players)))) /\
                 (total (map minutes_total s)
                  == column_total "minutes_played"
                       (concat (map (fun k => group_rows k filtered_players)
                                    (group_keys filtered_players))))%Q).
  { induction Hs as [|k a ks s' Ha _ [IH1 IH2]]; [split; reflexivity|].
    destruct (aggregate_ok _ _ _ _ Ha) as (_ & Hm & Ht & _).
    cbn [map concat sum_list]. split.
    - unfold defined_in in *. rewrite List.filter_app, length_app.
      rewrite <- Hm, <- IH1. reflexivity.
    - rewrite column_total_app. unfold total in *. cbn [foldr].
      now rewrite IH2, Ht. }
  destruct Hsum as [H1 H2]. split.
  - rewrite H1. apply filter_length_Permutation, groups_partition.
  - rewrite H2. apply column_total_Permutation, groups_partition.
Qed.

Lemma sorted_once_strict (l : list cell) :
  StronglySorted (fun a b => cell_leb a b = true) l ->
  (forall k, (length (List.filter (cell_eqb k) l) <= 1)%nat) ->
  StronglySorted (fun a b => cell_ltb a b = true) l.
Proof.
  induction 1 as [|a l Hs IH Hall]; intros Hone; constructor.
  - apply IH. intros k. specialize (Hone k). cbn [List.filter] in Hone.
    destruct (cell_eqb k a); cbn [length] in Hone; lia.
  - apply Forall_forall. intros b Hb. rewrite Forall_forall in Hall.
    unfold cell_ltb. rewrite (Hall b Hb). simpl.
    destruct (cell_eqb a b) eqn:Hab; [|reflexivity]. exfalso.
    specialize (Hone a). cbn [List.filter] in Hone.
    rewrite cell_eqb_refl in Hone. cbn [length] in Hone.
    apply list_elem_of_In in Hb.
    pose proof (filter_length_pos (cell_eqb a) l b Hb Hab). lia.
Qed.

(** X15.  The impact summary has one row for each player of the match
    table: its names are in strictly ascending order (so no player has two
    rows), every named match row belongs to a player of the summary, and
    every row of the summary is of a player with a match row. *)
Theorem one_row_per_player (metric : string) (filtered_players : DataFrame)
  (s : list ImpactRow) :
  impact_summary metric filtered_players = Ok s ->
  StronglySorted (fun a b => cell_ltb a b = true) (map ir_name s) /\
  (forall (r : gmap string cell) n,
      r ∈ rows filtered_players -> r !! "name" = Some n ->
      exists a, a ∈ s /\ cell_eqb n (ir_name a) = true) /\
  (forall a, a ∈ s ->
      exists r : gmap string cell,
        r ∈ rows filtered_players /\ r !! "name" = Some (ir_name a)).
Proof.
  intros Hs. pose proof (impact_summary_names _ _ _ Hs) as Hnames.
  split; [|split].
  - rewrite Hnames. apply sorted_once_strict.
    + unfold group_keys. apply (sort_by_sorted id).
    + intros k. apply group_keys_once.
  - intros r n Hr Hn.
    pose proof (group_keys_cover _ r n Hr Hn) as Hin.
    rewrite <- Hnames in Hin. unfold py_in in Hin.
    apply existsb_exists in Hin as (k & Hk & Hnk).
    apply list_elem_of_In, list_elem_of_fmap in Hk as (a & -> & Ha).
    now exists a.
  - intros a Ha. apply group_keys_named. rewrite <- Hnames.
    apply list_elem_of_fmap. now exists a.
Qed.

Lemma impact_summary_conserves_witness :
  impact_summary "impact_combo90" match_log = Ok [three_matches; single_match] /\
  sum_list (map matches_used [three_matches; single_match])
  = length (defined_in "impact_combo90" (named_rows match_log)) /\
  (total (map minutes_total [three_matches; single_match])
   == column_total "minutes_played" (named_rows match_log))%Q.
Proof.
  assert (Hrun : impact_summary "impact_combo90" match_log
                 = Ok [three_matches; single_match]) by (vm_compute; reflexivity).
  split; [exact Hrun|].
  exact (impact_summary_conserves _ _ _ Hrun).
Defined.

Lemma one_row_per_player_witness :
  impact_summary "impact_combo90" match_log = Ok [three_matches; single_match] /\
  StronglySorted (fun a b => cell_ltb a b = true)
                 (map ir_name [three_matches; single_match]).
Proof.
  assert (Hrun : impact_summary "impact_combo90" match_log
                 = Ok [three_matches; single_match]) by (vm_compute; reflexivity).
  split; [exact Hrun|].
  exact (proj1 (one_row_per_player _ _ _ Hrun)).
Defined.

Lemma metric_column_option (selected_metric metric : string) :
  (selected_metric, metric) ∈ metric_options ->
  metric_column selected_metric = Ok metric.
Proof.
  unfold metric_options. intros Hin.
  repeat (apply elem_of_cons in Hin as [Hin|Hin];
          [inversion Hin; subst; reflexivity|]).
  now apply elem_of_nil in Hin.
Qed.

(** X16.  Raising the minutes threshold of the scatter plot never makes
    it fail and only removes players; every player left has played at
    least the threshold in total and has at least one match with a value
    of the metric. *)
Theorem raising_scatter_threshold (selected_metric : string) (t1 t2 : Z)
  (filtered_players : DataFrame) (s1 : list ImpactRow) :
  t1 <= t2 ->
  scatter_rows selected_metric t1 filtered_players = Ok s1 ->
  exists s2,
    scatter_rows selected_metric t2 filtered_players = Ok s2 /\
    sublist s2 s1 /\
    Forall (fun a => (inject_Z t2 <= minutes_total a)%Q /\
                     (1 <= matches_used a)%nat) s2.
Proof.
  intros Ht Hs1. unfold scatter_rows in *.
  bind_inv Hs1. bind_inv Hs1. inversion Hs1; subst s1. clear Hs1.
  exists (scatter_set t2 x0). rewrite Hx. simpl. rewrite Hx0. simpl.
  split; [reflexivity|]. split.
  - unfold scatter_set. apply sublist_filter_impl.
    intros a Ha. unfold in_scatter in *.
    apply andb_true_iff in Ha as [Hmin Hmean]. rewrite Hmean, andb_true_r.
    apply Qle_bool_iff in Hmin. apply Qle_bool_iff.
    apply (Qle_trans _ (inject_Z t2)); [|exact Hmin].
    rewrite <- Zle_Qle. exact Ht.
  - apply Forall_forall. intros a Ha.
    apply list_elem_of_In, List.filter_In in Ha as [Ha Hin].
    unfold in_scatter in Hin. apply andb_true_iff in Hin as [Hmin Hmean].
    split; [now apply Qle_bool_iff|].
    apply bool_decide_eq_true in Hmean.
    apply list_elem_of_In in Ha.
    destruct (impact_summary_row _ _ _ _ Hx0 Ha) as (xs & ms & _ & _ & Heq).
    rewrite Heq in Hmean |- *. cbn [impact_mean matches_used] in *.
    destruct xs; [destruct Hmean; discriminate | simpl; lia].
Qed.

Lemma raising_scatter_threshold_witness :
  scatter_rows "Combined Impact 90" 80 match_log = Ok [three_matches; single_match] /\
  exists s2,
    scatter_rows "Combined Impact 90" 100 match_log = Ok s2 /\
    sublist s2 [three_matches; single_match] /\
    Forall (fun a => (inject_Z 100 <= minutes_total a)%Q /\
                     (1 <= matches_used a)%nat) s2.
Proof.
  assert (Hrun : scatter_rows "Combined Impact 90" 80 match_log
                 = Ok [three_matches; single_match]) by (vm_compute; reflexivity).
  split; [exact Hrun|].
  apply (raising_scatter_threshold "Combined Impact 90" 80 100 match_log _); [lia|exact Hrun].
Defined.

Lemma mapR_total {A B} (f : A -> result B) (l : list A) :
  Forall (fun a => exists b, f a = Ok b) l -> exists s, mapR f l = Ok s.
Proof.
  induction 1 as [|a l [b Hb] _ [s Hs]]; simpl; [now exists []|].
  exists (b :: s). now rewrite Hb, Hs.
Qed.

Lemma numbers_total (c : string) (g : list (gmap string cell)) :
  Forall (fun r : gmap string cell => forall s, r !! c <> Some (Str s)) g ->
  exists xs, numbers c g = Ok xs.
Proof.
  intros Hg. unfold numbers.
  destruct (mapR_total
              (fun r : gmap string cell =>
                 match r !! c with
                 | Some (Num q) => Ok (Some q)
                 | Some (Str _) => Raise TypeError
                 | None => Ok None
                 end) g) as [vs Hvs].
  - eapply Forall_impl; [exact Hg|]. intros r Hr. simpl in *.
    destruct (r !! c) as [[q|s]|]; eauto. now destruct (Hr s).
  - rewrite Hvs. simpl. eauto.
Qed.

Lemma impact_summary_total (metric : string) (d : DataFrame) :
  has_col "name" d = true -> has_col metric d = true ->
  has_col "minutes_played" d = true ->
  numeric_column metric d -> numeric_column "minutes_played" d ->
  exists s, impact_summary metric d = Ok s.
Proof.
  intros Hn Hm Hp Hnum Hmin. unfold impact_summary. rewrite Hn, Hm, Hp. simpl.
  apply mapR_total, Forall_forall. intros k _. unfold aggregate.
  destruct (numbers_total metric (group_rows k d)) as [xs Hxs].
  { eapply Forall_of_sublist; [apply sublist_List_filter | exact Hnum]. }
  destruct (numbers_total "minutes_played" (group_rows k d)) as [ms Hms].
  { eapply Forall_of_sublist; [apply sublist_List_filter | exact Hmin]. }
  rewrite Hxs. simpl. rewrite Hms. simpl. eauto.
Qed.

(** X17.  For each of the four metrics of the menu, the rows of the
    scatter plot are computed whenever the match table has the columns
    [name], [minutes_played] and the metric's column, with no text in the
    last two; when one of the three columns is missing the run ends in
    [KeyError]. *)
Theorem scatter_rows_runs (selected_metric metric : string) (t : Z)
  (filtered_players : DataFrame) :
  (selected_metric, metric) ∈ metric_options ->
  (has_col "name" filtered_players && has_col metric filtered_players
   && has_col "minutes_played" filtered_players = false ->
   scatter_rows selected_metric t filtered_players = Raise KeyError) /\
  (has_col "name" filtered_players && has_col metric filtered_players
   && has_col "minutes_played" filtered_players = true ->
   numeric_column metric filtered_players ->
   numeric_column "minutes_played" filtered_players ->
   exists s, impact_summary metric filtered_players = Ok s /\
             scatter_rows selected_metric t filtered_players = Ok (scatter_set t s)).
Proof.
  intros Hopt. apply metric_column_option in Hopt.
  unfold scatter_rows. rewrite Hopt. simpl. split.
  - intros Hcols. unfold impact_summary.
    destruct (has_col "name" filtered_players); [|reflexivity].
    destruct (has_col metric filtered_players); [|reflexivity].
    destruct (has_col "minutes_played" filtered_players); [discriminate|reflexivity].
  - intros Hcols Hnum Hmin.
    apply andb_true_iff in Hcols as [Hcols Hp].
    apply andb_true_iff in Hcols as [Hn Hm].
    destruct (impact_summary_total metric filtered_players Hn Hm Hp Hnum Hmin)
      as [s Hs].
    exists s. split; [exact Hs|]. now rewrite Hs.
Qed.

Lemma scatter_rows_runs_witness :
  scatter_rows "Impact per 90" 300 match_log = Raise KeyError /\
  exists s, impact_summary "impact_combo90" match_log = Ok s /\
            scatter_rows "Combined Impact 90" 300 match_log = Ok (scatter_set 300 s).
Proof.
  split.
  - apply (proj1 (scatter_rows_runs "Impact per 90" "impact90" 300 match_log
                    ltac:(repeat constructor))).
    vm_compute. reflexivity.
  - apply (proj2 (scatter_rows_runs "Combined Impact 90" "impact_combo90" 300 match_log
                    ltac:(repeat constructor))).
    + vm_compute. reflexivity.
    + unfold numeric_column, match_log. cbn [rows].
      repeat (constructor; [intros s; vm_compute; discriminate|]). constructor.
    + unfold numeric_column, match_log. cbn [rows].
      repeat (constructor; [intros s; vm_compute; discriminate|]). constructor.
Defined.

(** *** The normalizer, then the filters *)

Lemma normalize_summary_has (raw df : DataFrame) :
  normalize_summary raw = Ok df ->
  has_col "impact90" df = true /\
  (has_col "impact90" raw = false ->
   has_col "pm90" df = true /\
   Forall (fun r : gmap string cell => r !! "impact90" = r !! "pm90") (rows df)).
Proof.
  unfold normalize_summary.
  destruct (has_col "impact90" raw) eqn:Himp; simpl.
  - intros [= <-]. split; [assumption|discriminate].
  - unfold assign_column. destruct (has_col "pm90" raw) eqn:Hpm; [|discriminate].
    rewrite Himp. intros [= <-]. unfold has_col in *. cbn [columns rows].
    split; [|intros _; split].
    + apply bool_decide_eq_true, elem_of_app. right. apply list_elem_of_here.
    + apply bool_decide_eq_true, elem_of_app. left.
      now apply bool_decide_eq_true in Hpm.
    + apply Forall_forall. intros r' Hr'.
      apply list_elem_of_fmap in Hr' as (r & -> & _).
      rewrite set_cell_same. symmetry. now apply set_cell_other.
Qed.

Lemma season_team_rows (f : Filters) (d : DataFrame) :
  sublist (rows (season_team f d)) (rows d).
Proof.
  unfold season_team, by_selection.
  destruct (truthy (selected_teams f)), (truthy (selected_years f)); cbn [select_rows rows];
    try reflexivity; try apply sublist_List_filter.
  etransitivity; apply sublist_List_filter.
Qed.

Section NormalizedThenFiltered.
Context `{TextLib}.

Lemma apply_filters_sub f df players fdf fp :
  apply_filters f df players = Ok (fdf, fp) ->
  columns fdf = columns df /\ sublist (rows fdf) (rows df).
Proof.
  intros Hf. apply apply_filters_ok in Hf as (_ & d & Hcols & Hsub & _ & ->).
  assert (Hd : sublist (rows d) (rows df))
    by (etransitivity; [exact Hsub | apply season_team_rows]).
  destruct (has_col "minuter" df); cbn [select_rows columns rows]; split;
    try assumption.
  etransitivity; [apply sublist_List_filter | exact Hd].
Qed.

(** X18.  The [impact90] column that the normalizer guarantees is still
    there after any run of the filters: the comparison table offers it by
    default and the Impact / 90 card never falls back on its default 0.
    When the summary file had no [impact90], every filtered row carries
    its [pm90] there, so the Impact / 90 card reads what the Plus-minus /
    90 card reads. *)
Theorem impact90_survives_filters (f : Filters) (raw df players fdf fp : DataFrame) :
  normalize_summary raw = Ok df ->
  apply_filters f df players = Ok (fdf, fp) ->
  has_col "impact90" fdf = true /\
  "impact90" ∈ available_cols_pc fdf /\
  (forall r, row_get (columns fdf) r "impact90" (VInt 0) <> VInt 0) /\
  (has_col "impact90" raw = false ->
   forall r, r ∈ rows fdf ->
     row_get (columns fdf) r "impact90" (VInt 0)
     = row_get (columns fdf) r "pm90" (VInt 0)).
Proof.
  intros Hnorm Hf.
  apply normalize_summary_has in Hnorm as [Himp Hfall].
  apply apply_filters_sub in Hf as [Hcols Hsub].
  assert (Himp' : has_col "impact90" fdf = true)
    by now rewrite (has_col_columns _ _ _ Hcols).
  split; [exact Himp'|]. split; [|split].
  - unfold available_cols_pc. apply list_elem_of_In, List.filter_In.
    split; [|exact Himp']. unfold default_cols_pc. simpl. tauto.
  - intros r. unfold row_get. unfold has_col in Himp'. rewrite Himp'.
    destruct (r !! "impact90") as [[q|s]|]; discriminate.
  - intros Hraw r Hr. destruct (Hfall Hraw) as [Hpm Hall].
    rewrite (has_col_columns _ _ _ (eq_sym Hcols)) in Hpm.
    unfold row_get. unfold has_col in Himp', Hpm. rewrite Himp', Hpm.
    pose proof (Forall_of_sublist _ _ _ Hsub Hall) as Hrows.
    rewrite Forall_forall in Hrows. now rewrite (Hrows r Hr).
Qed.

End NormalizedThenFiltered.

Lemma impact90_survives_filters_witness :
  normalize_summary raw_summary = Ok raw_summary_ready /\
  apply_filters forwards_1000 raw_summary_ready two_matches
  = Ok (raw_summary_shown, brage_matches) /\
  has_col "impact90" raw_summary_shown = true /\
  "impact90" ∈ available_cols_pc raw_summary_shown.
Proof.
  assert (Hnorm : normalize_summary raw_summary = Ok raw_summary_ready)
    by (vm_compute; reflexivity).
  assert (Hrun : apply_filters forwards_1000 raw_summary_ready two_matches
                 = Ok (raw_summary_shown, brage_matches)) by (vm_compute; reflexivity).
  split; [exact Hnorm|]. split; [exact Hrun|].
  pose proof (impact90_survives_filters _ _ _ _ _ _ Hnorm Hrun) as Hthm.
  split; [exact (proj1 Hthm) | exact (proj1 (proj2 Hthm))].
Defined.

(** *** The player profile *)

Lemma present_missing_perm (l : list (option cell)) :
  map Some (omap id l)
  ++ List.filter (fun v : option cell => negb (bool_decide (is_Some v))) l ≡ₚ l.
Proof.
  induction l as [|[x|] l IH]; simpl; [reflexivity| |].
  - now rewrite IH.
  - rewrite <- Permutation_middle. now rewrite IH.
Qed.

Lemma sort_values_perm (l l' : list (option cell)) :
  sort_values l = Ok l' -> l' ≡ₚ l.
Proof.
  unfold sort_values. destruct (comparable _); [|discriminate].
  intros [= <-]. rewrite sort_by_perm. apply present_missing_perm.
Qed.

Lemma player_names_perm (filtered_df : DataFrame) (names : list (option cell)) :
  player_names filtered_df = Ok names ->
  names ≡ₚ map (fun r : gmap string cell => r !! "name") (rows filtered_df).
Proof.
  unfold player_names, column_values. intros Hn. bind_inv Hn.
  destruct (has_col "name" filtered_df); [|discriminate].
  inversion Hx; subst x. now apply sort_values_perm.
Qed.

Lemma selectbox_in {A} (options : list A) (index : nat) (picked : option nat) (p : A) :
  selectbox options index picked = Ok p -> p ∈ options.
Proof.
  unfold selectbox. destruct (options !! index) as [dflt|] eqn:Hd; [|discriminate].
  intros [= <-]. destruct picked as [i|].
  - destruct (options !! i) as [x|] eqn:Hi; simpl.
    + eapply list_elem_of_lookup_2; eassumption.
    + eapply list_elem_of_lookup_2; eassumption.
  - eapply list_elem_of_lookup_2; eassumption.
Qed.

Lemma filter_first {A} (q : A -> bool) (l : list A) (r : A) (rest : list A) :
  List.filter q l = r :: rest ->
  exists before after,
    l = before ++ r :: after /\ q r = true /\
    Forall (fun a => q a = false) before.
Proof.
  induction l as [|a l IH]; simpl; [discriminate|].
  destruct (q a) eqn:Hqa.
  - intros [= -> <-]. exists [], l. repeat split; [assumption|constructor].
  - intros Hf. destruct (IH Hf) as (before & after & -> & Hr & Hb).
    exists (a :: before), after. repeat split; [assumption|].
    now constructor.
Qed.

Lemma filter_none {A} (l : list A) : List.filter (fun _ => false) l = [].
Proof. induction l; simpl; auto. Qed.

Section ProfileMore.
Context `{TextLib}.

(** X19.  The player selectbox asks for the seventh name.  With the names
    of the filtered summary sorted: an empty summary gives the warning
    alone, a summary of one to six players ends the run in a Streamlit
    exception whatever the user does, and from seven players on the
    selectbox returns one of the names. *)
Theorem profile_needs_seven_players (filtered_df filtered_players : DataFrame)
  (names : list (option cell)) (picked : option nat) :
  player_names filtered_df = Ok names ->
  (length (rows filtered_df) = 0%nat ->
   tab_profile filtered_df filtered_players picked
   = Ok [Subheader "Select player"; Warning "Inga spelare matchar de valda filtren"]) /\
  ((0 < length (rows filtered_df) < 7)%nat ->
   tab_profile filtered_df filtered_players picked = Raise StreamlitAPIException) /\
  ((7 <= length (rows filtered_df))%nat ->
   exists p, selectbox names 6 picked = Ok p /\ p ∈ names).
Proof.
  intros Hnames.
  assert (Hlen : length names = length (rows filtered_df)).
  { rewrite (Permutation_length (player_names_perm _ _ Hnames)).
    apply length_map. }
  unfold tab_profile. rewrite Hnames. cbn [rbind]. rewrite Hlen.
  split; [|split].
  - intros ->. reflexivity.
  - intros Hshort.
    destruct (length (rows filtered_df) =? 0)%nat eqn:Hz;
      [apply Nat.eqb_eq in Hz; lia|].
    unfold selectbox. rewrite (lookup_ge_None_2 names 6) by lia. reflexivity.
  - intros Hlong.
    destruct (lookup_lt_is_Some_2 names 6 ltac:(lia)) as [dflt Hd].
    assert (Hsel : exists p, selectbox names 6 picked = Ok p)
      by (unfold selectbox; rewrite Hd; eauto).
    destruct Hsel as [p Hp]. exists p. split; [exact Hp|].
    now apply selectbox_in in Hp.
Qed.

End ProfileMore.

(** X20.  The player the selectbox returns is a name of the filtered
    summary, and the metric cards are drawn from the first summary row
    with that name.  When the returned name is the missing one (a summary
    row without a name), no row equals it and the run ends in
    [IndexError]. *)
Theorem selected_player_row (filtered_df : DataFrame) (names : list (option cell))
  (picked : option nat) (selected_player : option cell) :
  player_names filtered_df = Ok names ->
  selectbox names 6 picked = Ok selected_player ->
  selected_player ∈ names /\
  match selected_player with
  | Some n =>
      exists before r after,
        rows filtered_df = before ++ r :: after /\
        eq_cell (r !! "name") n = true /\
        Forall (fun r' : gmap string cell => eq_cell (r' !! "name") n = false) before /\
        player_row filtered_df selected_player = Ok r
  | None => player_row filtered_df selected_player = Raise IndexError
  end.
Proof.
  intros Hnames Hsel. apply selectbox_in in Hsel. split; [exact Hsel|].
  destruct selected_player as [n|].
  - rewrite (player_names_perm _ _ Hnames) in Hsel.
    apply list_elem_of_fmap in Hsel as (r0 & Hn & Hr0).
    unfold player_row. cbn [from_option].
    destruct (List.filter (fun r : gmap string cell => eq_cell (r !! "name") n)
                          (rows filtered_df)) as [|r rest] eqn:Hf.
    + exfalso. apply list_elem_of_In in Hr0.
      assert (Hin : In r0 (List.filter (fun r : gmap string cell =>
                                          eq_cell (r !! "name") n) (rows filtered_df))).
      { apply List.filter_In. split; [exact Hr0|].
        rewrite <- Hn. apply cell_eqb_refl. }
      rewrite Hf in Hin. destruct Hin.
    + destruct (filter_first _ _ _ _ Hf) as (before & after & Hrows & Hr & Hb).
      exists before, r, after. repeat split; assumption.
  - unfold player_row. cbn [from_option]. now rewrite filter_none.
Qed.

Lemma selected_player_row_witness :
  player_names roster_of_seven
  = Ok (map (fun r : gmap string cell => r !! "name") (rows roster_of_seven)) /\
  selectbox (map (fun r : gmap string cell => r !! "name") (rows roster_of_seven)) 6 None
  = Ok (Some (Str "Viktor Lundberg")) /\
  Some (Str "Viktor Lundberg")
  ∈ map (fun r : gmap string cell => r !! "name") (rows roster_of_seven).
Proof.
  assert (Hn : player_names roster_of_seven
               = Ok (map (fun r : gmap string cell => r !! "name") (rows roster_of_seven)))
    by (vm_compute; reflexivity).
  assert (Hs : selectbox (map (fun r : gmap string cell => r !! "name")
                              (rows roster_of_seven)) 6 None
               = Ok (Some (Str "Viktor Lundberg"))) by (vm_compute; reflexivity).
  split; [exact Hn|]. split; [exact Hs|].
  exact (proj1 (selected_player_row _ _ _ _ Hn Hs)).
Defined.

Lemma profile_needs_seven_players_witness :
  player_names roster_of_six
  = Ok (map (fun r : gmap string cell => r !! "name") (rows roster_of_six)) /\
  tab_profile roster_of_six log_without_viktor (Some 2%nat) = Raise StreamlitAPIException.
Proof.
  assert (Hn : player_names roster_of_six
               = Ok (map (fun r : gmap string cell => r !! "name") (rows roster_of_six)))
    by (vm_compute; reflexivity).
  split; [exact Hn|].
  apply (proj1 (proj2 (profile_needs_seven_players roster_of_six log_without_viktor
                         _ (Some 2%nat) Hn))).
  vm_compute. lia.
Defined.

Section MetricCards.
Context `{TextLib}.

Lemma int_or_dash_number (cols : list string) (r : gmap string cell) (c : string) :
  (forall s, r !! c <> Some (Str s)) ->
  exists v, int_or_dash (row_get cols r c VNone) = Ok v.
Proof.
  intros Hc. unfold int_or_dash, row_get.
  destruct (bool_decide (c ∈ cols)); cbn [pd_isna]; [|eauto].
  destruct (r !! c) as [[q|s]|]; cbn [pd_isna py_int rbind]; eauto.
  now destruct (Hc s).
Qed.

Lemma py_round2_number (cols : list string) (r : gmap string cell) (c : string) :
  (forall s, r !! c <> Some (Str s)) ->
  exists v, py_round2 (row_get cols r c (VInt 0)) = Ok v.
Proof.
  intros Hc. unfold row_get.
  destruct (bool_decide (c ∈ cols)); cbn [py_round2]; [|eauto].
  destruct (r !! c) as [[q|s]|]; cbn [py_round2]; eauto.
  now destruct (Hc s).
Qed.

Lemma py_int_number (cols : list string) (r : gmap string cell) (c : string) :
  (forall s, r !! c <> Some (Str s)) ->
  py_int (row_get cols r c VNone)
  = if bool_decide (c ∈ cols)
    then match r !! c with
         | Some (Num q) => Ok (Qtrunc q)
         | _ => Raise ValueError
         end
    else Raise TypeError.
Proof.
  intros Hc. unfold row_get.
  destruct (bool_decide (c ∈ cols)); [|reflexivity].
  destruct (r !! c) as [[q|s]|]; try reflexivity.
  now destruct (Hc s).
Qed.

Lemma metric_cards_form (cols : list string) (r : gmap string cell) :
  (forall c s, c ∈ card_numbers -> r !! c <> Some (Str s)) ->
  exists cards : Z -> Z -> list element,
    metric_cards cols r
    = rbind (py_int (row_get cols r "minuter" VNone)) (fun minutes =>
      rbind (py_int (row_get cols r "matcher" VNone)) (fun matches =>
      Ok (cards minutes matches))).
Proof.
  intros Hnum.
  assert (Hc : forall c, c ∈ card_numbers -> forall s, r !! c <> Some (Str s))
    by (intros c Hc s; now apply Hnum).
  destruct (int_or_dash_number cols r "ålder") as [a Ha];
    [apply Hc; unfold card_numbers; repeat constructor|].
  destruct (int_or_dash_number cols r "market_value") as [m Hm];
    [apply Hc; unfold card_numbers; repeat constructor|].
  destruct (py_round2_number cols r "usage_rate") as [u Hu];
    [apply Hc; unfold card_numbers; repeat constructor|].
  destruct (py_round2_number cols r "starter_rate") as [st Hst];
    [apply Hc; unfold card_numbers; repeat constructor|].
  destruct (py_round2_number cols r "impact90") as [i Hi];
    [apply Hc; unfold card_numbers; repeat constructor|].
  destruct (py_round2_number cols r "pm90") as [p Hp];
    [apply Hc; unfold card_numbers; repeat constructor|].
  destruct (py_round2_number cols r "on_off_total") as [o Ho];
    [apply Hc; unfold card_numbers; repeat constructor|].
  exists (fun minutes matches =>
            [ Metric "Team" (row_get cols r "team" VNone);
              Metric "Position" (row_get cols r "position" VNone);
              Metric "Year" a; Metric "Minutes" (VInt minutes);
              Metric "Market value" m;
              Subheader "Availability";
              Metric "Matches" (VInt matches);
              Metric "Usage rate" u; Metric "Starter rate" st;
              Subheader "Impact";
              Metric "Impact / 90" i; Metric "Plus-minus / 90" p;
              Metric "On-Off diff" o ]).
  unfold metric_cards. cbv zeta. rewrite Ha. cbn [rbind].
  destruct (py_int (row_get cols r "minuter" VNone)); cbn [rbind]; [|reflexivity].
  rewrite Hm. cbn [rbind].
  destruct (py_int (row_get cols r "matcher" VNone)); cbn [rbind]; [|reflexivity].
  rewrite Hu. cbn [rbind]. rewrite Hst. cbn [rbind]. rewrite Hi. cbn [rbind].
  rewrite Hp. cbn [rbind]. rewrite Ho. reflexivity.
Qed.

(** X21.  For a summary row with no text in the columns the cards turn
    into numbers, the metric cards are shown exactly when the row has a
    defined [minuter] and a defined [matcher]; every other card accepts a
    missing column or an undefined value.  Without the [minuter] column
    the run ends in [TypeError], with the column and an undefined value
    in [ValueError]. *)
Theorem metric_cards_shown (cols : list string) (r : gmap string cell) :
  (forall c s, c ∈ card_numbers -> r !! c <> Some (Str s)) ->
  ((exists cards, metric_cards cols r = Ok cards) <->
   "minuter" ∈ cols /\ is_Some (r !! "minuter") /\
   "matcher" ∈ cols /\ is_Some (r !! "matcher")) /\
  ("minuter" ∉ cols -> metric_cards cols r = Raise TypeError) /\
  ("minuter" ∈ cols -> r !! "minuter" = None ->
   metric_cards cols r = Raise ValueError).
Proof.
  intros Hnum. destruct (metric_cards_form cols r Hnum) as [cards ->].
  rewrite !py_int_number
    by (intros s; apply Hnum; unfold card_numbers; repeat constructor).
  destruct (decide ("minuter" ∈ cols)) as [Hmc|Hmc];
    [rewrite (bool_decide_eq_true_2 _ Hmc) | rewrite (bool_decide_eq_false_2 _ Hmc)];
    (destruct (decide ("matcher" ∈ cols)) as [Hac|Hac];
     [rewrite (bool_decide_eq_true_2 _ Hac) | rewrite (bool_decide_eq_false_2 _ Hac)]);
    destruct (r !! "minuter") as [[q|s]|] eqn:Hm;
    destruct (r !! "matcher") as [[q'|s']|] eqn:Ha; cbn [rbind];
    try (exfalso; eapply Hnum; [|eassumption];
         unfold card_numbers; repeat constructor; fail);
    (split; [split; [intros [els Hels]; try discriminate; eauto 10
                    | intros (? & [? ?] & ? & [? ?]);
                      try discriminate; try contradiction; eauto]
            | split; intros; try reflexivity; try contradiction; try discriminate]).
Qed.

End MetricCards.

Lemma metric_cards_shown_witness :
  (exists cards,
      metric_cards summary_columns (summary_row "Viktor Lundberg" (Some 24%Q) (Some 15%Q))
      = Ok cards) /\
  metric_cards ["name"; "matcher"] (summary_row "Viktor Lundberg" (Some 24%Q) (Some 15%Q))
  = Raise TypeError.
Proof.
  assert (Hnum : forall c s, c ∈ card_numbers ->
                   summary_row "Viktor Lundberg" (Some 24%Q) (Some 15%Q) !! c
                   <> Some (Str s)).
  { intros c s Hc. unfold card_numbers in Hc.
    repeat (apply elem_of_cons in Hc as [->|Hc]; [vm_compute; discriminate|]).
    now apply elem_of_nil in Hc. }
  split.
  - apply (proj1 (metric_cards_shown summary_columns _ Hnum)).
    repeat split; try (vm_compute; eauto);
      apply (bool_decide_eq_true_1 (_ ∈ _)); vm_compute; reflexivity.
  - apply (proj1 (proj2 (metric_cards_shown ["name"; "matcher"] _ Hnum))).
    apply (bool_decide_eq_false_1 ("minuter" ∈ ["name"; "matcher"])).
    vm_compute. reflexivity.
Defined.

(** *** The per-match charts *)

Lemma shown_part_lookup (cols : list string) (r : gmap string cell) (c : string) :
  c ∈ cols -> shown_part cols r !! c = r !! c.
Proof.
  intros Hc. unfold shown_part. apply option_eq. intros x.
  rewrite map_lookup_filter_Some. simpl. tauto.
Qed.

Lemma sorted_keys {A} (key : A -> cell) (l : list A) :
  StronglySorted (fun a b => cell_leb (key a) (key b) = true) l ->
  StronglySorted (fun a b => cell_leb a b = true) (map key l).
Proof.
  induction 1 as [|a l _ IH Hall]; simpl; constructor; [assumption|].
  apply Forall_forall. intros k Hk.
  apply list_elem_of_fmap in Hk as (b & -> & Hb).
  rewrite Forall_forall in Hall. now apply Hall.
Qed.

Lemma column_of_present (c : string) (l : list (gmap string cell)) :
  Forall (fun r : gmap string cell => is_Some (r !! c)) l ->
  map (fun r : gmap string cell => r !! c) l = map Some (map (key_of c (Num 0)) l).
Proof.
  induction 1 as [|r l [x Hx] _ IH]; simpl; [reflexivity|].
  rewrite IH. unfold key_of. now rewrite Hx.
Qed.

Lemma column_of_missing (c : string) (l : list (gmap string cell)) :
  Forall (fun r : gmap string cell => r !! c = None) l ->
  map (fun r : gmap string cell => r !! c) l = replicate (length l) None.
Proof.
  induction 1 as [|r l Hr _ IH]; simpl; [reflexivity|]. now rewrite Hr, IH.
Qed.

Lemma sort_rows_ok (c : string) (d t : DataFrame) :
  sort_rows c d = Ok t ->
  columns t = columns d /\
  rows t ≡ₚ rows d /\
  ascending_missing_last (map (fun r : gmap string cell => r !! c) (rows t)).
Proof.
  unfold sort_rows. destruct (has_col c d); [|discriminate].
  destruct (comparable _); [|discriminate]. intros [= <-]. cbn [columns rows].
  split; [reflexivity|]. split.
  - rewrite sort_by_perm. apply filter_split_perm.
  - rewrite map_app. eexists _, _. split.
    + f_equal; [apply column_of_present | apply column_of_missing].
      * rewrite sort_by_perm. apply Forall_forall. intros r Hr.
        apply list_elem_of_In, List.filter_In in Hr as [_ Hr].
        now apply bool_decide_eq_true in Hr.
      * apply Forall_forall. intros r Hr.
        apply list_elem_of_In, List.filter_In in Hr as [_ Hr].
        apply negb_true_iff, bool_decide_eq_false in Hr.
        destruct (r !! c); [exfalso; eauto | reflexivity].
    + apply sorted_keys, sort_by_sorted.
Qed.

Section Charts.
Context `{TextLib}.

Lemma astype_float_ok (c : string) (d t : DataFrame) :
  astype_float c d = Ok t ->
  columns t = columns d /\
  forall k, k <> c ->
    map (fun r : gmap string cell => r !! k) (rows t)
    = map (fun r : gmap string cell => r !! k) (rows d).
Proof.
  unfold astype_float. destruct (has_col c d); [|discriminate].
  intros Ht. bind_inv Ht. inversion Ht; subst t. clear Ht. cbn [columns rows].
  split; [reflexivity|]. intros k Hk.
  apply mapR_Forall2 in Hx.
  induction Hx as [|r r' l l' Hr _ IH]; simpl; [reflexivity|].
  rewrite IH. f_equal.
  destruct (r !! c) as [[q|s]|]; try (now inversion Hr).
  destruct (float_of_text s) as [v|]; [|discriminate].
  inversion Hr. now apply set_cell_other.
Qed.

Lemma rows_of_player_ok (player : option cell) (fp d : DataFrame) :
  rows_of_player player fp = Ok d -> d = select_rows (of_player player) fp.
Proof.
  unfold rows_of_player. destruct (has_col "name" fp); [|discriminate].
  now intros [= <-].
Qed.

Lemma of_player_names (player : option cell) (l : list (gmap string cell)) :
  Forall (fun v => from_option (eq_cell v) false player = true) (match_names l) ->
  Forall (fun r : gmap string cell => of_player player r = true) l.
Proof.
  unfold match_names. rewrite Forall_fmap. intros Hl.
  eapply Forall_impl; [exact Hl|]. intros r Hr. exact Hr.
Qed.

(** A table whose names are those of the player's match rows, in any
    order, and whose kick-offs ascend, draws the matches of the player. *)
Lemma draws_matches_of_intro (player : option cell) (fp data : DataFrame) :
  match_names (rows data) ≡ₚ match_names (List.filter (of_player player) (rows fp)) ->
  (0 <? length (rows data))%nat = true ->
  chronological (rows data) ->
  draws_matches_of player fp data.
Proof.
  intros Hnames Hpos Hchron. unfold draws_matches_of.
  split; [|split; [|split]].
  - apply Permutation_length in Hnames. unfold match_names in Hnames.
    now rewrite !length_map in Hnames.
  - now apply Nat.ltb_lt in Hpos.
  - apply of_player_names. rewrite Hnames.
    unfold match_names. rewrite Forall_fmap.
    apply Forall_forall. intros r Hr.
    apply list_elem_of_In, List.filter_In in Hr as [_ Hr]. exact Hr.
  - exact Hchron.
Qed.

Lemma match_usage_draws fp player els p data :
  match_usage fp player = Ok els -> Figure p data ∈ els ->
  draws_matches_of player fp data.
Proof.
  unfold match_usage. intros Hm Hin.
  bind_inv Hm. rename x into m0, Hx into H0.
  bind_inv Hm. rename x into m1, Hx into H1.
  bind_inv Hm. rename x into m2, Hx into H2.
  bind_inv Hm. rename x into m3, Hx into H3.
  bind_inv Hm. rename x into m4, Hx into H4.
  apply rows_of_player_ok in H0. subst m0.
  apply sort_rows_ok in H1 as (_ & Hperm & Hasc).
  apply astype_float_ok in H2 as [_ H2].
  apply astype_float_ok in H3 as [_ H3].
  apply astype_float_ok in H4 as [_ H4].
  destruct (0 <? length (rows m4))%nat eqn:Hpos.
  - bind_inv Hm. bind_inv Hm. inversion Hm; subst els.
    apply list_elem_of_singleton in Hin. inversion Hin; subst p data.
    apply draws_matches_of_intro; [|exact Hpos|].
    + unfold match_names.
      rewrite H4, H3, H2 by discriminate. now rewrite Hperm.
    + unfold chronological. now rewrite H4, H3, H2 by discriminate.
  - inversion Hm; subst els. apply list_elem_of_singleton in Hin. discriminate.
Qed.

Lemma match_impact_draws fp player els p data :
  match_impact fp player = Ok els -> Figure p data ∈ els ->
  draws_matches_of player fp data.
Proof.
  unfold match_impact. intros Hm Hin.
  bind_inv Hm. rename x into m0, Hx into H0.
  bind_inv Hm. rename x into m1, Hx into H1.
  apply rows_of_player_ok in H0. subst m0.
  apply sort_rows_ok in H1 as (_ & Hperm & Hasc).
  destruct (0 <? length (rows m1))%nat eqn:Hpos.
  - bind_inv Hm. inversion Hm; subst els.
    apply list_elem_of_singleton in Hin. inversion Hin; subst p data.
    apply draws_matches_of_intro; [|exact Hpos|exact Hasc].
    unfold match_names. now rewrite Hperm.
  - inversion Hm; subst els. apply list_elem_of_singleton in Hin. discriminate.
Qed.

Lemma on_pitch_chart_draws plt fp player els p data :
  on_pitch_chart plt fp player = Ok els -> Figure p data ∈ els ->
  draws_matches_of player fp data.
Proof.
  unfold on_pitch_chart. intros Hm Hin.
  bind_inv Hm. rename x into m0, Hx into H0.
  bind_inv Hm. rename x into m1, Hx into H1.
  bind_inv Hm. rename x into m2, Hx into H2.
  apply rows_of_player_ok in H0. subst m0.
  apply project_inv in H1. subst m1.
  apply sort_rows_ok in H2 as (_ & Hperm & Hasc).
  destruct (0 <? length (rows m2))%nat eqn:Hpos.
  - inversion Hm; subst els.
    apply list_elem_of_singleton in Hin. inversion Hin; subst p data.
    apply draws_matches_of_intro; [|exact Hpos|exact Hasc].
    unfold match_names. rewrite Hperm. cbn [rows select_rows].
    rewrite map_map. erewrite map_ext; [reflexivity|].
    intros r. cbn beta. apply shown_part_lookup.
    unfold impact_columns. repeat constructor.
  - inversion Hm; subst els. now apply elem_of_nil in Hin.
Qed.

(** X22.  Every figure of the profile's four per-match charts draws the
    match rows of the selected player and no others: as many rows as the
    player has in the filtered match table, at least one, each with the
    player's name, in the order of their kick-off with undated rows
    last. *)
Theorem charts_draw_selected_player (filtered_players : DataFrame)
  (player_name : option cell) (els : list element) (p : plot) (data : DataFrame) :
  profile_charts filtered_players player_name = Ok els ->
  Figure p data ∈ els ->
  draws_matches_of player_name filtered_players data.
Proof.
  unfold profile_charts. intros Hc Hin.
  bind_inv Hc. rename x into usage, Hx into Husage.
  bind_inv Hc. rename x into impact, Hx into Himpact.
  bind_inv Hc. rename x into offensive, Hx into Hoff.
  bind_inv Hc. rename x into defensive, Hx into Hdef.
  inversion Hc; subst els. clear Hc.
  repeat first [ apply elem_of_app in Hin as [Hin|Hin]
               | apply elem_of_cons in Hin as [Hin|Hin]; [discriminate|]
               | now apply elem_of_nil in Hin ].
  - exact (match_usage_draws _ _ _ _ _ Husage Hin).
  - exact (match_impact_draws _ _ _ _ _ Himpact Hin).
  - exact (on_pitch_chart_draws _ _ _ _ _ _ Hoff Hin).
  - exact (on_pitch_chart_draws _ _ _ _ _ _ Hdef Hin).
Qed.

End Charts.

Lemma charts_draw_selected_player_witness :
  profile_charts log_without_viktor (Some (Str "Amar Muhsin")) = Ok amar_charts /\
  Figure OffensiveImpact amar_on_pitch ∈ amar_charts /\
  draws_matches_of (Some (Str "Amar Muhsin")) log_without_viktor amar_on_pitch.
Proof.
  assert (Hrun : profile_charts log_without_viktor (Some (Str "Amar Muhsin"))
                 = Ok amar_charts) by (vm_compute; reflexivity).
  assert (Hin : Figure OffensiveImpact amar_on_pitch ∈ amar_charts).
  { unfold amar_charts. do 7 apply list_elem_of_further. apply list_elem_of_here. }
  split; [exact Hrun|]. split; [exact Hin|].
  exact (charts_draw_selected_player _ _ _ _ _ Hrun Hin).
Defined.
